(** * Age-verification audit: the fast route and the audit page

    A shallow embedding of [nextjs-app/src/app/api/audit/fast/route.ts]:
    the response-recovery parser [parseRobustJSON], the prompt and the
    batched, time-bounded request handler [POST]; and of the pure parts
    of [nextjs-app/src/app/audit/page.tsx]: [parseFileContent], the
    text of [exportReport] and the rows of demo mode.

    Conventions of the model.
    - A text is a [string]; a character is one code unit below 256.
    - A JavaScript number is an exact rational ([Q]), always kept reduced:
      the value as written or as computed without rounding, where the
      source holds the nearest double. A statement that depends on the
      exact value of a number asks for one that a double holds exactly
      ([Observed.exactDouble]).
    - A regular-expression literal of the source is a value of [Regex.regex],
      run by a backtracking matcher that follows the order of the
      ECMAScript matcher (leftmost start, left alternative first, greedy
      repetition first).
    - The inference service, the clock and the liveness probe are the
      [World] the handler runs in. [Dispatch.POST] is the handler from
      the list of targets on; [Entry.onRequest] is the handler from the
      request on, with the reading of the body and the guard of line
      305. *)

From Stdlib Require Import Bool Arith ZArith QArith Lia List.
From Stdlib Require Import Ascii String DecimalString.
From Equations Require Import Equations.
Import ListNotations.

Close Scope Q_scope.
Open Scope string_scope.

(* ===================================================================== *)
(** ** Texts *)
(* ===================================================================== *)

Module Text.

Definition code (c : ascii) : N := N_of_ascii c.

Definition between (lo hi : N) (c : ascii) : bool :=
  (lo <=? code c)%N && (code c <=? hi)%N.

Definition only (x : ascii) (c : ascii) : bool := Ascii.eqb x c.

(** [\d] *)
Definition digit (c : ascii) : bool := between 48 57 c.

(** [\w] is [[A-Za-z0-9_]] *)
Definition word (c : ascii) : bool :=
  between 65 90 c || between 97 122 c || digit c || only "_" c.

(** [\s], and the characters [trim] strips: TAB, LF, VT, FF, CR, SP, NBSP *)
Definition space (c : ascii) : bool :=
  between 9 13 c || (code c =? 32)%N || (code c =? 160)%N.

(** [String.prototype.toLowerCase], one code unit at a time: A-Z, and the
    Latin-1 capitals U+00C0..U+00DE except the multiplication sign. *)
Definition lower (c : ascii) : ascii :=
  if between 65 90 c || (between 192 222 c && negb (code c =? 215)%N)
  then ascii_of_N (code c + 32) else c.

(** the inverse of [lower] on the letters it changes *)
Definition upper (c : ascii) : ascii :=
  if between 97 122 c || (between 224 254 c && negb (code c =? 247)%N)
  then ascii_of_N (code c - 32) else c.

Fixpoint toLowerCase (s : string) : string :=
  match s with
  | EmptyString => EmptyString
  | String c s' => String (lower c) (toLowerCase s')
  end.

(** [s.startsWith(m)], by recursion on the searched text [m] *)
Fixpoint startsWith (m s : string) : bool :=
  match m with
  | EmptyString => true
  | String a m' =>
      match s with
      | EmptyString => false
      | String b s' => Ascii.eqb a b && startsWith m' s'
      end
  end.

(** [s.includes(m)] *)
Fixpoint includes (s m : string) : bool :=
  startsWith m s ||
  match s with
  | EmptyString => false
  | String _ s' => includes s' m
  end.

Fixpoint take (n : nat) (s : string) : string :=
  match n, s with
  | S n', String c s' => String c (take n' s')
  | _, _ => EmptyString
  end.

(** [s.slice(n)] *)
Fixpoint drop (n : nat) (s : string) : string :=
  match n, s with
  | S n', String _ s' => drop n' s'
  | _, _ => s
  end.

Fixpoint trimStart (s : string) : string :=
  match s with
  | String c s' => if space c then trimStart s' else s
  | EmptyString => EmptyString
  end.

(** the text without its trailing white space *)
Fixpoint trimEnd (s : string) : string :=
  match s with
  | EmptyString => EmptyString
  | String c s' =>
      match trimEnd s' with
      | EmptyString => if space c then EmptyString else String c EmptyString
      | t => String c t
      end
  end.

(** [String.prototype.trim] *)
Definition trim (s : string) : string := trimEnd (trimStart s).

(** The double quote. Literal texts of this file are written with a
    backquote wherever the source has a double quote; [txt] puts the
    double quotes back. *)
Definition quote : ascii := "034"%char.

Fixpoint txt (s : string) : string :=
  match s with
  | EmptyString => EmptyString
  | String c s' => String (if Ascii.eqb c "`" then quote else c) (txt s')
  end.

(** [c] is one of the characters of [m] *)
Fixpoint occurs (c : ascii) (m : string) : bool :=
  match m with
  | EmptyString => false
  | String x m' => Ascii.eqb x c || occurs c m'
  end.

(** no character of [d] is one of [m] *)
Definition noneOccurs (d m : string) : Prop :=
  forall c, occurs c d = true -> occurs c m = false.

(** the code units of a text *)
Fixpoint codes (s : string) : list N :=
  match s with
  | EmptyString => []
  | String c s' => code c :: codes s'
  end.

End Text.

(* ===================================================================== *)
(** ** Regular expressions *)
(* ===================================================================== *)

Module Regex.

(** *** Syntax

    The fragment the source's literals are written in: characters and
    character classes, sequence, alternation, greedy repetition of a
    single character or class, and numbered capture groups. *)

Inductive kind := KDigit | KWord | KSpace | KNotDigit | KNotWord | KNotSpace.

Inductive item :=
| One (c : ascii)
| Range (lo hi : ascii)
| Esc (k : kind).

Record class := Class { negated : bool; items : list item }.

Inductive regex : Type :=
| Eps
| Chr (c : class)
| Cat (r1 r2 : regex)
| Alt (r1 r2 : regex)
| Star (c : class)
| Grp (n : nat) (r : regex).

(** a literal that matches nothing *)
Definition never : regex := Chr (Class false []).

(** *** Reading a literal

    [read src] is the literal [/src/] of the source. In [src] a backquote
    stands for the double quote of the source. *)

Definition escaped (e : ascii) : item :=
  if Ascii.eqb e "d" then Esc KDigit
  else if Ascii.eqb e "w" then Esc KWord
  else if Ascii.eqb e "s" then Esc KSpace
  else if Ascii.eqb e "D" then Esc KNotDigit
  else if Ascii.eqb e "W" then Esc KNotWord
  else if Ascii.eqb e "S" then Esc KNotSpace
  else if Ascii.eqb e "t" then One "009"
  else if Ascii.eqb e "n" then One "010"
  else if Ascii.eqb e "v" then One "011"
  else if Ascii.eqb e "f" then One "012"
  else if Ascii.eqb e "r" then One "013"
  else One e.

Definition hexDigit (c : ascii) : option N :=
  if Text.between 48 57 c then Some (Text.code c - 48)%N
  else if Text.between 65 70 c then Some (Text.code c - 55)%N
  else if Text.between 97 102 c then Some (Text.code c - 87)%N
  else None.

(** what follows a backslash *)
Definition escapeAtom (s : string) : option (item * string) :=
  match s with
  | String "x" (String h1 (String h2 r)) =>
      match hexDigit h1, hexDigit h2 with
      | Some a, Some b => Some (One (ascii_of_N (a * 16 + b)), r)
      | _, _ => None
      end
  | String e r => Some (escaped e, r)
  | EmptyString => None
  end.

Definition plain (c : ascii) : ascii :=
  if Ascii.eqb c "`" then Text.quote else c.

Definition classAtom (s : string) : option (item * string) :=
  match s with
  | String "\" r => escapeAtom r
  | String c r => Some (One (plain c), r)
  | EmptyString => None
  end.

(** the members of a class, up to its closing bracket *)
Fixpoint classItems (fuel : nat) (s : string) (acc : list item)
  : option (list item * string) :=
  match fuel with
  | O => None
  | S f =>
      match s with
      | String "]" r => Some (rev acc, r)
      | _ =>
          match classAtom s with
          | Some (a, String "-" (String "]" r)) =>
              Some (rev (One "-" :: a :: acc), r)
          | Some (One lo, String "-" r1) =>
              match classAtom r1 with
              | Some (One hi, r2) => classItems f r2 (Range lo hi :: acc)
              | _ => None
              end
          | Some (a, r) => classItems f r (a :: acc)
          | None => None
          end
      end
  end.

Definition classOf (s : string) : option (class * string) :=
  match s with
  | String "^" r =>
      match classItems (length r) r [] with
      | Some (its, r') => Some (Class true its, r')
      | None => None
      end
  | _ =>
      match classItems (length s) s [] with
      | Some (its, r') => Some (Class false its, r')
      | None => None
      end
  end.

Definition single (i : item) : regex := Chr (Class false [i]).

(** an atom followed by [*], [+] or [?] *)
Definition quantified (a : regex) (s : string) : option (regex * string) :=
  match s with
  | String "*" r =>
      match a with
      | Chr c => Some (Star c, r)
      | _ => None
      end
  | String "+" r =>
      match a with
      | Chr c => Some (Cat (Chr c) (Star c), r)
      | _ => None
      end
  | String "?" r => Some (Alt a Eps, r)
  | _ => Some (a, s)
  end.

Definition cat (a b : regex) : regex :=
  match b with
  | Eps => a
  | _ => Cat a b
  end.

(** [disjunction], [alternative]: the grammar of a pattern; [g] is the
    number of groups opened so far *)
Fixpoint disjunction (fuel : nat) (s : string) (g : nat)
  : option (regex * string * nat) :=
  match fuel with
  | O => None
  | S f =>
      match alternative f s g with
      | Some (a, String "|" r, g1) =>
          match disjunction f r g1 with
          | Some (b, r', g2) => Some (Alt a b, r', g2)
          | None => None
          end
      | other => other
      end
  end
with alternative (fuel : nat) (s : string) (g : nat)
  : option (regex * string * nat) :=
  match fuel with
  | O => None
  | S f =>
      let term (a : regex) (r : string) (g' : nat) :=
        match quantified a r with
        | Some (t, r') =>
            match alternative f r' g' with
            | Some (rest, r'', g'') => Some (cat t rest, r'', g'')
            | None => None
            end
        | None => None
        end in
      match s with
      | EmptyString => Some (Eps, s, g)
      | String c r =>
          if Ascii.eqb c "|" || Ascii.eqb c ")" then Some (Eps, s, g)
          else if Ascii.eqb c "(" then
            match disjunction f r (S g) with
            | Some (body, String ")" r', g') => term (Grp (S g) body) r' g'
            | _ => None
            end
          else if Ascii.eqb c "[" then
            match classOf r with
            | Some (cl, r') => term (Chr cl) r' g
            | None => None
            end
          else if Ascii.eqb c "\" then
            match escapeAtom r with
            | Some (i, r') => term (single i) r' g
            | None => None
            end
          else if Ascii.eqb c "." then
            term (Chr (Class true [One "010"; One "013"])) r g
          else if Ascii.eqb c "*" || Ascii.eqb c "+" || Ascii.eqb c "?"
                  || Ascii.eqb c "^" || Ascii.eqb c "$" then None
          else term (single (One (plain c))) r g
      end
  end.

Definition read (src : string) : regex :=
  match disjunction (2 * length src + 2) src 0 with
  | Some (r, EmptyString, _) => r
  | _ => never
  end.

(** [src] is in the fragment: [read] has understood all of it *)
Definition wellFormed (src : string) : bool :=
  match disjunction (2 * length src + 2) src 0 with
  | Some (_, EmptyString, _) => true
  | _ => false
  end.

(** *** Matching *)

Definition inKind (k : kind) (c : ascii) : bool :=
  match k with
  | KDigit => Text.digit c
  | KWord => Text.word c
  | KSpace => Text.space c
  | KNotDigit => negb (Text.digit c)
  | KNotWord => negb (Text.word c)
  | KNotSpace => negb (Text.space c)
  end.

Definition inRange (lo hi : ascii) (c : ascii) : bool :=
  Text.between (Text.code lo) (Text.code hi) c.

(** Under the [i] flag two characters are the same when their case
    foldings are. *)
Definition inItem (icase : bool) (i : item) (c : ascii) : bool :=
  match i with
  | One x =>
      if icase then Ascii.eqb (Text.lower x) (Text.lower c)
      else Ascii.eqb x c
  | Range lo hi =>
      inRange lo hi c ||
      (icase && (inRange lo hi (Text.lower c) || inRange lo hi (Text.upper c)))
  | Esc k => inKind k c
  end.

Definition inClass (icase : bool) (cl : class) (c : ascii) : bool :=
  xorb (negated cl) (existsb (fun i => inItem icase i c) (items cl)).

Definition captures := list (nat * string).

Fixpoint group (n : nat) (cs : captures) : option string :=
  match cs with
  | [] => None
  | (m, s) :: cs' => if Nat.eqb n m then Some s else group n cs'
  end.

Section Matcher.
Context {T : Type}.
Variable icase : bool.

(** a repeated class: the longest run first, then shorter ones *)
Fixpoint star (cl : class) (s : string) (k : string -> option T)
  : option T :=
  match s with
  | String c s' =>
      if inClass icase cl c
      then match star cl s' k with
           | Some x => Some x
           | None => k s
           end
      else k s
  | EmptyString => k s
  end.

(** [run r s cs k]: match [r] at the head of [s], then continue with
    [k] on what is left; [None] asks the caller to backtrack. *)
Fixpoint run (r : regex) (s : string) (cs : captures)
         (k : string -> captures -> option T) : option T :=
  match r with
  | Eps => k s cs
  | Chr cl =>
      match s with
      | String c s' => if inClass icase cl c then k s' cs else None
      | EmptyString => None
      end
  | Cat r1 r2 => run r1 s cs (fun s1 c1 => run r2 s1 c1 k)
  | Alt r1 r2 =>
      match run r1 s cs k with
      | Some x => Some x
      | None => run r2 s cs k
      end
  | Star cl => star cl s (fun s' => k s' cs)
  | Grp n r' =>
      run r' s cs
          (fun s' c' =>
             k s' ((n, Text.take (length s - length s') s) :: c'))
  end.
End Matcher.

(** One successful match: the text before it, the match itself
    ([match[0]]), the groups, and the text after it. *)
Record found := Found {
  before : string;
  whole : string;
  groups : captures;
  after : string
}.

(** a match anchored at the head of [s] *)
Definition here (icase : bool) (r : regex) (s : string)
  : option (string * captures) :=
  run icase r s [] (fun s' cs => Some (s', cs)).

Definition matched (s rest : string) : string :=
  Text.take (length s - length rest) s.

Fixpoint search (icase : bool) (r : regex) (pre : string) (s : string)
  : option found :=
  match here icase r s with
  | Some (rest, cs) => Some (Found pre (matched s rest) cs rest)
  | None =>
      match s with
      | EmptyString => None
      | String c s' => search icase r (pre ++ String c EmptyString) s'
      end
  end.

(** [s.match(/src/)] and [s.match(/src/i)]: the leftmost match *)
Definition exec (src : string) (s : string) : option found :=
  search false (read src) EmptyString s.

Definition execi (src : string) (s : string) : option found :=
  search true (read src) EmptyString s.

(** Replacement templates: literal text and [$n]; every [$n] of the
    source refers to a group of its literal, and a group that took no
    part in the match stands for the empty text. *)
Inductive piece := Lit (t : string) | Ref (n : nat).

(** the replacement text of the source, read as [replace] reads it;
    a backquote stands for a double quote *)
Fixpoint template (t : string) : list piece :=
  match t with
  | EmptyString => []
  | String c t' =>
      let lit := Lit (String (plain c) EmptyString) :: template t' in
      if Ascii.eqb c "$" then
        match t' with
        | String d t'' =>
            if Text.between 49 57 d
            then Ref (N.to_nat (Text.code d - 48)) :: template t''
            else lit
        | EmptyString => lit
        end
      else lit
  end.

Fixpoint expand (tmpl : list piece) (cs : captures) : string :=
  match tmpl with
  | [] => EmptyString
  | Lit t :: tl => t ++ expand tl cs
  | Ref n :: tl =>
      match group n cs with
      | Some g => g ++ expand tl cs
      | None => expand tl cs
      end
  end.

(** [skip] counts the characters of [s] a match has already consumed. *)
Fixpoint replaceFrom (r : regex) (tmpl : list piece) (skip : nat)
         (s : string) : string :=
  match s with
  | EmptyString =>
      match skip, here false r EmptyString with
      | O, Some (_, cs) => expand tmpl cs
      | _, _ => EmptyString
      end
  | String c s' =>
      match skip with
      | S n => replaceFrom r tmpl n s'
      | O =>
          match here false r s with
          | Some (rest, cs) =>
              match length s - length rest with
              | O => expand tmpl cs ++ String c (replaceFrom r tmpl O s')
              | S n => expand tmpl cs ++ replaceFrom r tmpl n s'
              end
          | None => String c (replaceFrom r tmpl O s')
          end
      end
  end.

(** [s.replace(/src/g, tmpl)] *)
Definition replace (src : string) (tmpl : string) (s : string) : string :=
  replaceFrom (read src) (template tmpl) O s.

End Regex.

(* ===================================================================== *)
(** ** JavaScript values and [JSON.parse] *)
(* ===================================================================== *)

Module Js.

(** What a variable of type [any] can hold here. A string value is the
    list of its code units, so that an escape of a JSON text is a
    character like any other; an object lists its own properties in the
    order they were created. *)
#[warnings="-register-all"]
Inductive value : Type :=
| Undefined
| Null
| Bool (b : bool)
| Num (q : Q)
| Str (s : list N)
| Arr (vs : list value)
| Obj (fields : list (list N * value)).

Definition text (s : string) : value := Str (Text.codes s).

Definition truthy (v : value) : bool :=
  match v with
  | Undefined | Null => false
  | Bool b => b
  | Num q => negb (Qnum q =? 0)%Z
  | Str [] => false
  | Str _ => true
  | Arr _ | Obj _ => true
  end.

(** [a || b] *)
Definition or (a b : value) : value := if truthy a then a else b.

Definition sameKey (k1 k2 : list N) : bool :=
  if list_eq_dec N.eq_dec k1 k2 then true else false.

Fixpoint lookup (k : list N) (fs : list (list N * value)) : value :=
  match fs with
  | [] => Undefined
  | (k', v) :: fs' => if sameKey k k' then v else lookup k fs'
  end.

(** [o[k] = v] on own properties *)
Fixpoint set (k : list N) (v : value) (fs : list (list N * value))
  : list (list N * value) :=
  match fs with
  | [] => [(k, v)]
  | (k', v') :: fs' =>
      if sameKey k k' then (k, v) :: fs' else (k', v') :: set k v fs'
  end.

(** [v.k] for a property name [k] that no prototype defines, on a value
    that is neither [null] nor [undefined] *)
Definition get (v : value) (k : string) : value :=
  match v with
  | Obj fs => lookup (Text.codes k) fs
  | _ => Undefined
  end.

End Js.

Module Json.

Import Js.

(** JSON white space: space, TAB, LF, CR *)
Definition ws (c : ascii) : bool :=
  (Text.code c =? 32)%N || (Text.code c =? 9)%N ||
  (Text.code c =? 10)%N || (Text.code c =? 13)%N.

Fixpoint skip (s : string) : string :=
  match s with
  | String c s' => if ws c then skip s' else s
  | EmptyString => EmptyString
  end.

Definition hex (c : ascii) : option N :=
  if Text.between 48 57 c then Some (Text.code c - 48)%N
  else if Text.between 65 70 c then Some (Text.code c - 55)%N
  else if Text.between 97 102 c then Some (Text.code c - 87)%N
  else None.

Definition hex4 (a b c d : ascii) : option N :=
  match hex a, hex b, hex c, hex d with
  | Some x, Some y, Some z, Some w =>
      Some (((x * 16 + y) * 16 + z) * 16 + w)%N
  | _, _, _, _ => None
  end.

Definition escape (c : ascii) : option N :=
  if Ascii.eqb c Text.quote then Some 34%N
  else if Ascii.eqb c "\" then Some 92%N
  else if Ascii.eqb c "/" then Some 47%N
  else if Ascii.eqb c "b" then Some 8%N
  else if Ascii.eqb c "f" then Some 12%N
  else if Ascii.eqb c "n" then Some 10%N
  else if Ascii.eqb c "r" then Some 13%N
  else if Ascii.eqb c "t" then Some 9%N
  else None.

(** the characters of a string literal, after its opening quote *)
Fixpoint chars (s : string) (acc : list N) : option (list N * string) :=
  match s with
  | EmptyString => None
  | String c s' =>
      if Ascii.eqb c Text.quote then Some (rev acc, s')
      else if Ascii.eqb c "\" then
        match s' with
        | EmptyString => None
        | String e s'' =>
            if Ascii.eqb e "u" then
              match s'' with
              | String h1 (String h2 (String h3 (String h4 s5))) =>
                  match hex4 h1 h2 h3 h4 with
                  | Some n => chars s5 (n :: acc)
                  | None => None
                  end
              | _ => None
              end
            else
              match escape e with
              | Some n => chars s'' (n :: acc)
              | None => None
              end
        end
      else if (Text.code c <? 32)%N then None
      else chars s' (Text.code c :: acc)
  end.

(** a run of decimal digits: its value, its length, and the rest *)
Fixpoint digits (s : string) (acc : Z) (n : nat) : Z * nat * string :=
  match s with
  | String c s' =>
      if Text.digit c
      then digits s' (10 * acc + Z.of_N (Text.code c - 48)) (S n)
      else (acc, n, s)
  | EmptyString => (acc, n, s)
  end.

(** [m * 10^x], reduced *)
Definition scale (m x : Z) : Q :=
  if (0 <=? x)%Z then Qmake (m * 10 ^ x) 1
  else Qred (Qmake m (Z.to_pos (10 ^ (- x)))).

(** [s] without its first character when that is [c] *)
Definition after (c : ascii) (s : string) : option string :=
  match s with
  | String x s' => if Ascii.eqb x c then Some s' else None
  | EmptyString => None
  end.

Definition fraction (s : string) : option (Z * nat * string) :=
  match after "." s with
  | Some s' =>
      match digits s' 0 0 with
      | (_, O, _) => None
      | (v, n, r) => Some (v, n, r)
      end
  | None => Some (0%Z, O, s)
  end.

Definition signed (s : string) : bool * string :=
  match after "-" s, after "+" s with
  | Some t, _ => (true, t)
  | None, Some t => (false, t)
  | None, None => (false, s)
  end.

Definition exponent (s : string) : option (Z * string) :=
  match after "e" s, after "E" s with
  | None, None => Some (0%Z, s)
  | Some s', _ | None, Some s' =>
      match digits (snd (signed s')) 0 0 with
      | (_, O, _) => None
      | (v, _, r) => Some (if fst (signed s') then (- v)%Z else v, r)
      end
  end.

(** the digits before the fraction: a zero, or digits that do not start
    with a zero *)
Definition integer (s : string) : option (Z * string) :=
  match s with
  | String c s' =>
      if Ascii.eqb c "0" then Some (0%Z, s')
      else
        match digits s 0 0 with
        | (_, O, _) => None
        | (v, _, r) => Some (v, r)
        end
  | EmptyString => None
  end.

(** a JSON number: an optional minus sign, the integer, an optional
    fraction, an optional exponent *)
Definition number (s : string) : option (Q * string) :=
  let neg := match after "-" s with Some _ => true | None => false end in
  let s1 := match after "-" s with Some t => t | None => s end in
  match integer s1 with
  | Some (ip, s3) =>
      match fraction s3 with
      | Some (fv, fn, s4) =>
          match exponent s4 with
          | Some (e, s5) =>
              let m := (ip * 10 ^ Z.of_nat fn + fv)%Z in
              Some (scale (if neg then (- m)%Z else m)
                          (e - Z.of_nat fn), s5)
          | None => None
          end
      | None => None
      end
  | None => None
  end.

(** the rest of [s] when it starts with the word [w] *)
Definition keyword (w : string) (s : string) : option string :=
  if Text.startsWith w s then Some (Text.drop (length w) s) else None.

(** a value that is not an object or an array *)
Definition scalar (s : string) : option (Js.value * string) :=
  match after Text.quote s with
  | Some s' =>
      match chars s' [] with
      | Some (t, r) => Some (Str t, r)
      | None => None
      end
  | None =>
      match keyword "true" s, keyword "false" s, keyword "null" s with
      | Some r, _, _ => Some (Bool true, r)
      | None, Some r, _ => Some (Bool false, r)
      | None, None, Some r => Some (Null, r)
      | None, None, None =>
          match number s with
          | Some (q, r) => Some (Num q, r)
          | None => None
          end
      end
  end.

(** A value, its members, its elements. Every call spends one unit of
    [fuel]; a text of [n] characters needs at most [2 * n + 2]
    ([JsonFacts.value_fuel]). *)
Fixpoint value (fuel : nat) (s : string) : option (Js.value * string) :=
  match fuel with
  | O => None
  | S f =>
      match after "{" (skip s), after "[" (skip s) with
      | Some s', _ =>
          match after "}" (skip s') with
          | Some r => Some (Obj [], r)
          | None => members f s' []
          end
      | None, Some s' =>
          match after "]" (skip s') with
          | Some r => Some (Arr [], r)
          | None => elements f s' []
          end
      | None, None => scalar (skip s)
      end
  end
with members (fuel : nat) (s : string) (acc : list (list N * Js.value))
  : option (Js.value * string) :=
  match fuel with
  | O => None
  | S f =>
      match after Text.quote (skip s) with
      | Some s1 =>
          match chars s1 [] with
          | Some (k, s2) =>
              match after ":" (skip s2) with
              | Some s3 =>
                  match value f s3 with
                  | Some (v, s4) =>
                      match after "," (skip s4), after "}" (skip s4) with
                      | Some s5, _ => members f s5 (Js.set k v acc)
                      | None, Some s5 => Some (Obj (Js.set k v acc), s5)
                      | None, None => None
                      end
                  | None => None
                  end
              | None => None
              end
          | None => None
          end
      | None => None
      end
  end
with elements (fuel : nat) (s : string) (acc : list Js.value)
  : option (Js.value * string) :=
  match fuel with
  | O => None
  | S f =>
      match value f s with
      | Some (v, s1) =>
          match after "," (skip s1), after "]" (skip s1) with
          | Some s2, _ => elements f s2 (acc ++ [v])%list
          | None, Some s2 => Some (Arr (acc ++ [v])%list, s2)
          | None, None => None
          end
      | None => None
      end
  end.

(** [JSON.parse(s)]; [None] when it throws a [SyntaxError] *)
Definition parse (s : string) : option Js.value :=
  match value (2 * length s + 2) s with
  | Some (v, r) =>
      match skip r with
      | EmptyString => Some v
      | _ => None
      end
  | None => None
  end.

End Json.

(* ===================================================================== *)
(** ** The response-recovery parser *)
(* ===================================================================== *)

Module Recovery.

Import Js.

(** [parseFloat] on what the source passes to it, a run of digits and
    dots: the longest prefix that is a decimal literal; [None] is [NaN]. *)
Definition parseFloat (s : string) : option Q :=
  let '(ip, n1, r1) := Json.digits s 0 0 in
  match r1 with
  | String "." r2 =>
      let '(fv, n2, _) := Json.digits r2 0 0 in
      match n1, n2 with
      | O, O => None
      | _, _ => Some (Json.scale (ip * 10 ^ Z.of_nat n2 + fv) (- Z.of_nat n2))
      end
  | _ =>
      match n1 with
      | O => None
      | _ => Some (Json.scale ip 0)
      end
  end.

(** the first literal of the list that matches, [/.../i] each *)
Fixpoint firstMatch (patterns : list string) (content : string)
  : option Regex.found :=
  match patterns with
  | [] => None
  | p :: ps =>
      match Regex.execi p content with
      | Some m => Some m
      | None => firstMatch ps content
      end
  end.

Definition key (k : string) : list N := Text.codes k.

Definition confidenceKey : list N := key "confidence_score".

Definition hasKey : list N := key "has_age_verification".

(** the trigger phrases of attempt 4 and of the handler's own fallback *)
Definition mentionsVerification (content : string) : bool :=
  let lc := Text.toLowerCase content in
  Text.includes lc "age verification" ||
  Text.includes lc "birth date" ||
  Text.includes lc "age gate" ||
  Text.includes lc "verification".

(** one [.replace(/src/g, tmpl)] of a chain *)
Definition rewrite (s : string) (r : string * string) : string :=
  Regex.replace (fst r) (snd r) s.

(** *** Lines 91-100: the rewrites applied before any parse *)

Definition preProcessRewrites : list (string * string) :=
  [ ("(\w+):\s*([^`,\s][^,}]*)", "`$1`: `$2`");
    ("(\w+):\s*`([^`]*)`", "`$1`: `$2`");
    ("(\w+):\s*null", "`$1`: `null`");
    ("(\w+):\s*(true|false)", "`$1`: `$2`") ].

Definition preProcess (jsonString : string) : string :=
  fold_left rewrite preProcessRewrites jsonString.

(** *** Lines 119-149: the manual fixes of attempt 3 *)

Definition manualRewrites : list (string * string) :=
  [ ("'", "`");
    ("(\w+):\s*", "`$1`: ");
    (",(\s*[}\]])", "$1");
    (":\s*(true|false)\s*([,}])", ":`$1`$2");
    (":\s*(\d+\.\d+)\s*([,}])", ":`$1`$2");
    ("[\x00-\x1F\x7F-\x9F]", "");
    ("\s+", " ");
    (":\s*null\s*([,}])", ":`null`$1");
    (":\s*``\s*([,}])", ":`empty`$1");
    ("([^`])\s*(\w+):\s*", "$1, `$2`: ");
    ("\{\s*(\w+):\s*", "{ `$1`: ");
    ("(\w+):\s*(\d+\.\d+)", "`$1`: `$2`");
    ("(\w+):\s*(\d+)", "`$1`: `$2`") ].

Definition manualFixes (preProcessedJson : string) : string :=
  Text.trim (fold_left rewrite manualRewrites preProcessedJson).

(** *** Lines 156-264: attempt 4, field by field *)

Definition hasVerificationPatterns : list string :=
  [ "has_age_verification[`\s]*:[`\s]*(true|false)";
    "has_age_verification[`\s]*:[`\s]*`?(true|false)`?";
    "has_age_verification[`\s]*:[`\s]*([^`,\s}]+)";
    "has_age_verification[`\s]*:[`\s]*null" ].

Definition verificationTypePatterns : list string :=
  [ "verification_type[`\s]*:[`\s]*`([^`]+)`?";
    "verification_type[`\s]*:[`\s]*([^`,\s}]+)";
    "verification_type[`\s]*:[`\s]*`([^`]*)`?";
    "verification_type[`\s]*:[`\s]*null" ].

Definition confidencePatterns : list string :=
  [ "confidence_score[`\s]*:[`\s]*([0-9.]+)";
    "confidence_score[`\s]*:[`\s]*`([0-9.]+)`";
    "confidence[`\s]*:[`\s]*([0-9.]+)";
    "confidence_score[`\s]*:[`\s]*([0-9]+)" ].

Definition detailsPatterns : list string :=
  [ "details[`\s]*:[`\s]*`([^`]+)`";
    "details[`\s]*:[`\s]*([^`]+)";
    "details[`\s]*:[`\s]*`([^`]*)`?" ].

Definition fields := list (list N * Js.value).

(** [match[1].replace(/`/g, '').trim()] *)
Definition unquoted (g : string) : string :=
  Text.trim (rewrite g ("`", "")).

(** line 82: from the first opening brace to the last closing one *)
Definition braceSpan : string := "\{[\s\S]*\}".

(** every literal of [parseRobustJSON] *)
Definition literals : list string :=
  (braceSpan :: "`" :: map fst preProcessRewrites ++ map fst manualRewrites
     ++ hasVerificationPatterns ++ verificationTypePatterns
     ++ confidencePatterns ++ detailsPatterns)%list.

Definition extractHasVerification (content : string) (kv : fields) : fields :=
  match firstMatch hasVerificationPatterns content with
  | Some m =>
      if Text.includes (Regex.whole m) "null"
      then Js.set (key "has_age_verification") (Bool false) kv
      else
        let value := option_map Text.toLowerCase
                                (Regex.group 1 (Regex.groups m)) in
        let isTrue :=
          match value with
          | Some v => String.eqb v "true" || String.eqb v "yes"
                      || String.eqb v "1"
          | None => false
          end in
        Js.set (key "has_age_verification") (Bool isTrue) kv
  | None => kv
  end.

Definition extractVerificationType (content : string) (kv : fields) : fields :=
  match firstMatch verificationTypePatterns content with
  | Some m =>
      if Text.includes (Regex.whole m) "null"
      then Js.set (key "verification_type") (text "none") kv
      else
        match Regex.group 1 (Regex.groups m) with
        | Some (String c g) =>
            Js.set (key "verification_type") (text (unquoted (String c g))) kv
        | _ => kv
        end
  | None => kv
  end.

(** [score > 1 ? score / 100 : score] *)
Definition normalizedScore (score : Q) : Q :=
  if Qle_bool score 1 then score else Qred (score / 100).

Definition inUnitInterval (q : Q) : bool := Qle_bool 0 q && Qle_bool q 1.

(** the loop of lines 209-222: it leaves at the first pattern whose
    capture normalizes into the unit interval *)
Fixpoint extractConfidence (patterns : list string) (content : string)
  : option Q :=
  match patterns with
  | [] => None
  | p :: ps =>
      match Regex.execi p content with
      | Some m =>
          match Regex.group 1 (Regex.groups m) with
          | Some g =>
              match parseFloat g with
              | Some score =>
                  if inUnitInterval (normalizedScore score)
                  then Some (normalizedScore score)
                  else extractConfidence ps content
              | None => extractConfidence ps content
              end
          | None => extractConfidence ps content
          end
      | None => extractConfidence ps content
      end
  end.

(** the loop of lines 231-237: it leaves at the first pattern with a
    non-empty capture *)
Fixpoint extractDetails (patterns : list string) (content : string)
  : option string :=
  match patterns with
  | [] => None
  | p :: ps =>
      match Regex.execi p content with
      | Some m =>
          match Regex.group 1 (Regex.groups m) with
          | Some (String c g) => Some (unquoted (String c g))
          | _ => extractDetails ps content
          end
      | None => extractDetails ps content
      end
  end.

Definition extracted (content : string) : fields :=
  let kv := extractHasVerification content [] in
  let kv := extractVerificationType content kv in
  let kv :=
    match extractConfidence confidencePatterns content with
    | Some q => Js.set (key "confidence_score") (Num q) kv
    | None => kv
    end in
  match extractDetails detailsPatterns content with
  | Some d => Js.set (key "details") (text d) kv
  | None => kv
  end.

(** lines 240-247 *)
Definition defaultHasVerification (content : string) (kv : fields) : fields :=
  match Js.lookup (key "has_age_verification") kv with
  | Undefined =>
      Js.set (key "has_age_verification")
             (Bool (mentionsVerification content)) kv
  | _ => kv
  end.

(** lines 249-251 *)
Definition defaultVerificationType (kv : fields) : fields :=
  if Js.truthy (Js.lookup (key "verification_type") kv) then kv
  else Js.set (key "verification_type")
              (text (if Js.truthy (Js.lookup (key "has_age_verification") kv)
                     then "detected" else "none")) kv.

(** lines 253-255 *)
Definition defaultConfidence (kv : fields) : fields :=
  if Js.truthy (Js.lookup (key "confidence_score") kv) then kv
  else Js.set (key "confidence_score")
              (Num (if Js.truthy (Js.lookup (key "has_age_verification") kv)
                    then 7 # 10 else 1 # 2)) kv.

(** lines 257-259 *)
Definition defaultDetails (kv : fields) : fields :=
  if Js.truthy (Js.lookup (key "details") kv) then kv
  else Js.set (key "details") (text "Parsed from AI response") kv.

Definition withDefaults (content : string) (kv : fields) : fields :=
  defaultDetails
    (defaultConfidence
       (defaultVerificationType (defaultHasVerification content kv))).

(** [None] when control leaves the [try] block without returning *)
Definition attempt4 (content : string) : option Js.value :=
  let keyValuePairs := withDefaults content (extracted content) in
  match keyValuePairs with
  | [] => None
  | _ => Some (Obj keyValuePairs)
  end.

(** lines 271-289 *)
Definition fallbackResult (content : string) : Js.value :=
  let lc := Text.toLowerCase content in
  let hasVerification :=
    Text.includes lc "age verification" ||
    Text.includes lc "birth date" ||
    Text.includes lc "age gate" ||
    Text.includes lc "verification" ||
    Text.includes lc "over 18" ||
    Text.includes lc "adult content" in
  Obj [ (key "has_age_verification", Bool hasVerification);
        (key "verification_type",
         text (if hasVerification then "detected" else "none"));
        (key "confidence_score",
         Num (if hasVerification then 3 # 5 else 2 # 5));
        (key "details", text "Parsed from raw content analysis") ].

Section WithRepair.

(** [jsonrepair], of the package of that name; [None] when it throws *)
Variable jsonrepair : string -> option string.

Definition attempt2 (preProcessedJson : string) : option Js.value :=
  match jsonrepair preProcessedJson with
  | Some repaired => Json.parse repaired
  | None => None
  end.

Definition attempt3 (preProcessedJson : string) : option Js.value :=
  Json.parse (manualFixes preProcessedJson).

(** [parseRobustJSON(content, website)]; the [website] argument only
    feeds the log lines, which the model leaves out. [Null] is the
    [null] of lines 85, 292 and 296. *)
Definition parseRobustJSON (content : string) : Js.value :=
  match Regex.exec braceSpan content with
  | None => Null
  | Some jsonMatch =>
      let jsonString := Regex.whole jsonMatch in
      let preProcessedJson := preProcess jsonString in
      match Json.parse preProcessedJson with
      | Some v => v
      | None =>
          match attempt2 preProcessedJson with
          | Some v => v
          | None =>
              match attempt3 preProcessedJson with
              | Some v => v
              | None =>
                  match attempt4 content with
                  | Some v => v
                  | None => fallbackResult content
                  end
              end
          end
      end
  end.

End WithRepair.

End Recovery.

(* ===================================================================== *)
(** ** The request handler *)
(* ===================================================================== *)

Module WebsiteData.
Record t := Make {
  url : string;
  name : option string;
  category : option string
}.
End WebsiteData.

Module AuditResult.
(** The fields the handler fills from a value of type [any] hold
    whatever that value is. *)
Record t := Make {
  website : string;
  has_age_verification : Js.value;
  verification_type : Js.value;
  confidence_score : Js.value;
  details : Js.value;
  timestamp : string;
  name : option string;
  category : option string
}.
End AuditResult.

Module Dispatch.

Import Js.

Record Config := {
  host : string;
  timeout : Z;
  maxRetries : nat;
  healthCheckTimeout : Z;
  batchSize : positive;
  maxTotalTime : Z;
  enableTotalTimeout : bool
}.

Definition OLLAMA_CONFIG : Config := {|
  host := "http://localhost:11434";
  timeout := 60000;
  maxRetries := 2;
  healthCheckTimeout := 10000;
  batchSize := 3;
  maxTotalTime := 600000;
  enableTotalTimeout := true
|}.

(** the literal of line 398, the base of the wait between attempts *)
Definition backoffBaseMs : Z := 1000.

(** *** The world

    A value that is thrown: an [Error] with its name and message, or
    something else, known by its rendering as a string. *)
Inductive thrown :=
| AnError (name message : string)
| NotAnError (shown : string).

(** [`${error}`] *)
Definition shown (e : thrown) : string :=
  match e with
  | AnError EmptyString message => message
  | AnError name EmptyString => name
  | AnError name message => name ++ ": " ++ message
  | NotAnError s => s
  end.

(** the race of lines 328-333 between [ollama.list()] and the timer *)
Inductive Probe :=
| Listed
| ListFailed (e : thrown)
| ListTimedOut.

(** [ollama.chat(...)]: the content of the answer, or what it throws *)
Inductive Reply :=
| Resolved (content : string)
| Rejected (e : thrown).

(** where the handler reads the clock: when it starts, before and after
    batch [n], and for target [j] before its attempt number [k]
    (targets and attempts counted from 0) *)
Inductive Point :=
| AtStart
| BeforeBatch (n : nat)
| AfterBatch (n : nat)
| BeforeAttempt (j k : nat).

Record World := {
  probe : Probe;
  now : Point -> Z;
  chat : nat -> nat -> Reply;
  stamp : nat -> string
}.

(** what the handler does to the world, in order; the events of the
    targets of one batch are listed target by target *)
Inductive Event :=
| ListModels
| Chat (j k : nat)
| Sleep (j : nat) (ms : Z)
| TimedOut (p : Point).

Inductive Body :=
| ErrorBody (error : string) (details : option string)
| ResultsBody (results : list AuditResult.t)
              (totalWebsites processedWebsites : nat).

(** [Json status body] is [NextResponse.json(body, { status })].
    [Caught message] is control reaching the [catch] of line 499 with an
    [Error] of that message; the block reads [results] and [websites],
    which are declared inside the [try] block, and the model stops where
    the block is entered. *)
Inductive Response :=
| Json (status : nat) (body : Body)
| Caught (message : string).

Definition showNat (n : nat) : string :=
  NilZero.string_of_uint (Nat.to_uint n).

(** [`${ms / 1000}`] for a whole number of milliseconds *)
Definition showSeconds (ms : Z) : string :=
  let whole := NilZero.string_of_uint (N.to_uint (Z.to_N (ms / 1000))) in
  let r := Z.to_nat (ms mod 1000) in
  if Nat.eqb r 0 then whole
  else if Nat.eqb (r mod 100) 0 then whole ++ "." ++ showNat (r / 100)
  else if Nat.eqb (r mod 10) 0 then
    whole ++ "." ++ (if (r <? 100)%nat then "0" else "") ++ showNat (r / 10)
  else whole ++ "."
             ++ (if (r <? 10)%nat then "00"
                 else if (r <? 100)%nat then "0" else "")
             ++ showNat r.

Definition slice {A} (from to : nat) (l : list A) : list A :=
  firstn (to - from) (skipn from l).

Section Handler.

Variable cfg : Config.
Variable jsonrepair : string -> option string.
Variable w : World.

Definition timedOutMessage : string :=
  "Audit process timed out after " ++ showSeconds (maxTotalTime cfg)
    ++ " seconds".

(** lines 316-324; [Some message] when it throws *)
Definition checkTimeout (p : Point) : option string :=
  if negb (enableTotalTimeout cfg) || (maxTotalTime cfg <=? 0)%Z
  then None
  else
    let elapsed := (now w p - now w AtStart)%Z in
    if (maxTotalTime cfg <? elapsed)%Z then Some timedOutMessage
    else None.

Definition exhaustedMessage (e : thrown) : string :=
  "Ollama request failed after " ++ showNat (maxRetries cfg)
    ++ " retries: " ++ shown e.

(** How the loop of lines 367-400 is left: with a response, by an
    [Error] thrown to the [catch] of line 457, or because its
    condition is false. *)
Inductive LoopExit :=
| Answered (content : string)
| Threw (message : string)
| NotEntered.

Equations? requestLoop (j retryCount : nat) : LoopExit * list Event
  by wf (S (maxRetries cfg) - retryCount) lt :=
  requestLoop j retryCount with le_lt_dec retryCount (maxRetries cfg) := {
    | right _ := (NotEntered, [])
    | left _ with checkTimeout (BeforeAttempt j retryCount) := {
        | Some message :=
            (Threw message, [TimedOut (BeforeAttempt j retryCount)])
        | None with chat w j retryCount := {
            | Resolved content := (Answered content, [Chat j retryCount])
            | Rejected e with le_lt_dec (S retryCount) (maxRetries cfg) := {
                | right _ :=
                    (Threw (exhaustedMessage e), [Chat j retryCount])
                | left _ :=
                    let rest := requestLoop j (S retryCount) in
                    (fst rest,
                     Chat j retryCount
                       :: Sleep j (backoffBaseMs * Z.of_nat (S retryCount))
                       :: snd rest) } } } }.
Proof. destruct retryCount; lia. Qed.

(** lines 411-440: the record built from an answer *)
Definition answeredResult (j : nat) (website : WebsiteData.t)
           (content : string) : AuditResult.t :=
  let parsed := Recovery.parseRobustJSON jsonrepair content in
  if truthy parsed then
    {| AuditResult.website := WebsiteData.url website;
       AuditResult.has_age_verification :=
         or (get parsed "has_age_verification") (Bool false);
       AuditResult.verification_type :=
         or (get parsed "verification_type") (text "unknown");
       AuditResult.confidence_score :=
         or (get parsed "confidence_score") (Num 0);
       AuditResult.details :=
         or (get parsed "details") (text "No details provided");
       AuditResult.timestamp := stamp w j;
       AuditResult.name := WebsiteData.name website;
       AuditResult.category := WebsiteData.category website |}
  else
    let hasVerification := Recovery.mentionsVerification content in
    {| AuditResult.website := WebsiteData.url website;
       AuditResult.has_age_verification := Bool hasVerification;
       AuditResult.verification_type :=
         text (if hasVerification then "detected" else "none");
       AuditResult.confidence_score :=
         Num (if hasVerification then 7 # 10 else 1 # 2);
       AuditResult.details := text content;
       AuditResult.timestamp := stamp w j;
       AuditResult.name := WebsiteData.name website;
       AuditResult.category := WebsiteData.category website |}.

(** lines 461-466 *)
Definition isTimeout (message : string) : bool :=
  Text.includes message "timeout" ||
  Text.includes message "timed out" ||
  Text.includes message "ETIMEDOUT" ||
  Text.includes message "ENOTFOUND".

(** lines 457-480: the record built from an [Error] *)
Definition failedResult (j : nat) (website : WebsiteData.t)
           (message : string) : AuditResult.t :=
  {| AuditResult.website := WebsiteData.url website;
     AuditResult.has_age_verification := Bool false;
     AuditResult.verification_type :=
       text (if isTimeout message then "timeout" else "error");
     AuditResult.confidence_score := Num 0;
     AuditResult.details :=
       text (if isTimeout message
             then "Request timed out - Ollama service may be overloaded or unavailable"
             else "Error: " ++ message);
     AuditResult.timestamp := stamp w j;
     AuditResult.name := WebsiteData.name website;
     AuditResult.category := WebsiteData.category website |}.

(** what reading [response.message] throws when [response] is
    [undefined], in the words of V8 *)
Definition undefinedResponse : string :=
  "Cannot read properties of undefined (reading 'message')".

(** The function mapped over a batch (lines 355-481), for the target of
    index [j]: its record and what it did. Were the loop left with
    [response] undefined, line 406 would throw, the handler of line 441
    would throw again at line 443, and the [catch] of line 457 would
    build the record. Nothing else in lines 404-440 throws on an answer
    whose content is a string, so that lines 444-453 build no record. *)
Definition task (j : nat) (website : WebsiteData.t)
  : AuditResult.t * list Event :=
  let loop := requestLoop j 0 in
  (match fst loop with
   | Answered content => answeredResult j website content
   | NotEntered => failedResult j website undefinedResponse
   | Threw message => failedResult j website message
   end,
   snd loop).

(** [batch.map(...)], then [Promise.all]: one settled task per
    target, in the order of the batch *)
Fixpoint batchPromises (j : nat) (batch : list WebsiteData.t)
  : list (AuditResult.t * list Event) :=
  match batch with
  | [] => []
  | website :: rest => task j website :: batchPromises (S j) rest
  end.

Section Batches.

Variable websites : list WebsiteData.t.

Definition batchAt (i : nat) : list WebsiteData.t :=
  slice i (i + Pos.to_nat (batchSize cfg)) websites.

Definition batchResults (i : nat) : list AuditResult.t :=
  map fst (batchPromises i (batchAt i)).

Definition batchEvents (i : nat) : list Event :=
  List.concat (map snd (batchPromises i (batchAt i))).

(** the loop of lines 349-490, at batch number [n] and index [i] *)
Equations? batches (n i : nat) (results : list AuditResult.t)
          (log : list Event) : Response * list Event
  by wf (List.length websites - i) lt :=
  batches n i results log with lt_dec i (List.length websites) := {
    | right _ :=
        (Json 200 (ResultsBody results (List.length websites) (List.length results)),
         log)
    | left _ with checkTimeout (BeforeBatch n) := {
        | Some message :=
            (Caught message, (log ++ [TimedOut (BeforeBatch n)])%list)
        | None with checkTimeout (AfterBatch n) := {
            | Some message :=
                (Caught message,
                 (log ++ batchEvents i ++ [TimedOut (AfterBatch n)])%list)
            | None :=
                batches (S n) (i + Pos.to_nat (batchSize cfg))
                        (results ++ batchResults i)%list
                        (log ++ batchEvents i)%list } } }.
Proof. lia. Qed.

End Batches.

Definition unavailable : string :=
  "Ollama service not available or not responding. Please ensure Ollama is running with: ollama serve".

(** [ollamaError instanceof Error ? ollamaError.message : 'Unknown error'] *)
Definition messageOf (e : thrown) : string :=
  match e with
  | AnError _ message => message
  | NotAnError _ => "Unknown error"
  end.

(** [POST], from the parsed body on *)
Definition POST (websites : list WebsiteData.t) : Response * list Event :=
  match websites with
  | [] => (Json 400 (ErrorBody "No websites provided" None), [])
  | _ =>
      match probe w with
      | Listed => batches websites 0 0 [] [ListModels]
      | ListFailed e =>
          (Json 503 (ErrorBody unavailable (Some (messageOf e))),
           [ListModels])
      | ListTimedOut =>
          (Json 503 (ErrorBody unavailable
                               (Some "Ollama health check timed out")),
           [ListModels])
      end
  end.

End Handler.

(** line 503: whether the [catch] of line 499 takes what it caught for
    a time-out, the case it answers with status 408 *)
Definition caughtTimeout (message : string) : bool :=
  Text.includes message "timed out".

End Dispatch.

(* ===================================================================== *)
(** ** What is observed of a run *)
(* ===================================================================== *)

Module Trace.

Import Dispatch.

(** the events that are calls of the inference service *)
Definition isChat (e : Event) : bool :=
  match e with
  | Chat _ _ => true
  | _ => false
  end.

Definition chats (log : list Event) : nat :=
  List.length (filter isChat log).

(** the clock readings taken between batches *)
Definition boundary (p : Point) : bool :=
  match p with
  | BeforeBatch _ | AfterBatch _ => true
  | _ => false
  end.

(** no time-out of the budget at a batch boundary is in the log *)
Definition withinBatches (log : list Event) : Prop :=
  forall p, In (TimedOut p) log -> boundary p = false.

(** the record of every target from index [i] on *)
Definition recordsFrom (cfg : Config) (jsonrepair : string -> option string)
           (w : World) (websites : list WebsiteData.t) (i : nat)
  : list AuditResult.t :=
  map fst (batchPromises cfg jsonrepair w i (skipn i websites)).

(** the attempts of target [j] from attempt [k] on all fail, up to the
    last one allowed, and [e] is what the last one throws *)
Definition allRejected (cfg : Config) (w : World) (j k : nat) (e : thrown)
  : Prop :=
  (forall a, k <= a <= maxRetries cfg ->
             checkTimeout cfg w (BeforeAttempt j a) = None /\
             exists e', chat w j a = Rejected e') /\
  chat w j (maxRetries cfg) = Rejected e.

(** the markers of line 461-466, looked for in a text *)
Definition marked (s : string) : bool :=
  Text.includes s "timeout" ||
  Text.includes s "timed out" ||
  Text.includes s "ETIMEDOUT" ||
  Text.includes s "ENOTFOUND".

(** the trace of the loop entered at attempt [k]: failed attempts,
    each followed by its wait, then the attempt or the time-out that
    ends it *)
Fixpoint retries (j k n : nat) : list Event :=
  match n with
  | O => []
  | S n' =>
      Chat j k :: Sleep j (backoffBaseMs * Z.of_nat (S k))
           :: retries j (S k) n'
  end.

End Trace.

(* ===================================================================== *)
(** ** Answers and services used as examples *)
(* ===================================================================== *)

Module Scenario.

Import Dispatch.

(** stands for [jsonrepair] in runs that never reach attempt 2 *)
Definition repairNothing (s : string) : option string := Some s.

(** a [jsonrepair] that gives up on every text *)
Definition repairFails (s : string) : option string := None.

Definition site (k : nat) : WebsiteData.t :=
  WebsiteData.Make ("https://site" ++ showNat k ++ ".example") None
                   (Some "Gaming").

Fixpoint sitesFrom (k n : nat) : list WebsiteData.t :=
  match n with
  | O => []
  | S n' => site k :: sitesFrom (S k) n'
  end.

(** the handler starts at this time of the clock, in milliseconds *)
Definition t0 : Z := 1700000000000.

Definition popupAnswer : string :=
  Text.txt "{`has_age_verification`: true, `verification_type`: `popup`, `confidence_score`: 0.8, `details`: `Age gate on entry`}".

(** A slow service: the probe takes 50 ms and every call answers after
    55 s, so that batch [n] runs from 50 + 55000 n to 50 + 55000 (n + 1)
    milliseconds after the start. *)
Definition slowService : World := {|
  probe := Listed;
  now := fun p =>
    match p with
    | AtStart => t0
    | BeforeBatch n => t0 + 50 + 55000 * Z.of_nat n
    | AfterBatch n => t0 + 50 + 55000 * Z.of_nat (S n)
    | BeforeAttempt j k =>
        t0 + 50 + 55000 * Z.of_nat (j / 3) + 56000 * Z.of_nat k
    end%Z;
  chat := fun _ _ => Resolved popupAnswer;
  stamp := fun _ => "2023-11-14T22:13:20.000Z"
|}.

(** when attempt [k] of a target starts, counted from the start of its
    batch, if every attempt takes [d] milliseconds *)
Definition attemptStart (d : Z) (k : nat) : Z :=
  match k with
  | O => 0
  | S O => d + 1000
  | _ => d + 1000 + d + 2000
  end%Z.

Definition hung : thrown :=
  AnError "TimeoutError" "The operation was aborted due to timeout".

(** A service that hangs: every call is given up after 60 s. A target
    then takes 60 + 1 + 60 + 2 + 60 = 183 s, and so does its batch, as
    long as the budget lasts; the targets of the fourth batch find it
    exceeded before their second attempt, 61 s into the batch. *)
Definition hangingService : World := {|
  probe := Listed;
  now := fun p =>
    match p with
    | AtStart => t0
    | BeforeBatch n => t0 + 50 + 183000 * Z.of_nat n
    | AfterBatch n =>
        t0 + 50 + 183000 * Z.of_nat n
        + (if (n <? 3)%nat then 183000 else 61000)
    | BeforeAttempt j k =>
        t0 + 50 + 183000 * Z.of_nat (j / 3) + attemptStart 60000 k
    end%Z;
  chat := fun _ _ => Rejected hung;
  stamp := fun _ => "2023-11-14T22:13:20.000Z"
|}.

Definition refused : thrown :=
  AnError "Error" "connect ECONNREFUSED 127.0.0.1:11434".

(** A service that refuses every connection at once: a batch takes the
    3 s of its waits. From batch 100 on the clock of the example stands
    still. *)
Definition refusingService : World := {|
  probe := Listed;
  now := fun p =>
    match p with
    | AtStart => t0
    | BeforeBatch n => t0 + 50 + 3000 * Z.of_nat (Nat.min n 100)
    | AfterBatch n => t0 + 50 + 3000 * Z.of_nat (S (Nat.min n 100))
    | BeforeAttempt j k =>
        t0 + 50 + 3000 * Z.of_nat (Nat.min (j / 3) 100) + attemptStart 0 k
    end%Z;
  chat := fun _ _ => Rejected refused;
  stamp := fun _ => "2023-11-14T22:13:20.000Z"
|}.

Definition braceless : string :=
  "headers: confidence_score: 0.95, has_age_verification: true".

(** A quick service with a mix of outcomes: target 0 is answered at
    once, target 1 at its third attempt, target 2 never, and target 3
    gets an answer without braces. A batch takes 9 s; from batch 60 on
    the clock of the example stands still, so that every reading is
    within the budget. *)
Definition mixedService : World := {|
  probe := Listed;
  now := fun p =>
    match p with
    | AtStart => t0
    | BeforeBatch n => t0 + 50 + 9000 * Z.of_nat (Nat.min n 60)
    | AfterBatch n => t0 + 50 + 9000 * Z.of_nat (S (Nat.min n 60))
    | BeforeAttempt j k =>
        t0 + 50 + 9000 * Z.of_nat (Nat.min (j / 3) 60)
        + 3000 * Z.of_nat (Nat.min k 2)
    end%Z;
  chat := fun j k =>
    match j, k with
    | 1, 0 | 1, 1 => Rejected (AnError "TypeError" "fetch failed")
    | 2, _ => Rejected (AnError "Error" "getaddrinfo ENOTFOUND localhost")
    | 3, _ => Resolved braceless
    | _, _ => Resolved popupAnswer
    end%nat;
  stamp := fun _ => "2023-11-14T22:13:20.000Z"
|}.

(** The liveness probe runs into its timer. *)
Definition unreachableService : World := {|
  probe := ListTimedOut;
  now := fun _ => t0;
  chat := fun _ _ => Rejected refused;
  stamp := fun _ => "2023-11-14T22:13:20.000Z"
|}.


Definition percentAnswer : string :=
  Text.txt "{`has_age_verification`: true, `verification_type`: `popup`, `confidence_score`: 95, `details`: `Age gate on entry`}".

Definition bareAnswer : string :=
  Text.txt "{has_age_verification: false, verification_type: `none`, confidence_score: 0.8, details: `No age gate found`}".

End Scenario.

(* ===================================================================== *)
(** ** More of the parser and the handler: what is observed *)
(* ===================================================================== *)

Module Shape.

(** what follows the last closing brace of [s] *)
Fixpoint afterLastBrace (s : string) : option string :=
  match s with
  | EmptyString => None
  | String c s' =>
      match afterLastBrace s' with
      | Some r => Some r
      | None => if Ascii.eqb c "}" then Some s' else None
      end
  end.

(** somewhere in [s] a word character stands directly before a colon *)
Fixpoint wordColon (s : string) : bool :=
  match s with
  | EmptyString => false
  | String a s' =>
      match s' with
      | EmptyString => false
      | String b _ => (Text.word a && Ascii.eqb b ":") || wordColon s'
      end
  end.

(** the class of line 82, which every character is in *)
Definition anyClass : Regex.class :=
  Regex.Class false [Regex.Esc Regex.KSpace; Regex.Esc Regex.KNotSpace].

(** what follows the first opening brace of [s] *)
Fixpoint fromOpening (s : string) : option string :=
  match s with
  | EmptyString => None
  | String c s' => if Ascii.eqb c "{" then Some s' else fromOpening s'
  end.

(** an opening brace with a closing brace somewhere after it *)
Definition hasSpan (s : string) : bool :=
  match fromOpening s with
  | Some r => Text.occurs "}" r
  | None => false
  end.

(** the literals of lines 92-100 all start like this: a run of word
    characters, captured, and a colon *)
Definition keyed (rest : Regex.regex) : Regex.regex :=
  Regex.Cat
    (Regex.Grp 1
       (Regex.Cat (Regex.Chr (Regex.Class false [Regex.Esc Regex.KWord]))
                  (Regex.Star (Regex.Class false [Regex.Esc Regex.KWord]))))
    (Regex.Cat (Regex.Chr (Regex.Class false [Regex.One ":"])) rest).

End Shape.

Module Samples.

Import Scenario.

(** an answer with words around the object *)
Definition wrappedAnswer : string :=
  "Result: " ++ percentAnswer ++ " Done.".

(** a closing brace, then an opening one *)
Definition bracesApart : string := "} nothing to report {".

End Samples.

Module Observed.

Import Dispatch Trace.

(** what the targets of [targets], the first of index [j], do *)
Definition targetEvents (cfg : Config) (jsonrepair : string -> option string)
           (w : World) (j : nat) (targets : list WebsiteData.t)
  : list Event :=
  List.concat (map snd (batchPromises cfg jsonrepair w j targets)).

(** the time spent in the waits of line 398, in milliseconds *)
Fixpoint slept (log : list Event) : Z :=
  match log with
  | [] => 0
  | Sleep _ ms :: rest => ms + slept rest
  | _ :: rest => slept rest
  end.

(** attempt [n] of target [j] is the first one that is answered, with
    [content], and the budget lasts until then *)
Definition answeredAt (cfg : Config) (w : World) (j k n : nat)
           (content : string) : Prop :=
  (forall a, k <= a < k + n ->
             checkTimeout cfg w (BeforeAttempt j a) = None /\
             exists e, chat w j a = Rejected e) /\
  checkTimeout cfg w (BeforeAttempt j (k + n)) = None /\
  chat w j (k + n) = Resolved content.

Fixpoint powerOfTwo (p : positive) : bool :=
  match p with
  | xH => true
  | xO p' => powerOfTwo p'
  | xI _ => false
  end.

(** A number that a double holds exactly: a whole number of at most 53
    bits times a power of two no smaller than 2^-1074. The numbers of
    the model are exact, those of the source are doubles; on a number
    like this the two are the same. *)
Definition exactDouble (q : Q) : bool :=
  (Z.abs (Qnum q) <=? 2 ^ 53)%Z
  && powerOfTwo (Qden q)
  && (Pos.size_nat (Qden q) <=? 1075)%nat.

(** the value is there: neither [undefined], which [JSON.stringify]
    leaves out, nor [null] *)
Definition present (v : Js.value) : bool :=
  match v with
  | Js.Undefined | Js.Null => false
  | _ => true
  end.

End Observed.

Module Settings.

Import Dispatch.

(** the configuration of the source with [maxTotalTime] set to 0, which
    its comment gives as the way to disable the budget *)
Definition unlimited : Config := {|
  host := host OLLAMA_CONFIG;
  timeout := timeout OLLAMA_CONFIG;
  maxRetries := maxRetries OLLAMA_CONFIG;
  healthCheckTimeout := healthCheckTimeout OLLAMA_CONFIG;
  batchSize := batchSize OLLAMA_CONFIG;
  maxTotalTime := 0;
  enableTotalTimeout := true
|}.

End Settings.

Module Entry.

Import Dispatch.

(** What [POST] is called with. The body is read at line 302 and taken
    apart at line 303, both inside the [try] of line 301:
    - [Unreadable message]: reading it or taking it apart throws an
      [Error] of that message (a body that is not JSON; a body that is
      [null]);
    - [NoList]: the body has no [websites], or one that is falsy;
    - [Targets websites]: its [websites] is an array of targets, as
      [AuditRequest] declares. *)
Inductive Request :=
| Unreadable (message : string)
| NoList
| Targets (websites : list WebsiteData.t).

(** [POST(request)], lines 300-515: what is thrown on the way to the
    list is caught at line 499, the guard of line 305 answers a body
    without list as it does an empty list, and a list goes through
    [Dispatch.POST] *)
Definition onRequest (cfg : Config) (jsonrepair : string -> option string)
           (w : World) (request : Request) : Response * list Event :=
  match request with
  | Unreadable message => (Caught message, [])
  | NoList => (Json 400 (ErrorBody "No websites provided" None), [])
  | Targets websites => POST cfg jsonrepair w websites
  end.

End Entry.

(* ===================================================================== *)
(** ** The prompt of a target *)
(* ===================================================================== *)

Module Prompt.

Definition lineBreak : string := String "010" EmptyString.

(** the template of lines 48-71, line by line; a backquote stands for
    a double quote *)
Definition AGE_VERIFICATION_PROMPT : string :=
  Text.txt
    (String.concat lineBreak
     [ "Analyze the following website for age verification mechanisms. ";
      "";
      "Website: {url}";
      "Category: {category}";
      "";
      "Please determine if this website has age verification requirements and what type of verification is used.";
      "";
      "Consider:";
      "- Age verification popups or overlays";
      "- Birth date input fields";
      "- Age confirmation checkboxes";
      "- Credit card requirements";
      "- Government ID requirements";
      "- Terms of service age restrictions";
      "- Content warnings or age gates";
      "";
      "IMPORTANT: Respond ONLY with valid JSON in this exact format. Use double quotes for all strings and property names. Do not include any text before or after the JSON:";
      "";
      "{";
      "  `has_age_verification`: true,";
      "  `verification_type`: `popup`,";
      "  `confidence_score`: 0.8,";
      "  `details`: `Detailed explanation of findings`";
      "}" ]).

(** What a replacement text stands for when the pattern is a string:
    a dollar sign followed by a dollar sign, an ampersand, a backquote
    or a quote is the dollar sign, the match, the text before it or the
    text after it; there are no groups to refer to. *)
Fixpoint getSubstitution (matched before after : string)
         (replacement : string) : string :=
  match replacement with
  | EmptyString => EmptyString
  | String c r =>
      if Ascii.eqb c "$" then
        match r with
        | String d r' =>
            (fix next (given : string) : string :=
               if Ascii.eqb d "$"
               then String "$" given
               else if Ascii.eqb d "&" then matched ++ given
               else if Ascii.eqb d "`" then before ++ given
               else if Ascii.eqb d "'" then after ++ given
               else String "$" (String d given))
              (getSubstitution matched before after r')
        | EmptyString => String "$" EmptyString
        end
      else String c (getSubstitution matched before after r)
  end.

(** [s.replace(pattern, replacement)] for a pattern that is a string:
    the first occurrence only; [before] is the text already passed *)
Fixpoint replaceFirst (pattern replacement : string) (before s : string)
  : string :=
  if Text.startsWith pattern s then
    let after := Text.drop (length pattern) s in
    getSubstitution pattern before after replacement ++ after
  else
    match s with
    | EmptyString => EmptyString
    | String c s' =>
        String c (replaceFirst pattern replacement
                               (before ++ String c EmptyString) s')
    end.

(** [website.category || 'Unknown'] *)
Definition categoryOrUnknown (website : WebsiteData.t) : string :=
  match WebsiteData.category website with
  | Some (String c s) => String c s
  | _ => "Unknown"
  end.

(** lines 357-359 *)
Definition prompt (website : WebsiteData.t) : string :=
  replaceFirst "{category}" (categoryOrUnknown website) EmptyString
    (replaceFirst "{url}" (WebsiteData.url website) EmptyString
                  AGE_VERIFICATION_PROMPT).

(** the template up to its first slot, between its slots, and from its
    second slot on *)
Definition untilUrl : string :=
  Text.take 74 AGE_VERIFICATION_PROMPT.

Definition betweenSlots : string :=
  Text.take 11 (Text.drop 79 AGE_VERIFICATION_PROMPT).

Definition fromCategory : string :=
  Text.drop 100 AGE_VERIFICATION_PROMPT.

End Prompt.

(* ===================================================================== *)
(** ** The audit page: upload, report and demo mode *)
(* ===================================================================== *)

Module Upload.

(** [s.split(sep)] for a separator of one character: the pieces between
    the separators, at least one *)
Fixpoint split (sep : ascii) (s : string) : list string :=
  match s with
  | EmptyString => [EmptyString]
  | String c s' =>
      if Ascii.eqb c sep then EmptyString :: split sep s'
      else
        match split sep s' with
        | piece :: pieces => String c piece :: pieces
        | [] => [String c EmptyString]
        end
  end.

(** [l.join(sep)] *)
Fixpoint join (sep : string) (l : list string) : string :=
  match l with
  | [] => EmptyString
  | [piece] => piece
  | piece :: pieces => piece ++ sep ++ join sep pieces
  end.

(** [s.endsWith(suffix)] *)
Definition endsWith (s suffix : string) : bool :=
  (length suffix <=? length s)%nat
  && String.eqb (Text.drop (length s - length suffix) s) suffix.

Definition newline : ascii := "010".

(** [line.trim()] as a condition: the line has a character that is not
    white space *)
Definition nonBlank (line : string) : bool :=
  match Text.trim line with
  | EmptyString => false
  | String _ _ => true
  end.

(** line 57 *)
Definition lines (content : string) : list string :=
  filter nonBlank (split newline content).

(** [headers.includes(x)] *)
Definition includes (headers : list string) (x : string) : bool :=
  existsb (String.eqb x) headers.

(** [values[i]] where it is there and not empty *)
Definition filled (values : list string) (i : nat) : option string :=
  match nth_error values i with
  | Some (String c v) => Some (String c v)
  | _ => None
  end.

(** lines 64-72, for one line of data; [values[0]] is there because
    [split] returns at least one piece *)
Definition dataLine (headers : list string) (line : string)
  : WebsiteData.t :=
  let values := map Text.trim (split "," line) in
  {| WebsiteData.url := hd EmptyString values;
     WebsiteData.name :=
       if includes headers "name" then filled values 1 else None;
     WebsiteData.category :=
       if includes headers "category" then filled values 2 else None |}.

(** [parseFileContent(content, filename)]; [None] is the [TypeError]
    of line 62, where [header] is [undefined] *)
Definition parseFileContent (content filename : string)
  : option (list WebsiteData.t) :=
  if endsWith filename ".csv" then
    match lines content with
    | [] => None
    | header :: dataLines =>
        let headers := map Text.trim (split "," header) in
        Some (map (dataLine headers) dataLines)
    end
  else
    Some (map (fun url => WebsiteData.Make (Text.trim url) None None)
              (lines content)).

(** lines 46-50: what [reader.onload] leaves in [websites], which held
    [prev], once the text of a file has been read; where
    [parseFileContent] throws, [setWebsites] is not reached *)
Definition onload (prev : list WebsiteData.t) (content filename : string)
  : list WebsiteData.t :=
  match parseFileContent content filename with
  | Some newWebsites => (prev ++ newWebsites)%list
  | None => prev
  end.

(** *** The report *)

Inductive Status := Pending | Processing | Completed | Failed.

Record ReportRow := {
  url : string;
  name : option string;
  category : option string;
  status : Status;
  ageVerification : option bool;
  method : option string;
  notes : option string
}.

Record AuditReport := {
  totalWebsites : nat;
  processedWebsites : nat;
  results : list ReportRow
}.

(** [x || ''] *)
Definition orEmpty (x : option string) : string :=
  match x with
  | Some s => s
  | None => EmptyString
  end.

Definition reportHeaders : list string :=
  ["URL"; "Name"; "Category"; "Age Verification"; "Method"; "Notes"].

(** lines 304-311 *)
Definition reportLine (result : ReportRow) : string :=
  join ","
       [ url result;
         orEmpty (name result);
         orEmpty (category result);
         match ageVerification result with
         | Some true => "Yes"
         | _ => "No"
         end;
         orEmpty (method result);
         orEmpty (notes result) ].

(** lines 301-312: the text of the file that [exportReport] offers *)
Definition csvContent (auditReport : AuditReport) : string :=
  join (String newline EmptyString)
       (join "," reportHeaders :: map reportLine (results auditReport)).

(** [exportReport]: nothing when there is no report *)
Definition exportReport (auditReport : option AuditReport) : option string :=
  option_map csvContent auditReport.

(** *** Demo mode, lines 151-224 *)

Definition adultCategories : list string :=
  ["Adult Content"; "Adult Dating"; "Adult Services"; "Adult Directory"].

Definition alcoholCategories : list string :=
  ["Alcohol"; "Wine & Spirits"; "Alcohol Delivery"; "Wine"].

Definition gamblingCategories : list string := ["Gambling"; "Sports Betting"].

Definition weaponCategories : list string := ["Firearms"; "Weapons"].

Definition socialCategories : list string :=
  ["Social Media"; "Social Platform"; "Video Platform"; "Communication";
   "Dating"; "Crowdfunding"].

(** a [case] label of the [switch] matches *)
Definition isOneOf (category : option string) (labels : list string) : bool :=
  match category with
  | Some c => existsb (String.eqb c) labels
  | None => false
  end.

(** [Math.random() > threshold] *)
Definition above (threshold random : Q) : bool :=
  negb (Qle_bool random threshold).

(** what the [switch] leaves in [ageVerification], [method] and
    [notes]; [random] is what [Math.random()] returns where it is called *)
Definition verdict (random : Q) (category : option string)
  : bool * string * string :=
  if isOneOf category adultCategories then
    (true, "Age Gate", "Explicit adult content requires age verification")
  else if isOneOf category alcoholCategories then
    (true, "Age Gate + ID Verification",
     "Alcohol sales require strict age verification")
  else if isOneOf category gamblingCategories then
    (true, "Age Gate + Credit Card", "Gambling sites require 18+ verification")
  else if isOneOf category weaponCategories then
    (true, "Age Gate + License Check",
     "Weapon sales require license verification")
  else if isOneOf category ["Vaping"] then
    (true, "Age Gate", "Vaping products require age verification")
  else if isOneOf category ["Fireworks"] then
    (true, "Age Gate", "Fireworks sales require age verification")
  else if isOneOf category ["Gaming"] then
    let ageVerification := above (3 # 10) random in
    (ageVerification,
     if ageVerification then "Age Gate" else "None",
     if ageVerification then "Gaming content may require age verification"
     else "No age verification required")
  else if isOneOf category socialCategories then
    let ageVerification := above (7 # 10) random in
    (ageVerification,
     if ageVerification then "Age Gate" else "None",
     if ageVerification then "Some content may require age verification"
     else "No age verification required")
  else
    let ageVerification := above (1 # 2) random in
    (ageVerification,
     if ageVerification then "Age Gate" else "None",
     if ageVerification then "May require age verification"
     else "No age verification required").

(** the row of one site in demo mode *)
Definition demoResult (random : Q) (site : WebsiteData.t) : ReportRow :=
  let '(ageVerification, method, notes) :=
    verdict random (WebsiteData.category site) in
  {| url := WebsiteData.url site;
     name := WebsiteData.name site;
     category := WebsiteData.category site;
     status := Completed;
     ageVerification := Some ageVerification;
     method := Some method;
     notes := match notes with
              | EmptyString => None
              | _ => Some notes
              end |}.

(** the categories for which demo mode does not ask [Math.random] *)
Definition restricted (category : option string) : bool :=
  isOneOf category
          (adultCategories ++ alcoholCategories ++ gamblingCategories
             ++ weaponCategories ++ ["Vaping"; "Fireworks"])%list.

End Upload.

Module UploadSamples.

Import Upload.

(** a text file with blank lines and spaces around a url *)
Definition listing : string :=
  join (String newline EmptyString)
       [ "  https://a.example  "; ""; "https://b.example"; "   " ].

(** a sheet that has no header line *)
Definition headless : string :=
  join (String newline EmptyString)
       [ "https://a.example,Site A"; "https://b.example,Site B" ].

Definition storedReport : AuditReport := {|
  totalWebsites := 2;
  processedWebsites := 2;
  results :=
    [ {| url := "https://a.example"; name := Some "Site A";
         category := Some "Gaming"; status := Completed;
         ageVerification := Some true; method := Some "popup";
         notes := Some "Age gate on entry" |};
      {| url := "https://b.example"; name := None;
         category := None; status := Completed;
         ageVerification := Some false; method := Some "none";
         notes := None |} ]
|}.

End UploadSamples.

(* ===================================================================== *)
(** ** Facts about texts *)
(* ===================================================================== *)

Module TextFacts.

Import Text.

Lemma startsWith_app_absent (c : ascii) (m s b : string) :
  occurs c m = false ->
  startsWith m (s ++ String c b) = startsWith m s.
Proof.
  revert s. induction m as [|y m IH]; intros s Hc; [reflexivity|].
  simpl in Hc. apply orb_false_elim in Hc as [Hy Hm].
  destruct s as [|x s]; simpl.
  - rewrite Hy. reflexivity.
  - rewrite IH by assumption. reflexivity.
Qed.

Lemma startsWith_absent_head (c : ascii) (m b : string) :
  occurs c m = false -> m <> EmptyString ->
  startsWith m (String c b) = false.
Proof.
  destruct m as [|y m]; intros Hc Hm; [congruence|].
  simpl in *. apply orb_false_elim in Hc as [Hy _]. rewrite Hy. reflexivity.
Qed.

(** A text searched for [m] can be cut at a character that [m] does not
    contain. *)
Lemma includes_cut (c : ascii) (m a b : string) :
  occurs c m = false -> m <> EmptyString ->
  includes (a ++ String c b) m = includes a m || includes b m.
Proof.
  intros Hc Hm. induction a as [|x a IH].
  - simpl. rewrite (startsWith_absent_head c m b Hc Hm).
    destruct m; [congruence|]. reflexivity.
  - cbn [append includes]. fold (append a (String c b)).
    rewrite IH.
    change (String x (a ++ String c b)) with (String x a ++ String c b).
    rewrite startsWith_app_absent by assumption.
    rewrite orb_assoc. reflexivity.
Qed.

(** ... and so a run of characters foreign to [m] hides nothing *)
Lemma includes_foreign (m d b : string) :
  Text.noneOccurs d m -> m <> EmptyString ->
  includes (d ++ b) m = includes b m.
Proof.
  intros Hd Hm. induction d as [|c d IH]; [reflexivity|].
  change (String c d ++ b) with (EmptyString ++ String c (d ++ b)).
  rewrite (includes_cut c m) by
    (try assumption; apply Hd; simpl; rewrite Ascii.eqb_refl; reflexivity).
  rewrite IH.
  - destruct m; [congruence|]. reflexivity.
  - intros x Hx. apply Hd. simpl. rewrite Hx. apply orb_true_r.
Qed.

Lemma includes_foreign_middle (m a d b : string) :
  Text.noneOccurs d m -> m <> EmptyString -> d <> EmptyString ->
  includes (a ++ d ++ b) m = includes a m || includes b m.
Proof.
  intros Hd Hm Hne. destruct d as [|c d]; [congruence|].
  change (a ++ String c d ++ b) with (a ++ String c (d ++ b)).
  rewrite (includes_cut c m) by
    (try assumption; apply Hd; simpl; rewrite Ascii.eqb_refl; reflexivity).
  rewrite (includes_foreign m d b); [reflexivity| |assumption].
  intros x Hx. apply Hd. simpl. rewrite Hx. apply orb_true_r.
Qed.

End TextFacts.

(* ===================================================================== *)
(** ** Facts about [JSON.parse] *)
(* ===================================================================== *)

Module JsonFacts.

Import Js Json.

Lemma skip_length s : length (skip s) <= length s.
Proof.
  induction s as [|c s IH]; cbn [skip]; [lia|].
  destruct (ws c); cbn [length]; lia.
Qed.

Lemma drop_length n s : length (Text.drop n s) <= length s.
Proof.
  revert s. induction n as [|n IH]; intros [|c s]; cbn [Text.drop length];
    try lia. specialize (IH s). lia.
Qed.

Lemma after_length c s s' : after c s = Some s' -> length s = S (length s').
Proof.
  destruct s as [|x s]; cbn [after]; [discriminate|].
  destruct (Ascii.eqb x c); [|discriminate].
  intros H. inversion H; subst. reflexivity.
Qed.

Lemma chars_length_upto n :
  forall s acc t r,
    length s <= n -> chars s acc = Some (t, r) -> length r < length s.
Proof.
  induction n as [|n IH]; intros s acc t r Hn H.
  - destruct s; [discriminate|cbn [length] in Hn; lia].
  - destruct s as [|c s]; [discriminate|]. cbn [chars] in H.
    cbn [length] in *.
    destruct (Ascii.eqb c Text.quote).
    { inversion H; subst. lia. }
    destruct (Ascii.eqb c "\").
    + destruct s as [|e s]; [discriminate|].
      destruct (Ascii.eqb e "u").
      * destruct s as [|h1 [|h2 [|h3 [|h4 s5]]]]; try discriminate.
        destruct (hex4 h1 h2 h3 h4); [|discriminate].
        apply IH in H; cbn [length] in *; lia.
      * destruct (escape e); [|discriminate].
        apply IH in H; cbn [length] in *; lia.
    + destruct (Text.code c <? 32)%N; [discriminate|].
      apply IH in H; lia.
Qed.

Lemma chars_length s acc t r :
  chars s acc = Some (t, r) -> length r < length s.
Proof. apply (chars_length_upto (length s)). lia. Qed.

Lemma digits_length s : forall acc n v k r,
  digits s acc n = (v, k, r) -> length r <= length s.
Proof.
  induction s as [|c s IH]; intros acc n v k r H; cbn [digits] in H.
  - inversion H; subst. lia.
  - destruct (Text.digit c).
    + apply IH in H. cbn [length]. lia.
    + inversion H; subst. lia.
Qed.

Lemma fraction_length s v k r :
  fraction s = Some (v, k, r) -> length r <= length s.
Proof.
  unfold fraction. intros H.
  destruct (after "." s) as [s'|] eqn:E.
  - apply after_length in E.
    destruct (digits s' 0 0) as [[v' k'] r'] eqn:Ed.
    apply digits_length in Ed.
    destruct k'; [discriminate|]. inversion H; subst. lia.
  - inversion H; subst. lia.
Qed.

Lemma signed_length s : length (snd (signed s)) <= length s.
Proof.
  unfold signed.
  destruct (after "-" s) eqn:E1; [apply after_length in E1; cbn [snd]; lia|].
  destruct (after "+" s) eqn:E2; [apply after_length in E2; cbn [snd]; lia|].
  cbn [snd]. lia.
Qed.

Lemma exponent_length s e r :
  exponent s = Some (e, r) -> length r <= length s.
Proof.
  unfold exponent. intros H.
  assert (Hd : forall s', length s' < length s ->
             match digits (snd (signed s')) 0 0 with
             | (_, O, _) => None
             | (v, _, r0) => Some (if fst (signed s') then (- v)%Z else v, r0)
             end = Some (e, r) -> length r <= length s).
  { intros s' Hs' Hx.
    destruct (digits (snd (signed s')) 0 0) as [[v k] r0] eqn:E.
    apply digits_length in E. pose proof (signed_length s').
    destruct k; [discriminate|]. inversion Hx; subst. lia. }
  destruct (after "e" s) as [s'|] eqn:E1.
  - apply after_length in E1. apply (Hd s'); [lia|exact H].
  - destruct (after "E" s) as [s'|] eqn:E2.
    + apply after_length in E2. apply (Hd s'); [lia|exact H].
    + inversion H; subst. lia.
Qed.

Lemma integer_length s v r : integer s = Some (v, r) -> length r <= length s.
Proof.
  unfold integer. destruct s as [|c s']; [discriminate|].
  destruct (Ascii.eqb c "0").
  - intros H. inversion H; subst. cbn [length]. lia.
  - destruct (digits (String c s') 0 0) as [[v' k] r0] eqn:E.
    apply digits_length in E. destruct k; [discriminate|].
    intros H. inversion H; subst. lia.
Qed.

Lemma number_length s q r : number s = Some (q, r) -> length r <= length s.
Proof.
  unfold number. intros H.
  assert (Hs1 : length (match after "-" s with Some t => t | None => s end)
                <= length s).
  { destruct (after "-" s) eqn:E; [apply after_length in E|]; lia. }
  destruct (integer _) as [[ip s3]|] eqn:Ei; [|discriminate].
  apply integer_length in Ei.
  destruct (fraction s3) as [[[fv fn] s4]|] eqn:Ef; [|discriminate].
  apply fraction_length in Ef.
  destruct (exponent s4) as [[e s5]|] eqn:Ee; [|discriminate].
  apply exponent_length in Ee. inversion H; subst. lia.
Qed.

Lemma keyword_length w s r : keyword w s = Some r -> length r <= length s.
Proof.
  unfold keyword. destruct (Text.startsWith w s); [|discriminate].
  intros H. inversion H; subst. apply drop_length.
Qed.

Lemma scalar_length s v r : scalar s = Some (v, r) -> length r <= length s.
Proof.
  unfold scalar. intros H.
  destruct (after Text.quote s) as [s'|] eqn:E.
  - apply after_length in E.
    destruct (chars s' []) as [[t r']|] eqn:Ec; [|discriminate].
    apply chars_length in Ec. inversion H; subst. lia.
  - destruct (keyword "true" s) eqn:E1;
      [apply keyword_length in E1; inversion H; subst; lia|].
    destruct (keyword "false" s) eqn:E2;
      [apply keyword_length in E2; inversion H; subst; lia|].
    destruct (keyword "null" s) eqn:E3;
      [apply keyword_length in E3; inversion H; subst; lia|].
    destruct (number s) as [[q r']|] eqn:En; [|discriminate].
    apply number_length in En. inversion H; subst. lia.
Qed.

(** what a parser leaves is no longer than what it was given *)
Lemma value_length fuel :
  (forall s v r, value fuel s = Some (v, r) -> length r <= length s)
  /\ (forall s acc v r, members fuel s acc = Some (v, r) -> length r <= length s)
  /\ (forall s acc v r, elements fuel s acc = Some (v, r) -> length r <= length s).
Proof.
  induction fuel as [|f (IHv & IHm & IHe)];
    [repeat split; intros; discriminate|].
  repeat split.
  - intros s v r H. cbn [value] in H. pose proof (skip_length s).
    destruct (after "{" (skip s)) as [s'|] eqn:E1.
    + apply after_length in E1. pose proof (skip_length s').
      destruct (after "}" (skip s')) as [r'|] eqn:E2.
      * apply after_length in E2. inversion H; subst. lia.
      * apply IHm in H. lia.
    + destruct (after "[" (skip s)) as [s'|] eqn:E3.
      * apply after_length in E3. pose proof (skip_length s').
        destruct (after "]" (skip s')) as [r'|] eqn:E4.
        -- apply after_length in E4. inversion H; subst. lia.
        -- apply IHe in H. lia.
      * apply scalar_length in H. lia.
  - intros s acc v r H. cbn [members] in H. pose proof (skip_length s).
    destruct (after Text.quote (skip s)) as [s1|] eqn:E1; [|discriminate].
    apply after_length in E1.
    destruct (chars s1 []) as [[k s2]|] eqn:Ec; [|discriminate].
    apply chars_length in Ec. pose proof (skip_length s2).
    destruct (after ":" (skip s2)) as [s3|] eqn:E2; [|discriminate].
    apply after_length in E2.
    destruct (value f s3) as [[v' s4]|] eqn:Ev; [|discriminate].
    apply IHv in Ev. pose proof (skip_length s4).
    destruct (after "," (skip s4)) as [s5|] eqn:E3.
    + apply after_length in E3. apply IHm in H. lia.
    + destruct (after "}" (skip s4)) as [s5|] eqn:E4; [|discriminate].
      apply after_length in E4. inversion H; subst. lia.
  - intros s acc v r H. cbn [elements] in H.
    destruct (value f s) as [[v' s1]|] eqn:Ev; [|discriminate].
    apply IHv in Ev. pose proof (skip_length s1).
    destruct (after "," (skip s1)) as [s2|] eqn:E3.
    + apply after_length in E3. apply IHe in H. lia.
    + destruct (after "]" (skip s1)) as [s2|] eqn:E4; [|discriminate].
      apply after_length in E4. inversion H; subst. lia.
Qed.

(** Fuel beyond the bound changes nothing. *)
Lemma fuel_enough n :
  forall m,
  (forall s, 2 * length s + 2 <= n -> 2 * length s + 2 <= m ->
             value n s = value m s)
  /\ (forall s acc, 2 * length s + 3 <= n -> 2 * length s + 3 <= m ->
                    members n s acc = members m s acc)
  /\ (forall s acc, 2 * length s + 3 <= n -> 2 * length s + 3 <= m ->
                    elements n s acc = elements m s acc).
Proof.
  induction n as [|n IH]; intros m; [repeat split; intros; lia|].
  destruct m as [|m]; [repeat split; intros; lia|].
  destruct (IH m) as (IHv & IHm & IHe).
  repeat split.
  - intros s Hn Hm. cbn [value]. pose proof (skip_length s).
    destruct (after "{" (skip s)) as [s'|] eqn:E1.
    + apply after_length in E1. rewrite (IHm s' []) by lia. reflexivity.
    + destruct (after "[" (skip s)) as [s'|] eqn:E3; [|reflexivity].
      apply after_length in E3. rewrite (IHe s' []) by lia. reflexivity.
  - intros s acc Hn Hm. cbn [members]. pose proof (skip_length s).
    destruct (after Text.quote (skip s)) as [s1|] eqn:E1; [|reflexivity].
    apply after_length in E1.
    destruct (chars s1 []) as [[k s2]|] eqn:Ec; [|reflexivity].
    apply chars_length in Ec. pose proof (skip_length s2).
    destruct (after ":" (skip s2)) as [s3|] eqn:E2; [|reflexivity].
    apply after_length in E2.
    rewrite (IHv s3) by lia.
    destruct (value m s3) as [[v' s4]|] eqn:Ev; [|reflexivity].
    apply (proj1 (value_length m)) in Ev. pose proof (skip_length s4).
    destruct (after "," (skip s4)) as [s5|] eqn:E3; [|reflexivity].
    apply after_length in E3. apply IHm; lia.
  - intros s acc Hn Hm. cbn [elements].
    rewrite (IHv s) by lia.
    destruct (value m s) as [[v' s1]|] eqn:Ev; [|reflexivity].
    apply (proj1 (value_length m)) in Ev. pose proof (skip_length s1).
    destruct (after "," (skip s1)) as [s2|] eqn:E3; [|reflexivity].
    apply after_length in E3. apply IHe; lia.
Qed.

(** [Json.parse] has all the fuel it can use: with more, the outcome is
    the same. *)
Lemma value_fuel s n :
  2 * length s + 2 <= n -> value n s = value (2 * length s + 2) s.
Proof.
  intros Hn. apply (proj1 (fuel_enough n (2 * length s + 2))); lia.
Qed.

End JsonFacts.

(* ===================================================================== *)
(** ** Facts about the request handler *)
(* ===================================================================== *)

Module DispatchFacts.

Import Js Dispatch Trace.

(** *** The loop of attempts *)

Section Loop.

Variable cfg : Config.
Variable w : World.

Lemma requestLoop_chats (j k : nat) :
  chats (snd (requestLoop cfg w j k)) <= S (maxRetries cfg) - k.
Proof.
  funelim (requestLoop cfg w j k); cbn [snd fst]; unfold chats in *;
    cbn [filter isChat List.length] in *; try lia.
Qed.

Lemma requestLoop_trace (j k : nat) :
  k <= maxRetries cfg ->
  exists n last,
    snd (requestLoop cfg w j k) = (retries j k n ++ [last])%list /\
    k + n <= maxRetries cfg /\
    (last = Chat j (k + n) \/ last = TimedOut (BeforeAttempt j (k + n))).
Proof.
  funelim (requestLoop cfg w j k); intros Hk; cbn [snd fst].
  - lia.
  - exists 0, (TimedOut (BeforeAttempt j retryCount)).
    rewrite Nat.add_0_r. repeat split; auto.
  - exists 0, (Chat j retryCount).
    rewrite Nat.add_0_r. repeat split; auto.
  - destruct H as (n & last & Htr & Hn & Hlast); [assumption|].
    exists (S n), last. rewrite Htr.
    replace (retryCount + S n) with (S retryCount + n) by lia.
    repeat split; auto.
  - exists 0, (Chat j retryCount).
    rewrite Nat.add_0_r. repeat split; auto.
Qed.

Lemma requestLoop_within (j k : nat) :
  withinBatches (snd (requestLoop cfg w j k)).
Proof.
  funelim (requestLoop cfg w j k); cbn [snd fst]; intros p Hp.
  - destruct Hp.
  - destruct Hp as [Hp|[]]. inversion Hp. reflexivity.
  - destruct Hp as [Hp|[]]. discriminate.
  - destruct Hp as [Hp|[Hp|Hp]]; try discriminate. apply H. exact Hp.
  - destruct Hp as [Hp|[]]. discriminate.
Qed.

(** the loop is never left through its condition *)
Lemma requestLoop_entered (j k : nat) :
  k <= maxRetries cfg -> fst (requestLoop cfg w j k) <> NotEntered.
Proof.
  funelim (requestLoop cfg w j k); intros Hk; cbn [snd fst];
    try discriminate.
  - lia.
  - apply H. assumption.
Qed.

Lemma requestLoop_timed_out (j k : nat) (message : string) :
  k <= maxRetries cfg ->
  checkTimeout cfg w (BeforeAttempt j k) = Some message ->
  requestLoop cfg w j k = (Threw message, [TimedOut (BeforeAttempt j k)]).
Proof.
  funelim (requestLoop cfg w j k); intros Hk Hc; try congruence; lia.
Qed.

Lemma requestLoop_exhausted (j k : nat) (e : thrown) :
  k <= maxRetries cfg ->
  allRejected cfg w j k e ->
  requestLoop cfg w j k =
    (Threw (exhaustedMessage cfg e),
     (retries j k (maxRetries cfg - k) ++ [Chat j (maxRetries cfg)])%list).
Proof.
  funelim (requestLoop cfg w j k); intros Hk [Hall Hlast].
  - lia.
  - destruct (Hall retryCount) as [Hc _]; [lia|]. congruence.
  - destruct (Hall retryCount) as [_ [e' He']]; [lia|]. congruence.
  - rewrite H with (e := e0).
    + cbn [fst snd].
      replace (maxRetries cfg - retryCount)
        with (S (maxRetries cfg - S retryCount)) by lia.
      reflexivity.
    + assumption.
    + split; [|assumption]. intros a Ha. apply Hall. lia.
  - assert (retryCount = maxRetries cfg) by lia. subst retryCount.
    rewrite Hlast in Heq0. inversion Heq0; subst.
    rewrite Nat.sub_diag. reflexivity.
Qed.

End Loop.

(** *** One target *)

Section Target.

Variable cfg : Config.
Variable jsonrepair : string -> option string.
Variable w : World.

Lemma task_website j site :
  AuditResult.website (fst (task cfg jsonrepair w j site))
  = WebsiteData.url site.
Proof.
  unfold task. cbn [fst].
  destruct (fst (requestLoop cfg w j 0)); try reflexivity.
  unfold answeredResult.
  destruct (truthy _); reflexivity.
Qed.

Lemma task_events j site :
  snd (task cfg jsonrepair w j site) = snd (requestLoop cfg w j 0).
Proof. reflexivity. Qed.

Lemma batchPromises_length j batch :
  List.length (batchPromises cfg jsonrepair w j batch) = List.length batch.
Proof.
  revert j. induction batch as [|site batch IH]; intros j; simpl;
    [reflexivity|]. rewrite IH. reflexivity.
Qed.

Lemma batchPromises_app j a b :
  batchPromises cfg jsonrepair w j (a ++ b)
  = (batchPromises cfg jsonrepair w j a
       ++ batchPromises cfg jsonrepair w (j + List.length a) b)%list.
Proof.
  revert j. induction a as [|site a IH]; intros j; simpl.
  - rewrite Nat.add_0_r. reflexivity.
  - rewrite IH. replace (S j + List.length a) with (j + S (List.length a))
      by lia. reflexivity.
Qed.

Lemma batchPromises_websites j batch :
  map AuditResult.website (map fst (batchPromises cfg jsonrepair w j batch))
  = map WebsiteData.url batch.
Proof.
  revert j. induction batch as [|site batch IH]; intros j;
    cbn [batchPromises map]; [reflexivity|].
  rewrite IH, task_website. reflexivity.
Qed.

Lemma batchPromises_within j batch :
  withinBatches
    (List.concat (map snd (batchPromises cfg jsonrepair w j batch))).
Proof.
  revert j. induction batch as [|site batch IH]; intros j p Hp;
    cbn [batchPromises map List.concat] in Hp.
  - destruct Hp.
  - apply in_app_or in Hp as [Hp|Hp].
    + exact (requestLoop_within cfg w j 0 p Hp).
    + exact (IH (S j) p Hp).
Qed.

End Target.

(** *** The loop of batches *)

Section Batches.

Variable cfg : Config.
Variable jsonrepair : string -> option string.
Variable w : World.
Variable websites : list WebsiteData.t.

Local Abbreviation b := (Pos.to_nat (batchSize cfg)).

Lemma batchAt_skipn i :
  skipn i websites = (batchAt cfg websites i ++ skipn (i + b) websites)%list.
Proof.
  unfold batchAt, slice.
  replace (i + Pos.to_nat (batchSize cfg) - i)
    with (Pos.to_nat (batchSize cfg)) by lia.
  rewrite Nat.add_comm, <- skipn_skipn, firstn_skipn. reflexivity.
Qed.

Lemma recordsFrom_step i :
  recordsFrom cfg jsonrepair w websites i
  = (batchResults cfg jsonrepair w websites i
       ++ recordsFrom cfg jsonrepair w websites (i + b))%list.
Proof.
  unfold recordsFrom, batchResults.
  rewrite (batchAt_skipn i) at 1.
  rewrite batchPromises_app, map_app. f_equal.
  destruct (le_lt_dec (List.length websites) (i + b)) as [Hle|Hlt].
  - rewrite (skipn_all2 websites Hle).
    destruct (skipn (i + b) websites); reflexivity.
  - f_equal. f_equal.
    unfold batchAt, slice.
    rewrite length_firstn, length_skipn. lia.
Qed.

Lemma recordsFrom_end i :
  ~ i < List.length websites -> recordsFrom cfg jsonrepair w websites i = [].
Proof.
  intros Hi. unfold recordsFrom. rewrite skipn_all2 by lia. reflexivity.
Qed.

(** How the loop ends: with every remaining record, or with the
    time-out thrown at the first batch boundary where the budget is
    found exceeded, which is then the last event. *)
Lemma batches_outcome n i results log :
  let out := batches cfg jsonrepair w websites n i results log in
  (exists events,
      fst out =
        Json 200
          (ResultsBody
             (results ++ recordsFrom cfg jsonrepair w websites i)
             (List.length websites)
             (List.length
                (results ++ recordsFrom cfg jsonrepair w websites i)))
      /\ snd out = (log ++ events)%list
      /\ withinBatches events)
  \/
  (exists events p,
      boundary p = true
      /\ checkTimeout cfg w p = Some (timedOutMessage cfg)
      /\ fst out = Caught (timedOutMessage cfg)
      /\ snd out = (log ++ events ++ [TimedOut p])%list
      /\ withinBatches events).
Proof.
  funelim (batches cfg jsonrepair w websites n i results log);
    cbn zeta; cbn [fst snd].
  - left. exists []. rewrite recordsFrom_end by assumption.
    rewrite !app_nil_r. repeat split; auto. intros p [].
  - right. exists [], (BeforeBatch n).
    assert (message = timedOutMessage cfg) as ->.
    { unfold checkTimeout in Heq.
      destruct (_ || _); [discriminate|].
      destruct (_ <? _)%Z; congruence. }
    repeat split; auto. intros p [].
  - right. exists (batchEvents cfg jsonrepair w websites i), (AfterBatch n).
    assert (message = timedOutMessage cfg) as ->.
    { unfold checkTimeout in Heq.
      destruct (_ || _); [discriminate|].
      destruct (_ <? _)%Z; congruence. }
    repeat split; auto. apply batchPromises_within.
  - cbn zeta in H.
    destruct H as [(events & Hf & Hs & Hw)|(events & p & Hb & Hc & Hf & Hs & Hw)].
    + left. exists (batchEvents cfg jsonrepair w websites i ++ events)%list.
      rewrite (recordsFrom_step i), Hf, Hs, !app_assoc.
      repeat split; auto.
      intros p Hp. apply in_app_or in Hp as [Hp|Hp].
      * exact (batchPromises_within cfg jsonrepair w i _ p Hp).
      * exact (Hw p Hp).
    + right.
      exists (batchEvents cfg jsonrepair w websites i ++ events)%list, p.
      rewrite Hf, Hs, !app_assoc.
      repeat split; auto.
      intros q Hq. apply in_app_or in Hq as [Hq|Hq].
      * exact (batchPromises_within cfg jsonrepair w i _ q Hq).
      * exact (Hw q Hq).
Qed.

End Batches.

(** *** The message of exhausted retries *)

Lemma digit_text (d : Decimal.uint) (c : ascii) :
  Text.occurs c (NilEmpty.string_of_uint d) = true ->
  Text.digit c = true.
Proof.
  induction d; cbn [NilEmpty.string_of_uint Text.occurs]; intros H;
    try discriminate;
    apply orb_prop in H as [H|H]; auto;
    apply Ascii.eqb_eq in H; subst c; reflexivity.
Qed.

Lemma showNat_digits (n : nat) (c : ascii) :
  Text.occurs c (showNat n) = true -> Text.digit c = true.
Proof.
  unfold showNat, NilZero.string_of_uint.
  destruct (Nat.to_uint n) eqn:E; try apply digit_text.
  cbn [Text.occurs]. intros H.
  apply orb_prop in H as [H|H]; [|discriminate].
  apply Ascii.eqb_eq in H; subst c; reflexivity.
Qed.

Lemma showNat_nonempty (n : nat) : showNat n <> EmptyString.
Proof.
  unfold showNat, NilZero.string_of_uint.
  destruct (Nat.to_uint n); simpl; discriminate.
Qed.

Lemma digit_foreign (m : string) (c : ascii) :
  Text.occurs "0" m = false -> Text.occurs "1" m = false ->
  Text.occurs "2" m = false -> Text.occurs "3" m = false ->
  Text.occurs "4" m = false -> Text.occurs "5" m = false ->
  Text.occurs "6" m = false -> Text.occurs "7" m = false ->
  Text.occurs "8" m = false -> Text.occurs "9" m = false ->
  Text.digit c = true -> Text.occurs c m = false.
Proof.
  intros H0 H1 H2 H3 H4 H5 H6 H7 H8 H9.
  destruct c as [[] [] [] [] [] [] [] []]; intros Hd;
    try discriminate Hd; assumption.
Qed.

(** a marker without a digit and without a colon, that does not start
    with a space, is in the message exactly when it is in the text of
    the last error *)
Lemma exhaustedMessage_includes (cfg : Config) (e : thrown) (m : string) :
  (forall c, Text.digit c = true -> Text.occurs c m = false) ->
  Text.occurs ":" m = false ->
  (forall s, Text.startsWith m (String " " s) = false) ->
  Text.includes "Ollama request failed after " m = false ->
  Text.includes " retries" m = false ->
  Text.includes (exhaustedMessage cfg e) m = Text.includes (shown e) m.
Proof.
  intros Hdig Hcolon Hsp HA HR.
  assert (Hm : m <> EmptyString).
  { intros ->. discriminate (Hsp EmptyString). }
  unfold exhaustedMessage.
  rewrite TextFacts.includes_foreign_middle;
    [ | intros c Hc; apply Hdig; exact (showNat_digits _ c Hc)
      | exact Hm | apply showNat_nonempty ].
  rewrite HA. cbn [orb].
  change (" retries: " ++ shown e)
    with (" retries" ++ String ":" (String " " (shown e))).
  rewrite TextFacts.includes_cut by assumption.
  rewrite HR. cbn [orb Text.includes].
  rewrite Hsp. reflexivity.
Qed.

Lemma isTimeout_exhausted (cfg : Config) (e : thrown) :
  isTimeout (exhaustedMessage cfg e) = marked (shown e).
Proof.
  unfold isTimeout, marked.
  rewrite !exhaustedMessage_includes;
    try reflexivity;
    intros c; try apply digit_foreign; reflexivity.
Qed.

End DispatchFacts.

(* ===================================================================== *)
(** ** The request handler: results *)
(* ===================================================================== *)

Module Handler.

Import Js Dispatch Trace DispatchFacts.

Lemma POST_outcome cfg jsonrepair w websites :
  websites <> [] -> probe w = Listed ->
  let out := POST cfg jsonrepair w websites in
  (exists events,
      fst out =
        Json 200
          (ResultsBody (recordsFrom cfg jsonrepair w websites 0)
                       (List.length websites)
                       (List.length (recordsFrom cfg jsonrepair w websites 0)))
      /\ snd out = (ListModels :: events)%list
      /\ withinBatches events)
  \/
  (exists events p,
      boundary p = true
      /\ checkTimeout cfg w p = Some (timedOutMessage cfg)
      /\ fst out = Caught (timedOutMessage cfg)
      /\ snd out = (ListModels :: events ++ [TimedOut p])%list
      /\ withinBatches events).
Proof.
  intros Hne Hp. unfold POST. destruct websites as [|s0 rest]; [congruence|].
  rewrite Hp. exact (batches_outcome cfg jsonrepair w (s0 :: rest) 0 0 [] [ListModels]).
Qed.

Lemma recordsFrom_length cfg jsonrepair w websites :
  List.length (recordsFrom cfg jsonrepair w websites 0) = List.length websites.
Proof.
  unfold recordsFrom. rewrite length_map, batchPromises_length. reflexivity.
Qed.

Lemma recordsFrom_websites cfg jsonrepair w websites :
  map AuditResult.website (recordsFrom cfg jsonrepair w websites 0)
  = map WebsiteData.url websites.
Proof. unfold recordsFrom. apply batchPromises_websites. Qed.

Lemma timedOutMessage_caught cfg : caughtTimeout (timedOutMessage cfg) = true.
Proof. reflexivity. Qed.

(** a budget that is switched off, or not positive, is never exceeded *)
Lemma budget_disabled cfg w p :
  enableTotalTimeout cfg = false \/ (maxTotalTime cfg <= 0)%Z ->
  checkTimeout cfg w p = None.
Proof.
  unfold checkTimeout. intros [H|H].
  - rewrite H. reflexivity.
  - apply Z.leb_le in H. rewrite H, orb_true_r. reflexivity.
Qed.

Lemma timedOutMessage_isTimeout cfg : isTimeout (timedOutMessage cfg) = true.
Proof.
  unfold isTimeout.
  replace (Text.includes (timedOutMessage cfg) "timed out") with true
    by reflexivity.
  rewrite orb_true_r. reflexivity.
Qed.

(** A target that finds the budget exceeded before one of its attempts
    gets a record of kind [timeout]: inside a batch the time-out is
    caught at line 457. *)
Lemma exceeded_budget_in_flight cfg jsonrepair w j target :
  checkTimeout cfg w (BeforeAttempt j 0) = Some (timedOutMessage cfg) ->
  let record := fst (task cfg jsonrepair w j target) in
  AuditResult.verification_type record = text "timeout"
  /\ AuditResult.confidence_score record = Num 0
  /\ AuditResult.has_age_verification record = Bool false.
Proof.
  intros Hc. unfold task.
  rewrite (requestLoop_timed_out cfg w j 0 _ (Nat.le_0_l _) Hc).
  cbn [fst]. unfold failedResult.
  cbn [AuditResult.verification_type AuditResult.confidence_score
       AuditResult.has_age_verification].
  rewrite timedOutMessage_isTimeout. repeat split; reflexivity.
Qed.

(** The answers of the handler: 400 for no target, 503 for a failed
    probe, 200 with one record per target, or the time-out of the
    budget at a batch boundary. *)
Lemma POST_cases cfg jsonrepair w websites :
  let response := fst (POST cfg jsonrepair w websites) in
  response = Json 400 (ErrorBody "No websites provided" None)
  \/ (exists reason,
        response = Json 503 (ErrorBody unavailable (Some reason)))
  \/ response
     = Json 200 (ResultsBody (recordsFrom cfg jsonrepair w websites 0)
                             (List.length websites) (List.length websites))
  \/ response = Caught (timedOutMessage cfg).
Proof.
  cbn zeta. destruct websites as [|s0 rest] eqn:E; [left; reflexivity|].
  right. destruct (probe w) eqn:Hp.
  - right.
    destruct (POST_outcome cfg jsonrepair w (s0 :: rest)) as
      [(events & Hf & _)|(events & q & _ & _ & Hf & _)];
      try congruence.
    + left. rewrite recordsFrom_length in Hf. exact Hf.
    + right. exact Hf.
  - left. unfold POST. rewrite Hp. eexists. reflexivity.
  - left. unfold POST. rewrite Hp. eexists. reflexivity.
Qed.

(** C1, as amended. Whenever [checkTimeout] finds the budget exceeded at
    a batch boundary, that is the last thing the run does: no further
    batch is started, control reaches the [catch] of line 499 with the
    time-out error, which the handler takes for a time-out, and no
    result set, hence no record for any target, is returned. *)
Theorem exceeded_budget_ends_the_run cfg jsonrepair w websites p :
  boundary p = true ->
  In (TimedOut p) (snd (POST cfg jsonrepair w websites)) ->
  fst (POST cfg jsonrepair w websites) = Caught (timedOutMessage cfg)
  /\ caughtTimeout (timedOutMessage cfg) = true
  /\ exists earlier,
       snd (POST cfg jsonrepair w websites) = (earlier ++ [TimedOut p])%list
       /\ withinBatches earlier.
Proof.
  intros Hb Hin.
  destruct websites as [|s0 rest]; [destruct Hin|].
  destruct (probe w) eqn:Hp.
  - destruct (POST_outcome cfg jsonrepair w (s0 :: rest)) as
      [(events & Hf & Hs & Hw)|(events & q & Hq & Hc & Hf & Hs & Hw)];
      try congruence.
    + rewrite Hs in Hin. destruct Hin as [Hin|Hin]; [discriminate|].
      apply Hw in Hin. congruence.
    + rewrite Hs in Hin. destruct Hin as [Hin|Hin]; [discriminate|].
      apply in_app_or in Hin as [Hin|[Hin|[]]].
      * apply Hw in Hin. congruence.
      * inversion Hin; subst q.
        split; [exact Hf|]. split; [apply timedOutMessage_caught|].
        exists (ListModels :: events). split; [exact Hs|].
        intros r [Hr|Hr]; [discriminate|]. exact (Hw r Hr).
  - unfold POST in Hin. rewrite Hp in Hin.
    destruct Hin as [Hin|[]]. discriminate.
  - unfold POST in Hin. rewrite Hp in Hin.
    destruct Hin as [Hin|[]]. discriminate.
Qed.

(** C2, as amended. For a non-empty list of targets, when the probe
    succeeds and the budget is not found exceeded at any batch boundary,
    the handler answers with one record per target, whatever the calls
    of the targets do. *)
Theorem one_record_per_target cfg jsonrepair w websites :
  websites <> [] ->
  probe w = Listed ->
  (forall p, boundary p = true -> checkTimeout cfg w p = None) ->
  exists results,
    fst (POST cfg jsonrepair w websites)
    = Json 200 (ResultsBody results (List.length websites)
                            (List.length websites))
    /\ List.length results = List.length websites.
Proof.
  intros Hne Hp Hbudget.
  destruct (POST_outcome cfg jsonrepair w websites Hne Hp) as
    [(events & Hf & _)|(events & q & Hq & Hc & _)].
  - exists (recordsFrom cfg jsonrepair w websites 0).
    rewrite recordsFrom_length in Hf. split; [exact Hf|].
    apply recordsFrom_length.
  - rewrite (Hbudget q Hq) in Hc. discriminate.
Qed.

(** C6. The records of a result set are those of the targets, in the
    order of the targets: the website of the i-th record is the url of
    the i-th target. This holds in every world, that is, whatever the
    calls of a batch answer and whenever they do. *)
Theorem records_follow_targets cfg jsonrepair w websites results total
        processed :
  fst (POST cfg jsonrepair w websites)
  = Json 200 (ResultsBody results total processed) ->
  map AuditResult.website results = map WebsiteData.url websites
  /\ forall i target,
       nth_error websites i = Some target ->
       exists record,
         nth_error results i = Some record
         /\ AuditResult.website record = WebsiteData.url target.
Proof.
  intros Hrun.
  assert (Hmap : map AuditResult.website results
                 = map WebsiteData.url websites).
  { destruct websites as [|s0 rest]; [discriminate|].
    destruct (probe w) eqn:Hp;
      [|unfold POST in Hrun; rewrite Hp in Hrun; discriminate..].
    destruct (POST_outcome cfg jsonrepair w (s0 :: rest)) as
      [(events & Hf & _)|(events & q & _ & _ & Hf & _)];
      try congruence.
    rewrite Hf in Hrun. inversion Hrun; subst.
    apply recordsFrom_websites. }
  split; [exact Hmap|].
  intros i target Hi.
  assert (Hu : nth_error (map WebsiteData.url websites) i
               = Some (WebsiteData.url target))
    by (rewrite nth_error_map, Hi; reflexivity).
  rewrite <- Hmap, nth_error_map in Hu.
  destruct (nth_error results i) as [record|]; [|discriminate].
  exists record. split; [reflexivity|]. inversion Hu. reflexivity.
Qed.

(** C7. When the liveness probe fails or runs into its timer, the
    handler answers 503 once; the probe is all it has asked of the
    service: no call for any target, no record. *)
Theorem failed_probe_ends_the_run cfg jsonrepair w websites :
  websites <> [] ->
  probe w <> Listed ->
  exists reason,
    POST cfg jsonrepair w websites
    = (Json 503 (ErrorBody unavailable (Some reason)), [ListModels])
  /\ chats (snd (POST cfg jsonrepair w websites)) = 0.
Proof.
  intros Hne Hp. unfold POST.
  destruct websites as [|s0 rest]; [congruence|].
  destruct (probe w) as [|e|]; [congruence| |].
  - exists (messageOf e). split; reflexivity.
  - exists "Ollama health check timed out". split; reflexivity.
Qed.

(** C8, as amended. When every attempt of a target fails, its record is
    of kind [timeout] exactly when the text of the last error contains
    [timeout], [timed out], [ETIMEDOUT] or [ENOTFOUND], and of kind
    [error] otherwise; only in the second case do the details carry
    the message. *)
Theorem exhausted_retries_kind cfg jsonrepair w j target e :
  allRejected cfg w j 0 e ->
  let record := fst (task cfg jsonrepair w j target) in
  AuditResult.verification_type record
  = text (if marked (shown e) then "timeout" else "error")
  /\ AuditResult.details record
     = text (if marked (shown e)
             then "Request timed out - Ollama service may be overloaded or unavailable"
             else "Error: " ++ exhaustedMessage cfg e)
  /\ AuditResult.has_age_verification record = Bool false
  /\ AuditResult.confidence_score record = Num 0.
Proof.
  intros Hall. unfold task.
  rewrite (requestLoop_exhausted cfg w j 0 e) by (try lia; assumption).
  cbn [fst]. unfold failedResult.
  cbn [AuditResult.verification_type AuditResult.details
       AuditResult.has_age_verification AuditResult.confidence_score].
  rewrite isTimeout_exhausted. repeat split; reflexivity.
Qed.

(** C9. A target's call is attempted at most [maxRetries + 1] times; the
    attempts that fail are each followed by a wait of [backoffBaseMs]
    times the number of the attempt to come; and when all of them fail
    the target gets the record of a failure, which the task returns like
    any other: no verification detected, confidence 0, kind [timeout]
    or [error] by the markers in the text of the last error, and the
    details of that kind. *)
Theorem attempts_bounded_and_spaced cfg jsonrepair w j target :
  let out := task cfg jsonrepair w j target in
  chats (snd out) <= maxRetries cfg + 1
  /\ (exists n last,
         snd out = (retries j 0 n ++ [last])%list
         /\ n <= maxRetries cfg
         /\ (last = Chat j n \/ last = TimedOut (BeforeAttempt j n)))
  /\ (forall e, allRejected cfg w j 0 e ->
         snd out = (retries j 0 (maxRetries cfg)
                      ++ [Chat j (maxRetries cfg)])%list
         /\ fst out
            = {| AuditResult.website := WebsiteData.url target;
                 AuditResult.has_age_verification := Bool false;
                 AuditResult.verification_type :=
                   text (if marked (shown e) then "timeout" else "error");
                 AuditResult.confidence_score := Num 0;
                 AuditResult.details :=
                   text (if marked (shown e)
                         then "Request timed out - Ollama service may be overloaded or unavailable"
                         else "Error: " ++ exhaustedMessage cfg e);
                 AuditResult.timestamp := stamp w j;
                 AuditResult.name := WebsiteData.name target;
                 AuditResult.category := WebsiteData.category target |})
  /\ AuditResult.website (fst out) = WebsiteData.url target.
Proof.
  cbn zeta. rewrite task_events. repeat split.
  - pose proof (requestLoop_chats cfg w j 0). lia.
  - destruct (requestLoop_trace cfg w j 0) as (n & last & Ht & Hn & Hl);
      [lia|].
    exists n, last. auto.
  - rewrite (requestLoop_exhausted cfg w j 0 e) by (try lia; assumption).
    rewrite Nat.sub_0_r. reflexivity.
  - unfold task.
    rewrite (requestLoop_exhausted cfg w j 0 e) by (try lia; assumption).
    cbn [fst]. unfold failedResult. rewrite isTimeout_exhausted.
    reflexivity.
  - apply task_website.
Qed.

End Handler.

(* ===================================================================== *)
(** ** The response-recovery parser: results *)
(* ===================================================================== *)

Module RecoveryFacts.

Import Js Recovery.

(** every literal of the parser is in the fragment of [Regex.read] *)
Lemma literals_wellFormed : forallb Regex.wellFormed literals = true.
Proof. vm_compute. reflexivity. Qed.

Lemma sameKey_refl k : sameKey k k = true.
Proof. unfold sameKey. destruct (list_eq_dec N.eq_dec k k); congruence. Qed.

Lemma lookup_set_same k v fs : lookup k (set k v fs) = v.
Proof.
  induction fs as [|[k' v'] fs IH]; cbn [set lookup].
  - rewrite sameKey_refl. reflexivity.
  - destruct (sameKey k k') eqn:E; cbn [lookup].
    + rewrite sameKey_refl. reflexivity.
    + rewrite E. exact IH.
Qed.

Lemma lookup_set_other k k' v fs :
  sameKey k k' = false -> lookup k (set k' v fs) = lookup k fs.
Proof.
  intros Hk. induction fs as [|[k'' v''] fs IH]; cbn [set lookup].
  - rewrite Hk. reflexivity.
  - destruct (sameKey k' k'') eqn:E; cbn [lookup].
    + unfold sameKey in E.
      destruct (list_eq_dec N.eq_dec k' k''); [subst|discriminate].
      rewrite Hk. reflexivity.
    + destruct (sameKey k k''); [reflexivity|exact IH].
Qed.

Lemma set_nonempty k v fs : set k v fs <> [].
Proof. destruct fs as [|[k' v'] fs]; cbn [set]; [|destruct (sameKey k k')]; discriminate. Qed.

(** what the four loops of attempt 4 leave under [confidence_score] *)
Lemma extracted_confidence content :
  lookup confidenceKey (extracted content)
  = match extractConfidence confidencePatterns content with
    | Some q => Num q
    | None => Undefined
    end.
Proof.
  unfold extracted, confidenceKey.
  assert (H0 : lookup (key "confidence_score")
                      (extractVerificationType content
                         (extractHasVerification content [])) = Undefined).
  { unfold extractVerificationType, extractHasVerification.
    repeat match goal with
           | |- context [match ?x with _ => _ end] => destruct x
           end;
      repeat (rewrite lookup_set_other by reflexivity); reflexivity. }
  destruct (extractConfidence confidencePatterns content) as [q|];
    destruct (extractDetails detailsPatterns content) as [d|];
    repeat (rewrite lookup_set_other by reflexivity);
    try rewrite lookup_set_same; auto.
Qed.

Lemma normalizedScore_example : normalizedScore 95 = (19 # 20)%Q.
Proof. reflexivity. Qed.

(** attempt 4 only keeps a confidence of the unit interval *)
Lemma extractConfidence_unit patterns content q :
  extractConfidence patterns content = Some q -> (0 <= q <= 1)%Q.
Proof.
  induction patterns as [|p ps IH]; cbn [extractConfidence]; [discriminate|].
  destruct (Regex.execi p content) as [m|]; [|exact IH].
  destruct (Regex.group 1 (Regex.groups m)) as [g|]; [|exact IH].
  destruct (parseFloat g) as [score|]; [|exact IH].
  destruct (inUnitInterval (normalizedScore score)) eqn:E; [|exact IH].
  intros H. inversion H; subst q.
  unfold inUnitInterval in E. apply andb_prop in E as [E1 E2].
  split; apply Qle_bool_iff; assumption.
Qed.

Lemma defaultDetails_keeps k kv :
  sameKey k (key "details") = false ->
  lookup k (defaultDetails kv) = lookup k kv.
Proof.
  intros Hk. unfold defaultDetails. destruct (truthy _); [reflexivity|].
  apply lookup_set_other, Hk.
Qed.

Lemma defaultVerificationType_keeps k kv :
  sameKey k (key "verification_type") = false ->
  lookup k (defaultVerificationType kv) = lookup k kv.
Proof.
  intros Hk. unfold defaultVerificationType.
  destruct (truthy (lookup (key "verification_type") kv)); [reflexivity|].
  apply lookup_set_other, Hk.
Qed.

Lemma defaultHasVerification_keeps k content kv :
  sameKey k (key "has_age_verification") = false ->
  lookup k (defaultHasVerification content kv) = lookup k kv.
Proof.
  intros Hk. unfold defaultHasVerification.
  destruct (lookup (key "has_age_verification") kv); try reflexivity.
  apply lookup_set_other, Hk.
Qed.

Lemma defaultConfidence_has kv :
  lookup hasKey (defaultConfidence kv) = lookup hasKey kv.
Proof.
  unfold defaultConfidence. destruct (truthy _); [reflexivity|].
  apply lookup_set_other. reflexivity.
Qed.

(** lines 253-255 test the field for falsiness: a confidence that
    is absent and one that is zero get the same default *)
Lemma defaultConfidence_confidence kv :
  lookup confidenceKey (defaultConfidence kv)
  = if truthy (lookup confidenceKey kv)
    then lookup confidenceKey kv
    else Num (if truthy (lookup hasKey kv) then 7 # 10 else 1 # 2).
Proof.
  unfold defaultConfidence, confidenceKey, hasKey.
  destruct (truthy (lookup (key "confidence_score") kv)); [reflexivity|].
  apply lookup_set_same.
Qed.

Lemma withDefaults_has content kv :
  lookup hasKey (withDefaults content kv)
  = lookup hasKey (defaultHasVerification content kv).
Proof.
  unfold withDefaults.
  rewrite defaultDetails_keeps, defaultConfidence_has,
    defaultVerificationType_keeps by reflexivity.
  reflexivity.
Qed.

Lemma withDefaults_confidence content kv :
  lookup confidenceKey (withDefaults content kv)
  = if truthy (lookup confidenceKey kv)
    then lookup confidenceKey kv
    else Num (if truthy (lookup hasKey (withDefaults content kv))
              then 7 # 10 else 1 # 2).
Proof.
  rewrite withDefaults_has. unfold withDefaults.
  rewrite defaultDetails_keeps, defaultConfidence_confidence by reflexivity.
  rewrite (defaultVerificationType_keeps confidenceKey),
    (defaultVerificationType_keeps hasKey),
    (defaultHasVerification_keeps confidenceKey) by reflexivity.
  reflexivity.
Qed.

Lemma withDefaults_nonempty content kv : withDefaults content kv <> [].
Proof.
  unfold withDefaults, defaultDetails.
  destruct (truthy (lookup (key "details") _)) eqn:E.
  - intros H. rewrite H in E. discriminate.
  - apply set_nonempty.
Qed.

(** attempt 4 always returns, with the fields of [withDefaults] *)
Lemma attempt4_returns content :
  attempt4 content = Some (Obj (withDefaults content (extracted content))).
Proof.
  unfold attempt4.
  pose proof (withDefaults_nonempty content (extracted content)) as H.
  destruct (withDefaults content (extracted content)); congruence.
Qed.


End RecoveryFacts.

(* ===================================================================== *)
(** ** Answers and runs, worked out *)
(* ===================================================================== *)

Module Answers.

Import Js Recovery RecoveryFacts Dispatch Trace Scenario DispatchFacts Handler.

(** C3. The answer [percentAnswer] is well-formed JSON that states a
    confidence of 95. Attempt 1 parses it as it is and the handler
    copies the number: the record has a confidence of 95, not 0.95.
    Only attempt 4 divides by 100 ([normalizedScore_example],
    [extractConfidence_unit]). *)
Theorem percentage_survives_strict_parse jsonrepair w j target :
  parseRobustJSON jsonrepair percentAnswer
  = Obj [ (key "has_age_verification", Bool true);
          (key "verification_type", text "popup");
          (key "confidence_score", Num 95);
          (key "details", text "Age gate on entry") ]
  /\ AuditResult.confidence_score
       (answeredResult jsonrepair w j target percentAnswer)
     = Num 95.
Proof. split; vm_compute; reflexivity. Qed.

(** C4. The answer [bareAnswer] has the four keys and bare values. The
    rewrites of lines 92-100 put quotes around the values, attempt 1
    parses the outcome, and the record holds the strings [false] and
    [0.8] where a boolean and a number are declared. *)
Theorem bare_values_come_back_as_strings jsonrepair w j target :
  preProcess bareAnswer
  = Text.txt "{`has_age_verification`: `false`, `verification_type`: `none`, `confidence_score`: `0.8`, `details`: `No age gate found`}"
  /\ AuditResult.has_age_verification
       (answeredResult jsonrepair w j target bareAnswer)
     = text "false"
  /\ AuditResult.confidence_score
       (answeredResult jsonrepair w j target bareAnswer)
     = text "0.8".
Proof. repeat split; vm_compute; reflexivity. Qed.

(** C5, as stated, fails: the text has no brace span, so
    [parseRobustJSON] returns [null] at line 85, before attempt 4, and
    the record gets the confidence 0.7 of the handler's own fallback. *)
Lemma braceless_text_is_not_extracted :
  parseRobustJSON repairNothing braceless = Null
  /\ AuditResult.confidence_score
       (answeredResult repairNothing mixedService 3 (site 3) braceless)
     = Num (7 # 10)
  /\ ~ (7 # 10 == 95 # 100)%Q.
Proof.
  split; [vm_compute; reflexivity|].
  split; [vm_compute; reflexivity|].
  intros H. vm_compute in H. discriminate H.
Qed.

(** C5, as amended. For the text [braceless], [parseRobustJSON] returns
    [null] and the handler's fallback of lines 423-439 builds the
    record: verification detected (the text contains the word
    verification), kind [detected], confidence 0.7, and the text itself
    as details. *)
Theorem braceless_text_falls_back jsonrepair w j target :
  parseRobustJSON jsonrepair braceless = Null
  /\ answeredResult jsonrepair w j target braceless
     = {| AuditResult.website := WebsiteData.url target;
          AuditResult.has_age_verification := Bool true;
          AuditResult.verification_type := text "detected";
          AuditResult.confidence_score := Num (7 # 10);
          AuditResult.details := text braceless;
          AuditResult.timestamp := stamp w j;
          AuditResult.name := WebsiteData.name target;
          AuditResult.category := WebsiteData.category target |}.
Proof. split; vm_compute; reflexivity. Qed.


(** *** Runs *)

Lemma slowService_run :
  POST OLLAMA_CONFIG repairNothing slowService (sitesFrom 0 36)
  = (Caught "Audit process timed out after 600 seconds",
     (ListModels :: map (fun j => Chat j 0) (seq 0 33)
        ++ [TimedOut (AfterBatch 10)])%list).
Proof. vm_compute. reflexivity. Qed.

Lemma hangingService_run :
  fst (POST OLLAMA_CONFIG repairNothing hangingService (sitesFrom 0 10))
  = Caught "Audit process timed out after 600 seconds".
Proof. vm_compute. reflexivity. Qed.

(** C1, as stated, fails. With the slow service and 36 targets, the
    budget is found exceeded after the eleventh batch; targets 33, 34
    and 35 have not been dispatched, and the handler returns no result
    set at all. *)
Lemma slow_service_returns_no_records :
  In (TimedOut (AfterBatch 10))
     (snd (POST OLLAMA_CONFIG repairNothing slowService (sitesFrom 0 36)))
  /\ chats (snd (POST OLLAMA_CONFIG repairNothing slowService
                      (sitesFrom 0 36))) = 33
  /\ ~ exists results total processed,
         fst (POST OLLAMA_CONFIG repairNothing slowService (sitesFrom 0 36))
         = Json 200 (ResultsBody results total processed).
Proof.
  rewrite slowService_run. cbn [fst snd]. repeat split.
  - right. apply in_or_app. right. left. reflexivity.
  - intros (results & total & processed & H). discriminate H.
Qed.

(** C2, as stated, fails. With the service that hangs and 10 targets,
    every call runs into its time limit, the budget is exceeded during
    the fourth batch, and the handler returns no record. *)
Lemma hanging_service_returns_no_records :
  fst (POST OLLAMA_CONFIG repairNothing hangingService (sitesFrom 0 10))
  = Caught "Audit process timed out after 600 seconds"
  /\ ~ exists results total processed,
         fst (POST OLLAMA_CONFIG repairNothing hangingService
                   (sitesFrom 0 10))
         = Json 200 (ResultsBody results total processed)
         /\ List.length results = 10.
Proof.
  rewrite hangingService_run. split; [reflexivity|].
  intros (results & total & processed & H & _). discriminate H.
Qed.

(** C8, as stated, fails. Every attempt is refused; the record is of
    kind [error], not [timeout]. *)
Lemma refused_connection_is_an_error :
  requestLoop OLLAMA_CONFIG refusingService 0 0
  = (Threw "Ollama request failed after 2 retries: Error: connect ECONNREFUSED 127.0.0.1:11434",
     [Chat 0 0; Sleep 0 1000; Chat 0 1; Sleep 0 2000; Chat 0 2])
  /\ AuditResult.verification_type
       (fst (task OLLAMA_CONFIG repairNothing refusingService 0 (site 0)))
     = text "error"
  /\ text "error" <> text "timeout".
Proof. repeat split; try (vm_compute; reflexivity). discriminate. Qed.

Lemma mixedService_within_budget p :
  boundary p = true -> checkTimeout OLLAMA_CONFIG mixedService p = None.
Proof.
  destruct p as [|n|n|j k]; try discriminate; intros _;
    unfold checkTimeout; cbn [enableTotalTimeout maxTotalTime OLLAMA_CONFIG
                              negb orb now mixedService Z.leb Z.compare];
    match goal with
    | |- context [(?a <? ?b)%Z] => destruct (Z.ltb_spec a b)
    end; try reflexivity; unfold t0 in *; lia.
Qed.

Lemma mixedService_target2_rejected :
  allRejected OLLAMA_CONFIG mixedService 2 0
              (AnError "Error" "getaddrinfo ENOTFOUND localhost").
Proof.
  split; [|reflexivity].
  intros a Ha. cbn [maxRetries OLLAMA_CONFIG] in Ha.
  destruct a as [|[|[|a]]]; try lia;
    (split; [vm_compute; reflexivity|eexists; reflexivity]).
Qed.

Lemma exceeded_budget_ends_the_run_witness :
  boundary (AfterBatch 10) = true
  /\ In (TimedOut (AfterBatch 10))
        (snd (POST OLLAMA_CONFIG repairNothing slowService (sitesFrom 0 36)))
  /\ fst (POST OLLAMA_CONFIG repairNothing slowService (sitesFrom 0 36))
     = Caught (timedOutMessage OLLAMA_CONFIG).
Proof.
  assert (Hin : In (TimedOut (AfterBatch 10))
                   (snd (POST OLLAMA_CONFIG repairNothing slowService
                              (sitesFrom 0 36)))).
  { rewrite slowService_run. cbn [snd].
    right. apply in_or_app. right. left. reflexivity. }
  split; [reflexivity|]. split; [exact Hin|].
  exact (proj1 (exceeded_budget_ends_the_run
                  OLLAMA_CONFIG repairNothing slowService (sitesFrom 0 36)
                  (AfterBatch 10) eq_refl Hin)).
Defined.

Lemma one_record_per_target_witness :
  sitesFrom 0 4 <> []
  /\ probe mixedService = Listed
  /\ exists results,
       fst (POST OLLAMA_CONFIG repairNothing mixedService (sitesFrom 0 4))
       = Json 200 (ResultsBody results 4 4)
       /\ List.length results = 4.
Proof.
  split; [discriminate|]. split; [reflexivity|].
  apply (one_record_per_target OLLAMA_CONFIG repairNothing mixedService
                               (sitesFrom 0 4)).
  - discriminate.
  - reflexivity.
  - exact mixedService_within_budget.
Defined.

Lemma records_follow_targets_witness :
  fst (POST OLLAMA_CONFIG repairNothing mixedService (sitesFrom 0 4))
  = Json 200
      (ResultsBody
         (recordsFrom OLLAMA_CONFIG repairNothing mixedService
                      (sitesFrom 0 4) 0) 4 4)
  /\ map AuditResult.website
         (recordsFrom OLLAMA_CONFIG repairNothing mixedService
                      (sitesFrom 0 4) 0)
     = map WebsiteData.url (sitesFrom 0 4).
Proof.
  assert (Hrun :
    fst (POST OLLAMA_CONFIG repairNothing mixedService (sitesFrom 0 4))
    = Json 200
        (ResultsBody
           (recordsFrom OLLAMA_CONFIG repairNothing mixedService
                        (sitesFrom 0 4) 0) 4 4))
    by (vm_compute; reflexivity).
  split; [exact Hrun|].
  exact (proj1 (records_follow_targets _ _ _ _ _ _ _ Hrun)).
Defined.

Lemma failed_probe_ends_the_run_witness :
  [site 0] <> []
  /\ probe unreachableService <> Listed
  /\ exists reason,
       POST OLLAMA_CONFIG repairNothing unreachableService [site 0]
       = (Json 503 (ErrorBody unavailable (Some reason)), [ListModels])
       /\ chats (snd (POST OLLAMA_CONFIG repairNothing unreachableService
                           [site 0])) = 0.
Proof.
  split; [discriminate|]. split; [discriminate|].
  apply (failed_probe_ends_the_run OLLAMA_CONFIG repairNothing
                                   unreachableService [site 0]);
    discriminate.
Defined.

Lemma exhausted_retries_kind_witness :
  allRejected OLLAMA_CONFIG mixedService 2 0
              (AnError "Error" "getaddrinfo ENOTFOUND localhost")
  /\ AuditResult.verification_type
       (fst (task OLLAMA_CONFIG repairNothing mixedService 2 (site 2)))
     = text "timeout".
Proof.
  split; [exact mixedService_target2_rejected|].
  exact (proj1 (exhausted_retries_kind
                  OLLAMA_CONFIG repairNothing mixedService 2 (site 2) _
                  mixedService_target2_rejected)).
Defined.

Lemma attempts_bounded_and_spaced_witness :
  chats (snd (task OLLAMA_CONFIG repairNothing mixedService 1 (site 1))) <= 3
  /\ snd (task OLLAMA_CONFIG repairNothing mixedService 1 (site 1))
     = [Chat 1 0; Sleep 1 1000; Chat 1 1; Sleep 1 2000; Chat 1 2]
  /\ allRejected OLLAMA_CONFIG mixedService 2 0
                 (AnError "Error" "getaddrinfo ENOTFOUND localhost")
  /\ snd (task OLLAMA_CONFIG repairNothing mixedService 2 (site 2))
     = [Chat 2 0; Sleep 2 1000; Chat 2 1; Sleep 2 2000; Chat 2 2]
  /\ AuditResult.verification_type
       (fst (task OLLAMA_CONFIG repairNothing mixedService 2 (site 2)))
     = text "timeout"
  /\ AuditResult.confidence_score
       (fst (task OLLAMA_CONFIG repairNothing mixedService 2 (site 2)))
     = Num 0
  /\ AuditResult.has_age_verification
       (fst (task OLLAMA_CONFIG repairNothing mixedService 2 (site 2)))
     = Bool false.
Proof.
  split.
  { exact (proj1 (attempts_bounded_and_spaced
                    OLLAMA_CONFIG repairNothing mixedService 1 (site 1))). }
  split; [reflexivity|].
  split; [exact mixedService_target2_rejected|].
  destruct (proj1 (proj2 (proj2 (attempts_bounded_and_spaced
                    OLLAMA_CONFIG repairNothing mixedService 2 (site 2))))
                  _ mixedService_target2_rejected) as [Hlog Hrecord].
  split; [exact Hlog|].
  rewrite Hrecord. repeat split.
Defined.

End Answers.

(* ===================================================================== *)
(** ** The span and the attempts of the parser: results *)
(* ===================================================================== *)

Module SpanFacts.

Import Text Regex Recovery Shape.

Lemma read_braceSpan :
  read braceSpan
  = Cat (Chr (Class false [One "{"]))
        (Cat (Star anyClass) (Chr (Class false [One "}"]))).
Proof. vm_compute. reflexivity. Qed.

Lemma anyClass_all c : inClass false anyClass c = true.
Proof.
  unfold inClass, anyClass. cbn [negated items existsb inItem inKind xorb].
  destruct (space c); reflexivity.
Qed.

Lemma star_any (s : string) (k : string -> option (string * captures)) :
  (forall t, k t = match t with
                   | String c r => if Ascii.eqb "}" c then Some (r, []) else None
                   | EmptyString => None
                   end) ->
  star false anyClass s k
  = match afterLastBrace s with
    | Some r => Some (r, [])
    | None => None
    end.
Proof.
  intros Hk. induction s as [|c s IH].
  - cbn [star afterLastBrace]. apply Hk.
  - cbn [star afterLastBrace]. rewrite anyClass_all, IH.
    destruct (afterLastBrace s); [reflexivity|].
    rewrite Hk. rewrite Ascii.eqb_sym.
    destruct (Ascii.eqb c "}"); reflexivity.
Qed.

Lemma here_braceSpan c s :
  here false (read braceSpan) (String c s)
  = if Ascii.eqb "{" c
    then match afterLastBrace s with
         | Some r => Some (r, [])
         | None => None
         end
    else None.
Proof.
  rewrite read_braceSpan. unfold here. cbn [run].
  unfold inClass at 1. cbn [negated items existsb inItem xorb].
  rewrite orb_false_r.
  destruct (Ascii.eqb "{" c); [|reflexivity].
  apply star_any. intros [|d r]; [reflexivity|].
  unfold inClass. cbn [negated items existsb inItem xorb].
  rewrite orb_false_r. reflexivity.
Qed.

Lemma here_braceSpan_empty : here false (read braceSpan) EmptyString = None.
Proof. reflexivity. Qed.

Lemma afterLastBrace_none s : occurs "}" s = false -> afterLastBrace s = None.
Proof.
  induction s as [|c s IH]; cbn [occurs afterLastBrace]; [reflexivity|].
  intros H. apply orb_false_elim in H as [Hc Hs].
  rewrite IH, Hc by assumption. reflexivity.
Qed.

Lemma afterLastBrace_last mid post :
  occurs "}" post = false ->
  afterLastBrace (mid ++ String "}" post) = Some post.
Proof.
  intros Hp. induction mid as [|c mid IH]; cbn [append afterLastBrace].
  - rewrite (afterLastBrace_none post Hp). reflexivity.
  - rewrite IH. reflexivity.
Qed.

(** [afterLastBrace] says where the last closing brace is *)
Lemma afterLastBrace_some s r :
  afterLastBrace s = Some r ->
  exists mid, s = mid ++ String "}" r /\ occurs "}" r = false.
Proof.
  revert r. induction s as [|c s IH]; intros r; cbn [afterLastBrace];
    [discriminate|].
  destruct (afterLastBrace s) as [r'|] eqn:E.
  - intros H. inversion H; subst r'.
    destruct (IH r eq_refl) as (mid & Hs & Hr).
    exists (String c mid). rewrite Hs. split; [reflexivity|exact Hr].
  - destruct (Ascii.eqb_spec c "}"); [|discriminate].
    intros H. inversion H; subst.
    exists EmptyString. split; [reflexivity|].
    clear -E. induction r as [|d r IH]; [reflexivity|].
    cbn [afterLastBrace] in E. cbn [occurs].
    destruct (afterLastBrace r); [discriminate|].
    destruct (Ascii.eqb d "}"); [discriminate|]. apply IH. reflexivity.
Qed.

Lemma take_append a b : take (length a) (a ++ b) = a.
Proof. induction a as [|c a IH]; [destruct b; reflexivity|]. cbn. rewrite IH. reflexivity. Qed.

Lemma length_append a b : length (a ++ b) = length a + length b.
Proof. induction a as [|c a IH]; [reflexivity|]. cbn. rewrite IH. reflexivity. Qed.

Lemma append_assoc a b c : (a ++ b) ++ c = a ++ b ++ c.
Proof. induction a as [|x a IH]; [reflexivity|]. cbn. rewrite IH. reflexivity. Qed.

Lemma matched_app a r : matched (a ++ r) r = a.
Proof.
  unfold matched. rewrite length_append.
  replace (length a + length r - length r) with (length a) by lia.
  apply take_append.
Qed.

(** the search skips whatever has no opening brace *)
Lemma search_skips pre0 pre s :
  occurs "{" pre = false ->
  search false (read braceSpan) pre0 (pre ++ s)
  = search false (read braceSpan) (pre0 ++ pre) s.
Proof.
  revert pre0. induction pre as [|c pre IH]; intros pre0 H.
  - cbn [append]. f_equal. induction pre0; [reflexivity|]. cbn. congruence.
  - cbn [occurs] in H. apply orb_false_elim in H as [Hc Hp].
    cbn [append search]. rewrite here_braceSpan.
    rewrite Ascii.eqb_sym, Hc. rewrite IH by assumption.
    rewrite append_assoc. reflexivity.
Qed.

Lemma search_none pre0 s :
  occurs "{" s = false -> search false (read braceSpan) pre0 s = None.
Proof.
  revert pre0. induction s as [|c s IH]; intros pre0 H.
  - reflexivity.
  - cbn [occurs] in H. apply orb_false_elim in H as [Hc Hp].
    cbn [search]. rewrite here_braceSpan, Ascii.eqb_sym, Hc.
    apply IH, Hp.
Qed.

Lemma search_no_closing pre0 s :
  occurs "}" s = false -> search false (read braceSpan) pre0 s = None.
Proof.
  revert pre0. induction s as [|c s IH]; intros pre0 H.
  - reflexivity.
  - cbn [occurs] in H. apply orb_false_elim in H as [Hc Hp].
    cbn [search]. rewrite here_braceSpan, (afterLastBrace_none s Hp).
    destruct (Ascii.eqb "{" c); apply IH, Hp.
Qed.

(** X11. The span of line 82 runs from the first opening brace to the last
    closing brace. *)
Theorem span_first_to_last pre mid post :
  occurs "{" pre = false ->
  occurs "}" post = false ->
  Regex.exec braceSpan (pre ++ "{" ++ mid ++ "}" ++ post)
  = Some (Found pre ("{" ++ mid ++ "}") [] post).
Proof.
  intros Hpre Hpost. unfold exec.
  rewrite search_skips by assumption.
  cbn [append search]. rewrite here_braceSpan, Ascii.eqb_refl.
  rewrite (afterLastBrace_last mid post Hpost).
  cbn [append].
  replace (String "{" (mid ++ String "}" post))
    with (("{" ++ mid ++ "}") ++ post)
    by (cbn [append]; rewrite append_assoc; reflexivity).
  rewrite matched_app. reflexivity.
Qed.

Lemma search_unspanned pre0 s :
  hasSpan s = false -> search false (read braceSpan) pre0 s = None.
Proof.
  revert pre0. induction s as [|c s IH]; intros pre0 H; [reflexivity|].
  cbn [search]. rewrite here_braceSpan.
  unfold hasSpan in *. cbn [fromOpening] in H.
  rewrite Ascii.eqb_sym. destruct (Ascii.eqb c "{").
  - rewrite (afterLastBrace_none s H). apply search_no_closing, H.
  - apply IH, H.
Qed.

Lemma search_spanned pre0 s :
  hasSpan s = true ->
  exists pre mid post,
    search false (read braceSpan) pre0 s
    = Some (Found (pre0 ++ pre) ("{" ++ mid ++ "}") [] post)
    /\ s = pre ++ "{" ++ mid ++ "}" ++ post.
Proof.
  revert pre0. induction s as [|c s IH]; intros pre0 H; [discriminate|].
  unfold hasSpan in H. cbn [fromOpening] in H.
  destruct (Ascii.eqb_spec c "{") as [->|Hc].
  - destruct (afterLastBrace s) as [post|] eqn:E.
    + destruct (afterLastBrace_some s post E) as (mid & Hs & Hp).
      exists EmptyString, mid, post.
      cbn [search]. rewrite here_braceSpan, Ascii.eqb_refl, E.
      split; [|rewrite Hs; reflexivity].
      rewrite Hs.
      replace (String "{" (mid ++ String "}" post))
        with (("{" ++ mid ++ "}") ++ post)
        by (cbn [append]; rewrite append_assoc; reflexivity).
      rewrite matched_app.
      replace (pre0 ++ "") with pre0; [reflexivity|].
      clear. induction pre0; [reflexivity|]. cbn. congruence.
    + clear IH. exfalso. revert E H. clear.
      induction s as [|d s IH]; cbn [afterLastBrace occurs]; [discriminate|].
      destruct (afterLastBrace s); [discriminate|].
      destruct (Ascii.eqb d "}"); [discriminate|]. exact IH.
  - destruct (IH (pre0 ++ String c EmptyString)) as (pre & mid & post & Hs & He).
    { exact H. }
    exists (String c pre), mid, post.
    cbn [search]. rewrite here_braceSpan.
    replace (Ascii.eqb "{" c) with false
      by (symmetry; apply Ascii.eqb_neq; congruence).
    rewrite Hs, append_assoc. split; [reflexivity|].
    rewrite He. reflexivity.
Qed.

(** *** The rewrites before the first parse *)

Lemma wordColon_tail c s : wordColon (String c s) = false -> wordColon s = false.
Proof.
  cbn [wordColon]. destruct s as [|d s]; [reflexivity|].
  intros H. apply orb_false_elim in H as [_ H]. exact H.
Qed.

Lemma star_word_none {T} c s (k : string -> option T) :
  word c = true ->
  wordColon (String c s) = false ->
  k EmptyString = None ->
  (forall d t, Ascii.eqb d ":" = false -> k (String d t) = None) ->
  star false (Class false [Esc KWord]) s k = None.
Proof.
  intros Hc Hw Hk0 Hk. revert c Hc Hw.
  induction s as [|d s IH]; intros c Hc Hw; cbn [star]; [exact Hk0|].
  assert (Hd : Ascii.eqb d ":" = false).
  { cbn [wordColon] in Hw. apply orb_false_elim in Hw as [Hw _].
    rewrite Hc in Hw. exact Hw. }
  unfold inClass. cbn [negated items existsb inItem inKind xorb].
  rewrite orb_false_r.
  destruct (word d) eqn:Ed.
  - rewrite (IH d Ed (wordColon_tail _ _ Hw)). apply Hk, Hd.
  - apply Hk, Hd.
Qed.

Lemma here_keyed_none rest s :
  wordColon s = false -> here false (keyed rest) s = None.
Proof.
  intros Hw. unfold here, keyed. cbn [run].
  destruct s as [|c s]; [reflexivity|].
  unfold inClass at 1. cbn [negated items existsb inItem inKind xorb].
  rewrite orb_false_r.
  destruct (word c) eqn:Ec; [|reflexivity].
  apply (star_word_none c s); auto.
  intros d t Hd. unfold inClass.
  cbn [negated items existsb inItem inKind xorb].
  rewrite orb_false_r, Ascii.eqb_sym, Hd. reflexivity.
Qed.

Lemma replaceFrom_keyed rest tmpl s :
  wordColon s = false -> replaceFrom (keyed rest) tmpl 0 s = s.
Proof.
  induction s as [|c s IH]; intros Hw; cbn [replaceFrom].
  - rewrite here_keyed_none by reflexivity. reflexivity.
  - rewrite (here_keyed_none rest _ Hw), IH; [reflexivity|].
    exact (wordColon_tail _ _ Hw).
Qed.

Lemma preProcess_keyed :
  Forall (fun p => exists rest, read (fst p) = keyed rest) preProcessRewrites.
Proof. repeat constructor; eexists; vm_compute; reflexivity. Qed.

Lemma rewrites_keyed (l : list (string * string)) s :
  Forall (fun p => exists rest, read (fst p) = keyed rest) l ->
  wordColon s = false ->
  fold_left rewrite l s = s.
Proof.
  intros Hl Hw. induction Hl as [|p l [rest Hp] Hl IH]; [reflexivity|].
  cbn [fold_left]. unfold rewrite at 2, Regex.replace.
  rewrite Hp, replaceFrom_keyed by assumption. exact IH.
Qed.

Lemma preProcess_colonless s : wordColon s = false -> preProcess s = s.
Proof. apply rewrites_keyed, preProcess_keyed. Qed.

(** a keyed literal leaves a character that is not a word character
    where it is *)
Lemma replaceFrom_keyed_head rest tmpl c s :
  word c = false ->
  replaceFrom (keyed rest) tmpl 0 (String c s)
  = String c (replaceFrom (keyed rest) tmpl 0 s).
Proof.
  intros Hc. cbn [replaceFrom].
  replace (here false (keyed rest) (String c s)) with (@None (string * captures));
    [reflexivity|].
  unfold here, keyed. cbn [run].
  unfold inClass at 1. cbn [negated items existsb inItem inKind xorb].
  rewrite orb_false_r, Hc. reflexivity.
Qed.

Lemma rewrites_keyed_head (l : list (string * string)) c s :
  Forall (fun p => exists rest, read (fst p) = keyed rest) l ->
  word c = false ->
  exists t, fold_left rewrite l (String c s) = String c t.
Proof.
  intros Hl Hc. revert s.
  induction Hl as [|p l [rest Hp] Hl IH]; intros s; [eexists; reflexivity|].
  cbn [fold_left]. unfold rewrite at 2, Regex.replace.
  rewrite Hp, replaceFrom_keyed_head by assumption. apply IH.
Qed.

Lemma preProcess_head c s :
  word c = false -> exists t, preProcess (String c s) = String c t.
Proof. apply rewrites_keyed_head, preProcess_keyed. Qed.

End SpanFacts.

Module ParserFacts.

Import Text Regex Js Json Recovery RecoveryFacts Shape SpanFacts Dispatch
       Observed.

(** *** Attempt 1 *)

Lemma members_object fuel :
  forall s acc v r, members fuel s acc = Some (v, r) -> exists fs, v = Obj fs.
Proof.
  induction fuel as [|f IH]; intros s acc v r H; [discriminate|].
  cbn [members] in H.
  destruct (Json.after Text.quote (skip s)) as [s1|]; [|discriminate].
  destruct (chars s1 []) as [[k s2]|]; [|discriminate].
  destruct (Json.after ":" (skip s2)) as [s3|]; [|discriminate].
  destruct (value f s3) as [[v' s4]|]; [|discriminate].
  destruct (Json.after "," (skip s4)) as [s5|].
  - exact (IH _ _ _ _ H).
  - destruct (Json.after "}" (skip s4)) as [s5|]; [|discriminate].
    inversion H; subst. eexists. reflexivity.
Qed.

Lemma parse_object t v :
  Json.parse (String "{" t) = Some v -> exists fs, v = Obj fs.
Proof.
  unfold Json.parse.
  destruct (value _ _) as [[v' r]|] eqn:E; [|discriminate].
  destruct (skip r); [|discriminate]. intros H. inversion H; subst v'.
  remember (2 * length (String "{" t) + 2) as fuel eqn:Hf.
  destruct fuel as [|f]; [discriminate|].
  cbn [value] in E.
  change (skip (String "{" t)) with (String "{" t) in E.
  change (Json.after "{" (String "{" t)) with (Some t) in E.
  cbv beta iota in E.
  destruct (Json.after "}" (skip t)) as [r'|].
  - inversion E; subst. eexists. reflexivity.
  - exact (members_object _ _ _ _ _ E).
Qed.

Lemma span_head pre0 s m :
  search false (read braceSpan) pre0 s = Some m ->
  exists t, whole m = String "{" t.
Proof.
  intros H.
  destruct (hasSpan s) eqn:E.
  - destruct (search_spanned pre0 s E) as (pre & mid & post & Hs & _).
    rewrite Hs in H. inversion H; subst m. cbn [whole append].
    eexists. reflexivity.
  - rewrite (search_unspanned pre0 s E) in H. discriminate.
Qed.

(** *** Attempt 4 *)

Lemma defaultConfidence_keeps k kv :
  sameKey k (key "confidence_score") = false ->
  lookup k (defaultConfidence kv) = lookup k kv.
Proof.
  intros Hk. unfold defaultConfidence. destruct (truthy _); [reflexivity|].
  apply lookup_set_other, Hk.
Qed.

Lemma extracted_has content :
  (exists b, lookup hasKey (extracted content) = Bool b)
  \/ lookup hasKey (extracted content) = Undefined.
Proof.
  unfold hasKey.
  unfold extracted, extractVerificationType, extractHasVerification;
    repeat match goal with
           | |- context [match ?x with _ => _ end] => destruct x
           end;
    repeat first [ rewrite lookup_set_other by reflexivity
                 | rewrite lookup_set_same ];
    cbn [lookup];
    first [ right; reflexivity | left; eexists; reflexivity ].
Qed.

Lemma extracted_type content :
  (exists t, lookup (key "verification_type") (extracted content) = Str t)
  \/ lookup (key "verification_type") (extracted content) = Undefined.
Proof.
  unfold extracted, extractVerificationType, extractHasVerification;
    repeat match goal with
           | |- context [match ?x with _ => _ end] => destruct x
           end;
    repeat first [ rewrite lookup_set_other by reflexivity
                 | rewrite lookup_set_same ];
    cbn [lookup];
    first [ right; reflexivity | left; eexists; reflexivity ].
Qed.

Lemma extracted_details content :
  (exists t, lookup (key "details") (extracted content) = Str t)
  \/ lookup (key "details") (extracted content) = Undefined.
Proof.
  unfold extracted, extractVerificationType, extractHasVerification;
    repeat match goal with
           | |- context [match ?x with _ => _ end] => destruct x
           end;
    repeat first [ rewrite lookup_set_other by reflexivity
                 | rewrite lookup_set_same ];
    cbn [lookup];
    first [ right; reflexivity | left; eexists; reflexivity ].
Qed.

Lemma text_truthy (s : string) : s <> EmptyString -> truthy (text s) = true.
Proof. destruct s; [congruence|reflexivity]. Qed.

Lemma withDefaults_type content kv :
  (exists t, lookup (key "verification_type") kv = Str t)
  \/ lookup (key "verification_type") kv = Undefined ->
  exists t,
    lookup (key "verification_type") (withDefaults content kv) = Str t
    /\ t <> [].
Proof.
  intros H. unfold withDefaults.
  rewrite defaultDetails_keeps, defaultConfidence_keeps by reflexivity.
  unfold defaultVerificationType.
  rewrite !(defaultHasVerification_keeps (key "verification_type"))
    by reflexivity.
  destruct (truthy (lookup (key "verification_type") kv)) eqn:E.
  - rewrite defaultHasVerification_keeps by reflexivity.
    destruct H as [[t Ht]|Hu]; rewrite ?Ht, ?Hu in *;
      [|cbn [truthy] in E; discriminate].
    exists t. split; [reflexivity|].
    intros ->. cbn [truthy] in E. discriminate.
  - rewrite lookup_set_same.
    match goal with
    | |- context [text (if ?c then _ else _)] => destruct c
    end; eexists; (split; [reflexivity|cbv; discriminate]).
Qed.

Lemma withDefaults_details content kv :
  (exists t, lookup (key "details") kv = Str t)
  \/ lookup (key "details") kv = Undefined ->
  exists t,
    lookup (key "details") (withDefaults content kv) = Str t /\ t <> [].
Proof.
  intros H. unfold withDefaults, defaultDetails.
  rewrite !(defaultConfidence_keeps (key "details")),
    !(defaultVerificationType_keeps (key "details")),
    !(defaultHasVerification_keeps (key "details")) by reflexivity.
  destruct (truthy (lookup (key "details") kv)) eqn:E.
  - rewrite defaultConfidence_keeps, defaultVerificationType_keeps,
      defaultHasVerification_keeps by reflexivity.
    destruct H as [[t Ht]|Hu]; rewrite ?Ht, ?Hu in *;
      [|cbn [truthy] in E; discriminate].
    exists t. split; [reflexivity|].
    intros ->. cbn [truthy] in E. discriminate.
  - rewrite lookup_set_same. eexists. split; [reflexivity|cbv; discriminate].
Qed.

Lemma withDefaults_bool content kv :
  (exists b, lookup hasKey kv = Bool b) \/ lookup hasKey kv = Undefined ->
  exists b, lookup hasKey (withDefaults content kv) = Bool b.
Proof.
  intros H. rewrite withDefaults_has. unfold defaultHasVerification.
  fold hasKey.
  destruct H as [[b Hb]|Hu].
  - rewrite Hb. exists b. exact Hb.
  - rewrite Hu. unfold hasKey. rewrite lookup_set_same. eexists. reflexivity.
Qed.

(** X14. Attempt 1 can only return an object: the span starts with an
    opening brace, the rewrites of lines 92-100 leave it in place, and
    [JSON.parse] of such a text is an object or fails. The handler then
    reads the fields of that object. *)
Theorem first_attempt_yields_an_object jsonrepair content span v :
  Regex.exec braceSpan content = Some span ->
  Json.parse (preProcess (Regex.whole span)) = Some v ->
  exists fs, v = Obj fs /\ parseRobustJSON jsonrepair content = Obj fs.
Proof.
  intros Hs Hp.
  destruct (span_head _ _ _ Hs) as [t Ht].
  destruct (preProcess_head "{" t eq_refl) as [t' Ht'].
  rewrite Ht, Ht' in Hp.
  destruct (parse_object t' v Hp) as [fs ->].
  exists fs. split; [reflexivity|].
  unfold parseRobustJSON. rewrite Hs, Ht, Ht', Hp. reflexivity.
Qed.

(** X15. A span in which no word character stands directly before a
    colon passes the rewrites of lines 92-100 unchanged, so that
    attempt 1 is [JSON.parse] of the span itself: what it parses to
    is what [parseRobustJSON] returns. *)
Theorem strict_json_is_parsed_as_it_is jsonrepair content span v :
  Regex.exec braceSpan content = Some span ->
  wordColon (Regex.whole span) = false ->
  Json.parse (Regex.whole span) = Some v ->
  preProcess (Regex.whole span) = Regex.whole span
  /\ parseRobustJSON jsonrepair content = v.
Proof.
  intros Hs Hw Hp.
  pose proof (preProcess_colonless _ Hw) as Hpre.
  split; [exact Hpre|].
  unfold parseRobustJSON. rewrite Hs, Hpre, Hp. reflexivity.
Qed.

(** X12. Line 82 finds a span exactly when the text has an opening brace
    with a closing brace somewhere after it. *)
Theorem span_found_exactly_when_braces_nest content :
  Regex.exec braceSpan content = None <-> hasSpan content = false.
Proof.
  unfold Regex.exec. split.
  - intros H. destruct (hasSpan content) eqn:E; [|reflexivity].
    destruct (search_spanned EmptyString content E)
      as (pre & mid & post & Hs & _).
    rewrite Hs in H. discriminate H.
  - apply search_unspanned.
Qed.

(** X13. A text without an opening brace that has a closing brace after
    it has no span: [parseRobustJSON] returns [null] before any
    attempt, and the handler builds the record from the raw text, with
    a confidence of 0.7 or 0.5 and the text itself as details. *)
Theorem unspanned_answer_falls_back jsonrepair w j target content :
  hasSpan content = false ->
  parseRobustJSON jsonrepair content = Null
  /\ answeredResult jsonrepair w j target content
     = {| AuditResult.website := WebsiteData.url target;
          AuditResult.has_age_verification :=
            Bool (mentionsVerification content);
          AuditResult.verification_type :=
            text (if mentionsVerification content
                  then "detected" else "none");
          AuditResult.confidence_score :=
            Num (if mentionsVerification content then 7 # 10 else 1 # 2);
          AuditResult.details := text content;
          AuditResult.timestamp := stamp w j;
          AuditResult.name := WebsiteData.name target;
          AuditResult.category := WebsiteData.category target |}.
Proof.
  intros H.
  assert (Hn : parseRobustJSON jsonrepair content = Null).
  { unfold parseRobustJSON, Regex.exec.
    rewrite (search_unspanned EmptyString content H). reflexivity. }
  split; [exact Hn|].
  unfold answeredResult. rewrite Hn. reflexivity.
Qed.

(** X16. Attempt 4 always returns a complete record: a boolean, a kind
    and details that are non-empty strings, and a confidence above 0
    and at most 1. The fallback of lines 271-289 is never reached. *)
Theorem field_extraction_is_complete content :
  let kv := withDefaults content (extracted content) in
  attempt4 content = Some (Obj kv)
  /\ (exists b, lookup hasKey kv = Bool b)
  /\ (exists t, lookup (key "verification_type") kv = Str t /\ t <> [])
  /\ (exists q, lookup confidenceKey kv = Num q /\ (0 < q <= 1)%Q)
  /\ (exists d, lookup (key "details") kv = Str d /\ d <> []).
Proof.
  cbn zeta. split; [apply attempt4_returns|].
  split; [apply withDefaults_bool, extracted_has|].
  split; [apply withDefaults_type, extracted_type|].
  split; [|apply withDefaults_details, extracted_details].
  rewrite withDefaults_confidence, extracted_confidence.
  destruct (extractConfidence confidencePatterns content) as [q|] eqn:E;
    cbn [truthy].
  - destruct (Qnum q =? 0)%Z eqn:E0; cbn [negb].
    + destruct (truthy _); eexists; (split; [reflexivity|]);
        split; reflexivity || discriminate.
    + exists q. split; [reflexivity|].
      destruct (extractConfidence_unit _ _ _ E) as [H0 H1].
      split; [|exact H1].
      apply Z.eqb_neq in E0. unfold Qlt, Qle in *.
      destruct q as [n d]. cbn in *. lia.
  - destruct (truthy _); eexists; (split; [reflexivity|]);
      split; reflexivity || discriminate.
Qed.

(** X23. When the span is strict JSON, with no word character directly
    before a colon, and states a confidence other than zero that a
    double holds exactly, such as 95 or 0.5, the record has that number
    as it is: it is not brought into the unit interval, which only
    attempt 4 does. *)
Theorem strict_confidence_is_copied jsonrepair w j target content span fs q :
  Regex.exec braceSpan content = Some span ->
  wordColon (Regex.whole span) = false ->
  Json.parse (Regex.whole span) = Some (Obj fs) ->
  lookup confidenceKey fs = Num q ->
  exactDouble q = true ->
  ~ (q == 0)%Q ->
  AuditResult.confidence_score (answeredResult jsonrepair w j target content)
  = Num q.
Proof.
  intros Hs Hw Hp Hq _ Hnz.
  unfold answeredResult.
  unfold parseRobustJSON.
  rewrite Hs, (preProcess_colonless _ Hw), Hp.
  cbn [truthy AuditResult.confidence_score get].
  fold confidenceKey. unfold confidenceKey, key in *.
  rewrite Hq. unfold or. cbn [truthy].
  destruct (Qnum q =? 0)%Z eqn:E; [|reflexivity].
  exfalso. apply Hnz. apply Z.eqb_eq in E.
  destruct q as [n d]. cbn in E. subst n. reflexivity.
Qed.

End ParserFacts.

Module ParserWorked.

Import Text Regex Js Json Recovery Shape Samples SpanFacts ParserFacts
       Scenario Dispatch Observed.

Lemma span_first_to_last_witness :
  occurs "{" "Result: " = false
  /\ occurs "}" " Done." = false
  /\ Regex.exec braceSpan ("Result: " ++ "{" ++ "a{b}c" ++ "}" ++ " Done.")
     = Some (Found "Result: " ("{" ++ "a{b}c" ++ "}") [] " Done.").
Proof.
  split; [reflexivity|]. split; [reflexivity|].
  apply (span_first_to_last "Result: " "a{b}c" " Done."); reflexivity.
Defined.

Lemma first_attempt_yields_an_object_witness :
  Regex.exec braceSpan bareAnswer
  = Some (Found EmptyString bareAnswer [] EmptyString)
  /\ exists fs,
       parseRobustJSON repairNothing bareAnswer = Obj fs
       /\ lookup confidenceKey fs = text "0.8".
Proof.
  assert (Hs : Regex.exec braceSpan bareAnswer
               = Some (Found EmptyString bareAnswer [] EmptyString))
    by (vm_compute; reflexivity).
  split; [exact Hs|].
  destruct (first_attempt_yields_an_object repairNothing bareAnswer _
              (Obj [ (key "has_age_verification", text "false");
                     (key "verification_type", text "none");
                     (key "confidence_score", text "0.8");
                     (key "details", text "No age gate found") ]) Hs)
    as (fs & Hv & Hp); [vm_compute; reflexivity|].
  exists fs. split; [exact Hp|].
  inversion Hv. reflexivity.
Defined.

Lemma strict_json_is_parsed_as_it_is_witness :
  Regex.exec braceSpan wrappedAnswer
  = Some (Found "Result: " percentAnswer [] " Done.")
  /\ wordColon percentAnswer = false
  /\ parseRobustJSON repairFails wrappedAnswer
     = Obj [ (key "has_age_verification", Bool true);
             (key "verification_type", text "popup");
             (key "confidence_score", Num 95);
             (key "details", text "Age gate on entry") ].
Proof.
  assert (Hs : Regex.exec braceSpan wrappedAnswer
               = Some (Found "Result: " percentAnswer [] " Done."))
    by (vm_compute; reflexivity).
  split; [exact Hs|]. split; [vm_compute; reflexivity|].
  apply (strict_json_is_parsed_as_it_is repairFails wrappedAnswer _ _ Hs);
    vm_compute; reflexivity.
Defined.

Lemma unspanned_answer_falls_back_witness :
  hasSpan bracesApart = false
  /\ parseRobustJSON repairNothing bracesApart = Null
  /\ AuditResult.confidence_score
       (answeredResult repairNothing mixedService 0 (site 0) bracesApart)
     = Num (1 # 2).
Proof.
  split; [reflexivity|].
  destruct (unspanned_answer_falls_back repairNothing mixedService 0 (site 0)
              bracesApart eq_refl) as [Hn Hr].
  split; [exact Hn|]. rewrite Hr. reflexivity.
Defined.

Lemma span_found_exactly_when_braces_nest_witness :
  hasSpan bracesApart = false
  /\ Regex.exec braceSpan bracesApart = None.
Proof.
  split; [reflexivity|].
  exact (proj2 (span_found_exactly_when_braces_nest bracesApart) eq_refl).
Defined.

Lemma strict_confidence_is_copied_witness :
  Regex.exec braceSpan wrappedAnswer
  = Some (Found "Result: " percentAnswer [] " Done.")
  /\ wordColon percentAnswer = false
  /\ exactDouble 95 = true
  /\ ~ (95 == 0)%Q
  /\ AuditResult.confidence_score
       (answeredResult repairFails mixedService 0 (site 0) wrappedAnswer)
     = Num 95.
Proof.
  assert (Hs : Regex.exec braceSpan wrappedAnswer
               = Some (Found "Result: " percentAnswer [] " Done."))
    by (vm_compute; reflexivity).
  assert (Hnz : ~ (95 == 0)%Q) by (intros H; discriminate H).
  split; [exact Hs|]. split; [vm_compute; reflexivity|].
  split; [reflexivity|]. split; [exact Hnz|].
  apply (strict_confidence_is_copied repairFails mixedService 0 (site 0)
           wrappedAnswer _
           [ (key "has_age_verification", Bool true);
             (key "verification_type", text "popup");
             (key "confidence_score", Num 95);
             (key "details", text "Age gate on entry") ] 95 Hs);
    try (vm_compute; reflexivity).
  exact Hnz.
Defined.

End ParserWorked.

(* ===================================================================== *)
(** ** Runs of the handler: results *)
(* ===================================================================== *)

Module Runs.

Import Js Dispatch Trace DispatchFacts Handler Observed Entry.

Lemma chats_app a b : chats (a ++ b)%list = chats a + chats b.
Proof. unfold chats. rewrite filter_app, length_app. reflexivity. Qed.

Lemma slept_app a b : (slept (a ++ b)%list = slept a + slept b)%Z.
Proof.
  induction a as [|e a IH]; [reflexivity|].
  destruct e; cbn [app slept]; rewrite IH; lia.
Qed.

Lemma firstn_add {A} (a c : nat) (l : list A) :
  firstn (a + c) l = (firstn a l ++ firstn c (skipn a l))%list.
Proof.
  revert l. induction a as [|a IH]; intros l; [reflexivity|].
  destruct l as [|x l]; cbn [Nat.add firstn skipn app].
  - rewrite firstn_nil. reflexivity.
  - rewrite IH. reflexivity.
Qed.

Section Run.

Variable cfg : Config.
Variable jsonrepair : string -> option string.
Variable w : World.

Local Abbreviation b := (Pos.to_nat (batchSize cfg)).

Lemma checkTimeout_message p message :
  checkTimeout cfg w p = Some message -> message = timedOutMessage cfg.
Proof.
  unfold checkTimeout. destruct (_ || _); [discriminate|].
  destruct (_ <? _)%Z; congruence.
Qed.

Lemma targetEvents_app j a c :
  targetEvents cfg jsonrepair w j (a ++ c)
  = (targetEvents cfg jsonrepair w j a
       ++ targetEvents cfg jsonrepair w (j + List.length a) c)%list.
Proof.
  unfold targetEvents. rewrite batchPromises_app, map_app, concat_app.
  reflexivity.
Qed.

Lemma targetEvents_chats j targets :
  chats (targetEvents cfg jsonrepair w j targets)
  <= List.length targets * S (maxRetries cfg).
Proof.
  revert j. induction targets as [|site targets IH]; intros j.
  - reflexivity.
  - unfold targetEvents. cbn [batchPromises map List.concat List.length].
    rewrite chats_app, task_events.
    pose proof (requestLoop_chats cfg w j 0) as H0.
    specialize (IH (S j)). unfold targetEvents in IH. lia.
Qed.

(** a time-out in the trace of the loop is the budget found exceeded
    before one of the attempts, and it is what the loop throws *)
Lemma requestLoop_interrupted j k p :
  In (TimedOut p) (snd (requestLoop cfg w j k)) ->
  fst (requestLoop cfg w j k) = Threw (timedOutMessage cfg)
  /\ exists a, p = BeforeAttempt j a /\ k <= a <= maxRetries cfg
               /\ checkTimeout cfg w p = Some (timedOutMessage cfg).
Proof.
  funelim (requestLoop cfg w j k); cbn [fst snd]; intros Hin.
  - destruct Hin.
  - destruct Hin as [Hin|[]]. inversion Hin; subst p.
    pose proof (checkTimeout_message _ _ Heq) as ->.
    split; [reflexivity|]. exists retryCount. repeat split; auto.
  - destruct Hin as [Hin|[]]. discriminate.
  - destruct Hin as [Hin|[Hin|Hin]]; try discriminate.
    destruct (H p Hin) as (Hf & a & Hp & Ha & Hc).
    split; [exact Hf|]. exists a. repeat split; auto; lia.
  - destruct Hin as [Hin|[]]. discriminate.
Qed.

Lemma requestLoop_answered j k n content :
  k + n <= maxRetries cfg ->
  answeredAt cfg w j k n content ->
  requestLoop cfg w j k
  = (Answered content, (retries j k n ++ [Chat j (k + n)])%list).
Proof.
  revert n content.
  funelim (requestLoop cfg w j k); intros n content0 Hn (Hrej & Hc & Hans).
  - lia.
  - destruct n as [|n].
    + rewrite Nat.add_0_r in Hc. congruence.
    + destruct (Hrej retryCount) as [Hc' _]; [lia|]. congruence.
  - destruct n as [|n].
    + rewrite Nat.add_0_r in *. rewrite Hans in Heq. inversion Heq. reflexivity.
    + destruct (Hrej retryCount) as [_ [e He]]; [lia|]. congruence.
  - destruct n as [|n].
    + rewrite Nat.add_0_r in *. congruence.
    + rewrite (H n content0).
      * cbn [fst snd retries app].
        replace (retryCount + S n) with (S retryCount + n) by lia.
        reflexivity.
      * lia.
      * unfold answeredAt.
        replace (S retryCount + n) with (retryCount + S n) by lia.
        split; [|split; assumption].
        intros x Hx. apply Hrej. lia.
  - destruct n as [|n].
    + rewrite Nat.add_0_r in *. congruence.
    + lia.
Qed.

Lemma requestLoop_slept j k :
  k <= maxRetries cfg ->
  (2 * slept (snd (requestLoop cfg w j k))
   <= backoffBaseMs
      * (Z.of_nat (maxRetries cfg) * (Z.of_nat (maxRetries cfg) + 1)
         - Z.of_nat k * (Z.of_nat k + 1)))%Z.
Proof.
  funelim (requestLoop cfg w j k); cbn [fst snd slept]; intros Hk;
    unfold backoffBaseMs in *; nia.
Qed.

Lemma retries_slept j k n :
  (2 * slept (retries j k n)
   = backoffBaseMs
     * (Z.of_nat (k + n) * (Z.of_nat (k + n) + 1)
        - Z.of_nat k * (Z.of_nat k + 1)))%Z.
Proof.
  revert k. induction n as [|n IH]; intros k; cbn [retries slept].
  - rewrite Nat.add_0_r. lia.
  - specialize (IH (S k)).
    replace (k + S n) with (S k + n) by lia.
    unfold backoffBaseMs in *. nia.
Qed.

Lemma targetEvents_interrupted j targets p :
  In (TimedOut p) (targetEvents cfg jsonrepair w j targets) ->
  exists m, checkTimeout cfg w p = Some m.
Proof.
  revert j. induction targets as [|site targets IH]; intros j Hin.
  - destruct Hin.
  - unfold targetEvents in Hin. cbn [batchPromises map List.concat] in Hin.
    apply in_app_or in Hin as [Hin|Hin].
    + rewrite task_events in Hin.
      destruct (requestLoop_interrupted j 0 p Hin) as (_ & a & _ & _ & Hc).
      eexists. exact Hc.
    + exact (IH (S j) Hin).
Qed.

Section Batches.

Variable websites : list WebsiteData.t.

Lemma batchEvents_targetEvents i :
  batchEvents cfg jsonrepair w websites i
  = targetEvents cfg jsonrepair w i (firstn b (skipn i websites)).
Proof.
  unfold batchEvents, targetEvents, batchAt, slice.
  replace (i + Pos.to_nat (batchSize cfg) - i)
    with (Pos.to_nat (batchSize cfg)) by lia.
  reflexivity.
Qed.

Lemma targetEvents_step i k :
  targetEvents cfg jsonrepair w i (firstn (S k * b) (skipn i websites))
  = (batchEvents cfg jsonrepair w websites i
       ++ targetEvents cfg jsonrepair w (i + b)
            (firstn (k * b) (skipn (i + b) websites)))%list.
Proof.
  rewrite batchEvents_targetEvents.
  cbn [Nat.mul]. rewrite firstn_add, targetEvents_app.
  rewrite skipn_skipn, (Nat.add_comm b i).
  f_equal.
  destruct (le_lt_dec (List.length websites) (i + b)) as [Hle|Hlt].
  - rewrite (skipn_all2 websites Hle), firstn_nil. reflexivity.
  - f_equal. rewrite length_firstn, length_skipn. lia.
Qed.

(** The loop of batches dispatches whole batches, in order, and each
    target once: its log is that of the targets of [k] batches,
    followed, when the budget is found exceeded, by the time-out. *)
Lemma batches_log n i results log :
  let out := batches cfg jsonrepair w websites n i results log in
  exists k,
    (snd out
     = (log ++ targetEvents cfg jsonrepair w i (skipn i websites))%list
     /\ exists body, fst out = Json 200 body)
    \/
    (exists p,
        boundary p = true
        /\ snd out
           = (log ++ targetEvents cfg jsonrepair w i
                       (firstn (k * b) (skipn i websites))
                  ++ [TimedOut p])%list
        /\ fst out = Caught (timedOutMessage cfg)).
Proof.
  funelim (batches cfg jsonrepair w websites n i results log);
    cbn zeta; cbn [fst snd].
  - exists 0. left. rewrite skipn_all2 by lia.
    split; [rewrite app_nil_r; reflexivity|eexists; reflexivity].
  - exists 0. right. exists (BeforeBatch n).
    pose proof (checkTimeout_message _ _ Heq) as ->.
    repeat split; reflexivity.
  - exists 1. right. exists (AfterBatch n).
    pose proof (checkTimeout_message _ _ Heq) as ->.
    rewrite batchEvents_targetEvents, Nat.mul_1_l.
    repeat split; reflexivity.
  - cbn zeta in H. destruct H as [k [[Hs Hf]|(p & Hb & Hs & Hf)]].
    + exists (S k). left. split; [|exact Hf].
      rewrite Hs, <- app_assoc. f_equal.
      rewrite batchEvents_targetEvents.
      rewrite <- (firstn_skipn b (skipn i websites)) at 2.
      rewrite targetEvents_app, skipn_skipn, (Nat.add_comm b i).
      f_equal.
      destruct (le_lt_dec (List.length websites) (i + b)) as [Hle|Hlt].
      * rewrite (skipn_all2 websites Hle). reflexivity.
      * f_equal. rewrite length_firstn, length_skipn. lia.
    + exists (S k). right. exists p. split; [exact Hb|]. split; [|exact Hf].
      rewrite Hs, targetEvents_step, <- !app_assoc. reflexivity.
Qed.

End Batches.

Lemma POST_listed websites :
  websites <> [] -> probe w = Listed ->
  POST cfg jsonrepair w websites
  = batches cfg jsonrepair w websites 0 0 [] [ListModels].
Proof.
  intros Hne Hp. destruct websites as [|s0 rest]; [congruence|].
  unfold POST. rewrite Hp. reflexivity.
Qed.

Lemma POST_batches websites :
  POST cfg jsonrepair w websites
  = batches cfg jsonrepair w websites 0 0 [] [ListModels]
  \/ (forall results total processed,
         fst (POST cfg jsonrepair w websites)
         <> Json 200 (ResultsBody results total processed))
      /\ (forall message,
            fst (POST cfg jsonrepair w websites) <> Caught message)
      /\ chats (snd (POST cfg jsonrepair w websites)) = 0.
Proof.
  destruct websites as [|s0 rest] eqn:E.
  - right. repeat split; discriminate.
  - destruct (probe w) eqn:Hp.
    + left. apply POST_listed; [discriminate|assumption].
    + right. unfold POST. rewrite Hp. repeat split; discriminate.
    + right. unfold POST. rewrite Hp. repeat split; discriminate.
Qed.

Lemma result_set_events websites results total processed :
  fst (POST cfg jsonrepair w websites)
  = Json 200 (ResultsBody results total processed) ->
  snd (POST cfg jsonrepair w websites)
  = ListModels :: targetEvents cfg jsonrepair w 0 websites.
Proof.
  intros Hrun.
  destruct (POST_batches websites) as [HP|(Hno & _)];
    [|destruct (Hno _ _ _ Hrun)].
  rewrite HP in *.
  destruct (batches_log websites 0 0 [] [ListModels])
    as [k [[Hs _]|(p & _ & _ & Hf)]].
  - exact Hs.
  - rewrite Hf in Hrun. discriminate.
Qed.

End Run.

Lemma batchPromises_carried cfg jsonrepair w j batch :
  map AuditResult.name (map fst (batchPromises cfg jsonrepair w j batch))
  = map WebsiteData.name batch
  /\ map AuditResult.category (map fst (batchPromises cfg jsonrepair w j batch))
     = map WebsiteData.category batch
  /\ map AuditResult.timestamp
         (map fst (batchPromises cfg jsonrepair w j batch))
     = map (stamp w) (seq j (List.length batch)).
Proof.
  revert j. induction batch as [|site batch IH]; intros j;
    cbn [batchPromises map List.length seq]; [repeat split|].
  destruct (IH (S j)) as (Hn & Hc & Ht). rewrite Hn, Hc, Ht.
  unfold task. cbn [fst].
  destruct (fst (requestLoop cfg w j 0)); unfold answeredResult;
    try destruct (truthy _); repeat split.
Qed.

Lemma POST_results cfg jsonrepair w websites results total processed :
  fst (POST cfg jsonrepair w websites)
  = Json 200 (ResultsBody results total processed) ->
  results = recordsFrom cfg jsonrepair w websites 0
  /\ total = List.length websites
  /\ processed = List.length websites
  /\ websites <> [] /\ probe w = Listed.
Proof.
  intros Hrun.
  destruct websites as [|s0 rest]; [discriminate|].
  destruct (probe w) eqn:Hp;
    [|unfold POST in Hrun; rewrite Hp in Hrun; discriminate..].
  destruct (POST_outcome cfg jsonrepair w (s0 :: rest)) as
    [(events & Hf & _)|(events & q & _ & _ & Hf & _)];
    try congruence.
  rewrite Hf, recordsFrom_length in Hrun. inversion Hrun; subst.
  repeat split; congruence.
Qed.

(** X1. A run asks the inference service at most [maxRetries + 1] times
    per target, whatever the service does and however the run ends. *)
Theorem calls_bounded_by_targets cfg jsonrepair w websites :
  chats (snd (POST cfg jsonrepair w websites))
  <= List.length websites * (maxRetries cfg + 1).
Proof.
  assert (Hall : forall m,
             chats (targetEvents cfg jsonrepair w 0 (firstn m websites))
             <= List.length websites * (maxRetries cfg + 1)).
  { intros m.
    pose proof (targetEvents_chats cfg jsonrepair w 0 (firstn m websites)) as H.
    assert (Hl : List.length (firstn m websites) <= List.length websites)
      by (rewrite length_firstn; apply Nat.le_min_r).
    rewrite Nat.add_1_r. etransitivity; [exact H|].
    apply Nat.mul_le_mono_r. exact Hl. }
  destruct (POST_batches cfg jsonrepair w websites) as [HP|(_ & _ & H0)];
    [|rewrite H0; apply Nat.le_0_l].
  rewrite HP.
  destruct (batches_log cfg jsonrepair w websites 0 0 [] [ListModels])
    as [k [[Hs _]|(p & _ & Hs & _)]]; rewrite Hs.
  - cbn [skipn]. rewrite chats_app.
    specialize (Hall (List.length websites)). rewrite firstn_all in Hall.
    exact Hall.
  - cbn [skipn]. rewrite !chats_app. specialize (Hall (k * Pos.to_nat (batchSize cfg))).
    change (chats [ListModels]) with 0. change (chats [TimedOut p]) with 0.
    lia.
Qed.

(** X2. In a run that returns a result set, every target has been
    dispatched once, in the order of the list: the log is the probe
    followed by the events of the targets, and the records are theirs. *)
Theorem result_set_log cfg jsonrepair w websites results total processed :
  fst (POST cfg jsonrepair w websites)
  = Json 200 (ResultsBody results total processed) ->
  snd (POST cfg jsonrepair w websites)
  = ListModels :: targetEvents cfg jsonrepair w 0 websites
  /\ results = map fst (batchPromises cfg jsonrepair w 0 websites)
  /\ total = List.length websites
  /\ processed = List.length websites.
Proof.
  intros Hrun.
  destruct (POST_results _ _ _ _ _ _ _ Hrun) as (Hr & Ht & Hp & Hne & Hl).
  split; [|repeat split; assumption].
  exact (result_set_events cfg jsonrepair w websites _ _ _ Hrun).
Qed.

(** a run that the budget interrupts has dispatched whole batches and
    nothing else *)
Lemma POST_interrupted cfg jsonrepair w websites message :
  fst (POST cfg jsonrepair w websites) = Caught message ->
  message = timedOutMessage cfg
  /\ exists k p,
       boundary p = true
       /\ snd (POST cfg jsonrepair w websites)
          = (ListModels
               :: targetEvents cfg jsonrepair w 0
                    (firstn (k * Pos.to_nat (batchSize cfg)) websites)
               ++ [TimedOut p])%list.
Proof.
  intros Hrun.
  destruct (POST_batches cfg jsonrepair w websites) as [HP|(_ & Hno & _)];
    [|destruct (Hno _ Hrun)].
  rewrite HP in *.
  destruct (batches_log cfg jsonrepair w websites 0 0 [] [ListModels])
    as [k [[_ [body Hf]]|(p & Hb & Hs & Hf)]].
  - rewrite Hf in Hrun. discriminate.
  - split; [congruence|]. exists k, p. split; [exact Hb|exact Hs].
Qed.

(** X3. Control reaches the [catch] of line 499 in two ways only. The
    body could not be read: nothing has been asked of the service.
    Or the budget was found exceeded at a batch boundary: the log is
    the probe, the events of the first [k] batches of targets, and the
    time-out, so that whole batches have been dispatched and nothing
    else. *)
Theorem interrupted_run_log cfg jsonrepair w request message :
  fst (onRequest cfg jsonrepair w request) = Caught message ->
  (request = Unreadable message
   /\ snd (onRequest cfg jsonrepair w request) = [])
  \/ (exists websites k p,
        request = Targets websites
        /\ message = timedOutMessage cfg
        /\ boundary p = true
        /\ snd (onRequest cfg jsonrepair w request)
           = (ListModels
                :: targetEvents cfg jsonrepair w 0
                     (firstn (k * Pos.to_nat (batchSize cfg)) websites)
                ++ [TimedOut p])%list).
Proof.
  destruct request as [unread| |websites]; cbn [onRequest fst snd];
    intros Hrun.
  - left. inversion Hrun. split; reflexivity.
  - discriminate Hrun.
  - right.
    destruct (POST_interrupted cfg jsonrepair w websites message Hrun)
      as (Hm & k & p & Hb & Hs).
    exists websites, k, p. repeat split; assumption.
Qed.

(** X4. The first attempt that is answered ends the loop: after [n]
    failed attempts, each followed by its wait, the answer of attempt
    [n] makes the record, and no further call is made. *)
Theorem first_answer_ends_the_attempts cfg jsonrepair w j target n content :
  n <= maxRetries cfg ->
  answeredAt cfg w j 0 n content ->
  task cfg jsonrepair w j target
  = (answeredResult jsonrepair w j target content,
     (retries j 0 n ++ [Chat j n])%list).
Proof.
  intros Hn Ha. unfold task.
  rewrite (requestLoop_answered cfg w j 0 n content) by assumption.
  reflexivity.
Qed.

(** X5. A time-out in the events of a target is the budget found
    exceeded before one of its attempts; the error is caught inside the
    task, the target gets a record of kind [timeout], and the run goes
    on. *)
Theorem time_out_in_flight cfg jsonrepair w j target p :
  In (TimedOut p) (snd (task cfg jsonrepair w j target)) ->
  fst (task cfg jsonrepair w j target)
  = failedResult w j target (timedOutMessage cfg)
  /\ AuditResult.verification_type (fst (task cfg jsonrepair w j target))
     = text "timeout"
  /\ exists a,
       p = BeforeAttempt j a /\ a <= maxRetries cfg
       /\ checkTimeout cfg w p = Some (timedOutMessage cfg).
Proof.
  intros Hin. rewrite task_events in Hin.
  destruct (requestLoop_interrupted cfg w j 0 p Hin)
    as (Hf & a & Hp & Ha & Hc).
  assert (Ht : fst (task cfg jsonrepair w j target)
               = failedResult w j target (timedOutMessage cfg)).
  { unfold task. rewrite Hf. reflexivity. }
  split; [exact Ht|]. split.
  - rewrite Ht. unfold failedResult. cbn [AuditResult.verification_type].
    rewrite timedOutMessage_isTimeout. reflexivity.
  - exists a. repeat split; auto; lia.
Qed.

(** X6. The records of a result set carry the name and the category of
    their targets, and the time stamps are taken target by target. *)
Theorem records_carry_names cfg jsonrepair w websites results total processed :
  fst (POST cfg jsonrepair w websites)
  = Json 200 (ResultsBody results total processed) ->
  map AuditResult.name results = map WebsiteData.name websites
  /\ map AuditResult.category results = map WebsiteData.category websites
  /\ map AuditResult.timestamp results
     = map (stamp w) (seq 0 (List.length websites)).
Proof.
  intros Hrun.
  destruct (POST_results _ _ _ _ _ _ _ Hrun) as (-> & _).
  unfold recordsFrom. cbn [skipn].
  apply batchPromises_carried.
Qed.

(** X7. With the budget switched off, or set to zero or less, no clock
    reading interrupts anything: a run whose probe succeeds returns the
    record of every target, and no time-out is in its log. *)
Theorem disabled_budget_never_interrupts cfg jsonrepair w websites :
  enableTotalTimeout cfg = false \/ (maxTotalTime cfg <= 0)%Z ->
  websites <> [] ->
  probe w = Listed ->
  fst (POST cfg jsonrepair w websites)
  = Json 200 (ResultsBody (recordsFrom cfg jsonrepair w websites 0)
                          (List.length websites) (List.length websites))
  /\ forall p, ~ In (TimedOut p) (snd (POST cfg jsonrepair w websites)).
Proof.
  intros Hoff Hne Hl.
  destruct (POST_outcome cfg jsonrepair w websites Hne Hl) as
    [(events & Hf & Hs & Hw)|(events & q & Hq & Hc & _)].
  - rewrite recordsFrom_length in Hf. split; [exact Hf|].
    intros p Hin.
    pose proof (result_set_events cfg jsonrepair w websites _ _ _ Hf) as He.
    rewrite He in Hin. destruct Hin as [Hin|Hin]; [discriminate|].
    destruct (targetEvents_interrupted cfg jsonrepair w _ _ _ Hin) as [a Ha].
    rewrite (budget_disabled cfg w _ Hoff) in Ha. discriminate.
  - rewrite (budget_disabled cfg w q Hoff) in Hc. discriminate.
Qed.

(** X8. The waits of one target add up to at most
    [backoffBaseMs * (1 + 2 + ... + maxRetries)], and to exactly that
    when every attempt fails. *)
Theorem waits_are_bounded cfg jsonrepair w j target :
  (2 * slept (snd (task cfg jsonrepair w j target))
   <= backoffBaseMs
      * (Z.of_nat (maxRetries cfg) * (Z.of_nat (maxRetries cfg) + 1)))%Z
  /\ forall e,
       allRejected cfg w j 0 e ->
       (2 * slept (snd (task cfg jsonrepair w j target))
        = backoffBaseMs
          * (Z.of_nat (maxRetries cfg) * (Z.of_nat (maxRetries cfg) + 1)))%Z.
Proof.
  rewrite task_events. split.
  - pose proof (requestLoop_slept cfg w j 0 (Nat.le_0_l _)) as H.
    cbn [Z.of_nat] in H. lia.
  - intros e He.
    rewrite (requestLoop_exhausted cfg w j 0 e) by (try lia; assumption).
    cbn [snd]. rewrite slept_app, Nat.sub_0_r. cbn [slept].
    pose proof (retries_slept j 0 (maxRetries cfg)) as H.
    cbn [Nat.add Z.of_nat] in H. lia.
Qed.

Lemma or_present a b : present b = true -> present (or a b) = true.
Proof.
  intros Hb. unfold or. destruct (truthy a) eqn:E; [|exact Hb].
  destruct a; try reflexivity; discriminate E.
Qed.

Lemma or_truthy a b : truthy b = true -> truthy (or a b) = true.
Proof.
  intros Hb. unfold or. destruct (truthy a) eqn:E; [exact E|exact Hb].
Qed.

(** an empty list is answered with status 400 before anything is asked
    of the service, and only an empty list is *)
Lemma POST_empty cfg jsonrepair w websites :
  (websites = []
   <-> fst (POST cfg jsonrepair w websites)
       = Json 400 (ErrorBody "No websites provided" None))
  /\ (websites = [] <-> snd (POST cfg jsonrepair w websites) = [])
  /\ (websites <> [] ->
      exists events,
        snd (POST cfg jsonrepair w websites) = ListModels :: events).
Proof.
  destruct websites as [|s0 rest].
  - repeat split; auto. congruence.
  - remember (s0 :: rest) as websites eqn:E.
    assert (Hne : websites <> []) by (rewrite E; discriminate).
    assert (Hlog : exists events,
               snd (POST cfg jsonrepair w websites) = ListModels :: events).
    { destruct (probe w) eqn:Hp.
      - rewrite (POST_listed cfg jsonrepair w websites Hne Hp).
        destruct (batches_log cfg jsonrepair w websites 0 0 [] [ListModels])
          as [k [[Hs _]|(p & _ & Hs & _)]]; rewrite Hs;
          eexists; reflexivity.
      - rewrite E. unfold POST. rewrite Hp. eexists. reflexivity.
      - rewrite E. unfold POST. rewrite Hp. eexists. reflexivity. }
    assert (Hst : fst (POST cfg jsonrepair w websites)
                  <> Json 400 (ErrorBody "No websites provided" None)).
    { destruct (probe w) eqn:Hp.
      - rewrite (POST_listed cfg jsonrepair w websites Hne Hp).
        destruct (batches_log cfg jsonrepair w websites 0 0 [] [ListModels])
          as [k [[_ [body Hf]]|(p & _ & _ & Hf)]]; rewrite Hf;
          discriminate.
      - rewrite E. unfold POST. rewrite Hp. discriminate.
      - rewrite E. unfold POST. rewrite Hp. discriminate. }
    destruct Hlog as [events Hlog].
    split; [split; [intros H; contradiction|intros H; contradiction]|].
    split; [split; [intros H; contradiction|]|].
    + intros H. rewrite Hlog in H. discriminate H.
    + intros _. exists events. exact Hlog.
Qed.

(** X9. The handler answers 400 exactly when the body, once read, has
    no list of targets or an empty one. Nothing is asked of the service
    then, nor when the body cannot be read; for every list that is
    not empty the probe comes first. *)
Theorem empty_request_asks_nothing cfg jsonrepair w request :
  (request = NoList \/ request = Targets []
   <-> fst (onRequest cfg jsonrepair w request)
       = Json 400 (ErrorBody "No websites provided" None))
  /\ ((forall websites, request = Targets websites -> websites = [])
      <-> snd (onRequest cfg jsonrepair w request) = [])
  /\ (forall websites,
        request = Targets websites -> websites <> [] ->
        exists events,
          snd (onRequest cfg jsonrepair w request) = ListModels :: events).
Proof.
  destruct request as [unread| |websites]; cbn [onRequest fst snd].
  - repeat split; try discriminate; auto.
    intros [H|H]; discriminate H.
  - repeat split; try discriminate; auto.
  - destruct (POST_empty cfg jsonrepair w websites) as (H400 & Hlog & Hprobe).
    repeat split.
    + intros [H|H]; [discriminate H|]. inversion H. reflexivity.
    + intros H. right. f_equal. apply (proj2 H400). exact H.
    + intros H. apply (proj1 Hlog). apply H. reflexivity.
    + intros H ws Hws. inversion Hws; subst ws. apply (proj2 Hlog). exact H.
    + intros ws Hws Hne. inversion Hws; subst ws. apply Hprobe. exact Hne.
Qed.

(** X10. Whatever happens to a target, no field of its record is
    [undefined] or [null], and its kind is never an empty string. *)
Theorem records_have_all_fields cfg jsonrepair w j target :
  let record := fst (task cfg jsonrepair w j target) in
  present (AuditResult.has_age_verification record) = true
  /\ present (AuditResult.verification_type record) = true
  /\ present (AuditResult.confidence_score record) = true
  /\ present (AuditResult.details record) = true
  /\ truthy (AuditResult.verification_type record) = true.
Proof.
  cbn zeta. unfold task. cbn [fst].
  destruct (fst (requestLoop cfg w j 0)) as [content|message|].
  - unfold answeredResult.
    destruct (truthy (Recovery.parseRobustJSON jsonrepair content)).
    + cbn [AuditResult.has_age_verification AuditResult.verification_type
           AuditResult.confidence_score AuditResult.details].
      repeat split; try (apply or_present; reflexivity).
      apply or_truthy. reflexivity.
    + cbn [AuditResult.has_age_verification AuditResult.verification_type
           AuditResult.confidence_score AuditResult.details].
      destruct (Recovery.mentionsVerification content); repeat split.
  - unfold failedResult.
    cbn [AuditResult.has_age_verification AuditResult.verification_type
         AuditResult.confidence_score AuditResult.details].
    destruct (isTimeout message); repeat split.
  - unfold failedResult.
    cbn [AuditResult.has_age_verification AuditResult.verification_type
         AuditResult.confidence_score AuditResult.details].
    repeat split.
Qed.

End Runs.

Module RunsWorked.

Import Js Dispatch Trace Scenario DispatchFacts Handler Observed Settings Entry Runs.

Lemma mixedService_run :
  fst (POST OLLAMA_CONFIG repairNothing mixedService (sitesFrom 0 4))
  = Json 200
      (ResultsBody
         (recordsFrom OLLAMA_CONFIG repairNothing mixedService
                      (sitesFrom 0 4) 0) 4 4).
Proof. vm_compute. reflexivity. Qed.

Lemma result_set_log_witness :
  fst (POST OLLAMA_CONFIG repairNothing mixedService (sitesFrom 0 4))
  = Json 200
      (ResultsBody
         (recordsFrom OLLAMA_CONFIG repairNothing mixedService
                      (sitesFrom 0 4) 0) 4 4)
  /\ snd (POST OLLAMA_CONFIG repairNothing mixedService (sitesFrom 0 4))
     = ListModels
         :: targetEvents OLLAMA_CONFIG repairNothing mixedService 0
              (sitesFrom 0 4).
Proof.
  split; [exact mixedService_run|].
  exact (proj1 (result_set_log _ _ _ _ _ _ _ mixedService_run)).
Defined.

Lemma interrupted_run_log_witness :
  fst (onRequest OLLAMA_CONFIG repairNothing slowService
                 (Targets (sitesFrom 0 36)))
  = Caught "Audit process timed out after 600 seconds"
  /\ exists k p,
       boundary p = true
       /\ snd (onRequest OLLAMA_CONFIG repairNothing slowService
                         (Targets (sitesFrom 0 36)))
          = (ListModels
               :: targetEvents OLLAMA_CONFIG repairNothing slowService 0
                    (firstn (k * 3) (sitesFrom 0 36))
               ++ [TimedOut p])%list.
Proof.
  assert (Hrun :
    fst (onRequest OLLAMA_CONFIG repairNothing slowService
                   (Targets (sitesFrom 0 36)))
    = Caught "Audit process timed out after 600 seconds")
    by (vm_compute; reflexivity).
  split; [exact Hrun|].
  destruct (interrupted_run_log _ _ _ _ _ Hrun)
    as [[Hu _]|(websites & k & p & Hr & _ & Hb & Hs)]; [discriminate Hu|].
  inversion Hr; subst websites.
  exists k, p. split; [exact Hb|exact Hs].
Defined.

Lemma mixedService_target1_answered :
  answeredAt OLLAMA_CONFIG mixedService 1 0 2 popupAnswer.
Proof.
  split; [|split; vm_compute; reflexivity].
  intros a Ha. destruct a as [|[|a]]; try lia;
    (split; [vm_compute; reflexivity|eexists; reflexivity]).
Qed.

Lemma first_answer_ends_the_attempts_witness :
  2 <= maxRetries OLLAMA_CONFIG
  /\ answeredAt OLLAMA_CONFIG mixedService 1 0 2 popupAnswer
  /\ task OLLAMA_CONFIG repairNothing mixedService 1 (site 1)
     = (answeredResult repairNothing mixedService 1 (site 1) popupAnswer,
        [Chat 1 0; Sleep 1 1000; Chat 1 1; Sleep 1 2000; Chat 1 2]).
Proof.
  split; [reflexivity|]. split; [exact mixedService_target1_answered|].
  exact (first_answer_ends_the_attempts
           OLLAMA_CONFIG repairNothing mixedService 1 (site 1) 2 popupAnswer
           (le_n 2) mixedService_target1_answered).
Defined.

Lemma time_out_in_flight_witness :
  In (TimedOut (BeforeAttempt 9 1))
     (snd (task OLLAMA_CONFIG repairNothing hangingService 9 (site 9)))
  /\ AuditResult.verification_type
       (fst (task OLLAMA_CONFIG repairNothing hangingService 9 (site 9)))
     = text "timeout".
Proof.
  assert (Hin : In (TimedOut (BeforeAttempt 9 1))
                   (snd (task OLLAMA_CONFIG repairNothing hangingService 9
                              (site 9))))
    by (vm_compute; auto).
  split; [exact Hin|].
  exact (proj1 (proj2 (time_out_in_flight _ _ _ _ _ _ Hin))).
Defined.

Lemma records_carry_names_witness :
  fst (POST OLLAMA_CONFIG repairNothing mixedService (sitesFrom 0 4))
  = Json 200
      (ResultsBody
         (recordsFrom OLLAMA_CONFIG repairNothing mixedService
                      (sitesFrom 0 4) 0) 4 4)
  /\ map AuditResult.category
         (recordsFrom OLLAMA_CONFIG repairNothing mixedService
                      (sitesFrom 0 4) 0)
     = map WebsiteData.category (sitesFrom 0 4).
Proof.
  split; [exact mixedService_run|].
  exact (proj1 (proj2 (records_carry_names _ _ _ _ _ _ _ mixedService_run))).
Defined.

Lemma disabled_budget_never_interrupts_witness :
  (enableTotalTimeout unlimited = false \/ (maxTotalTime unlimited <= 0)%Z)
  /\ sitesFrom 0 10 <> []
  /\ probe hangingService = Listed
  /\ fst (POST unlimited repairNothing hangingService (sitesFrom 0 10))
     = Json 200
         (ResultsBody
            (recordsFrom unlimited repairNothing hangingService
                         (sitesFrom 0 10) 0)
            (List.length (sitesFrom 0 10)) (List.length (sitesFrom 0 10))).
Proof.
  assert (Hoff : enableTotalTimeout unlimited = false
                 \/ (maxTotalTime unlimited <= 0)%Z)
    by (right; apply Z.le_refl).
  assert (Hne : sitesFrom 0 10 <> []) by discriminate.
  split; [exact Hoff|]. split; [exact Hne|]. split; [reflexivity|].
  exact (proj1 (disabled_budget_never_interrupts
                  unlimited repairNothing hangingService (sitesFrom 0 10)
                  Hoff Hne eq_refl)).
Defined.

Lemma refusingService_rejected :
  allRejected OLLAMA_CONFIG refusingService 0 0 refused.
Proof.
  split; [|reflexivity].
  intros a Ha. cbn [maxRetries OLLAMA_CONFIG] in Ha.
  destruct a as [|[|[|a]]]; try lia;
    (split; [vm_compute; reflexivity|eexists; reflexivity]).
Qed.

Lemma waits_are_bounded_witness :
  allRejected OLLAMA_CONFIG refusingService 0 0 refused
  /\ (2 * slept (snd (task OLLAMA_CONFIG repairNothing refusingService 0
                           (site 0)))
      = backoffBaseMs
        * (Z.of_nat (maxRetries OLLAMA_CONFIG)
           * (Z.of_nat (maxRetries OLLAMA_CONFIG) + 1)))%Z.
Proof.
  split; [exact refusingService_rejected|].
  exact (proj2 (waits_are_bounded
                  OLLAMA_CONFIG repairNothing refusingService 0 (site 0))
               refused refusingService_rejected).
Defined.

Lemma empty_request_asks_nothing_witness :
  [site 0] <> []
  /\ (exists events,
        snd (onRequest OLLAMA_CONFIG repairNothing unreachableService
                       (Targets [site 0]))
        = ListModels :: events)
  /\ fst (onRequest OLLAMA_CONFIG repairNothing unreachableService NoList)
     = Json 400 (ErrorBody "No websites provided" None).
Proof.
  assert (Hne : [site 0] <> []) by discriminate.
  split; [exact Hne|]. split.
  - exact (proj2 (proj2 (empty_request_asks_nothing
                           OLLAMA_CONFIG repairNothing unreachableService
                           (Targets [site 0]))) _ eq_refl Hne).
  - exact (proj1 (proj1 (empty_request_asks_nothing
                           OLLAMA_CONFIG repairNothing unreachableService
                           NoList)) (or_introl eq_refl)).
Defined.

End RunsWorked.

(* ===================================================================== *)
(** ** The prompt: results *)
(* ===================================================================== *)

Module PromptFacts.

Import Text Prompt.

Lemma template_slots :
  AGE_VERIFICATION_PROMPT
  = untilUrl ++ "{url}" ++ betweenSlots ++ "{category}" ++ fromCategory.
Proof. vm_compute. reflexivity. Qed.

Lemma template_cuts :
  AGE_VERIFICATION_PROMPT
  = take 73 AGE_VERIFICATION_PROMPT
      ++ String " "
           ("{url}"
              ++ String "010"
                   ("Category:"
                      ++ String " " ("{category}" ++ fromCategory))).
Proof. vm_compute. reflexivity. Qed.

Lemma untilUrl_cut s :
  untilUrl ++ s = take 73 AGE_VERIFICATION_PROMPT ++ String " " s.
Proof. vm_compute. reflexivity. Qed.

Lemma betweenSlots_cut s :
  betweenSlots ++ s = String "010" ("Category:" ++ String " " s).
Proof. vm_compute. reflexivity. Qed.

Lemma getSubstitution_plain matched before after replacement :
  occurs "$" replacement = false ->
  getSubstitution matched before after replacement = replacement.
Proof.
  induction replacement as [|c r IH]; [reflexivity|].
  cbn [occurs getSubstitution]. intros H.
  apply orb_false_elim in H as [Hc Hr]. rewrite Hc, (IH Hr). reflexivity.
Qed.

Lemma startsWith_self m b : startsWith m (m ++ b) = true.
Proof.
  induction m as [|c m IH]; [reflexivity|].
  cbn [append startsWith]. rewrite Ascii.eqb_refl. exact IH.
Qed.

Lemma drop_self m b : drop (length m) (m ++ b) = b.
Proof. induction m as [|c m IH]; [destruct b; reflexivity|exact IH]. Qed.

Lemma replaceFirst_here pattern replacement before b :
  replaceFirst pattern replacement before (pattern ++ b)
  = getSubstitution pattern before b replacement ++ b.
Proof.
  destruct pattern as [|c m].
  - destruct b; reflexivity.
  - cbn [append replaceFirst].
    change (String c (m ++ b)) with (String c m ++ b).
    rewrite startsWith_self, drop_self. reflexivity.
Qed.

(** the search passes a stretch that does not hold the pattern and
    ends before a character foreign to it *)
Lemma replaceFirst_cut c pattern replacement before a b :
  occurs c pattern = false -> pattern <> EmptyString ->
  includes a pattern = false ->
  replaceFirst pattern replacement before (a ++ String c b)
  = a ++ String c (replaceFirst pattern replacement
                                (before ++ a ++ String c EmptyString) b).
Proof.
  intros Hc Hne. revert before.
  induction a as [|x a IH]; intros before Ha.
  - cbn [append]. cbn [replaceFirst].
    rewrite (TextFacts.startsWith_absent_head c pattern b Hc Hne).
    reflexivity.
  - cbn [includes] in Ha. apply orb_false_elim in Ha as [Hs Ha].
    cbn [append replaceFirst].
    change (String x (a ++ String c b)) with (String x a ++ String c b).
    rewrite (TextFacts.startsWith_app_absent c pattern (String x a) b Hc), Hs.
    rewrite IH by assumption.
    assert (E : (before ++ String x EmptyString) ++ a ++ String c EmptyString
                = before ++ String x (a ++ String c EmptyString)).
    { clear. induction before as [|y before IH]; [reflexivity|].
      cbn [append]. cbn [append] in IH. rewrite IH. reflexivity. }
    rewrite E. reflexivity.
Qed.

(** X17. The prompt of a target is the template with the url in the
    first slot and the category, or [Unknown] when there is none or
    it is empty, in the second. This holds when neither has a dollar
    sign, which [replace] reads as a reference, and the url does not
    hold the second slot. *)
Theorem prompt_fills_both_slots website :
  occurs "$" (WebsiteData.url website) = false ->
  includes (WebsiteData.url website) "{category}" = false ->
  occurs "$" (categoryOrUnknown website) = false ->
  prompt website
  = untilUrl ++ WebsiteData.url website ++ betweenSlots
      ++ categoryOrUnknown website ++ fromCategory.
Proof.
  intros Hu Hc Hk. unfold prompt. rewrite template_cuts.
  rewrite (replaceFirst_cut " " "{url}") by (reflexivity || discriminate).
  rewrite (replaceFirst_here "{url}"), getSubstitution_plain by assumption.
  rewrite (replaceFirst_cut " " "{category}")
    by (reflexivity || discriminate).
  rewrite (replaceFirst_cut "010" "{category}")
    by (reflexivity || discriminate || assumption).
  rewrite (replaceFirst_cut " " "{category}" _ _ "Category:")
    by (reflexivity || discriminate).
  rewrite (replaceFirst_here "{category}"), getSubstitution_plain
    by assumption.
  rewrite untilUrl_cut, betweenSlots_cut. reflexivity.
Qed.

End PromptFacts.

Module PromptWorked.

Import Text Prompt PromptFacts Scenario.

Lemma prompt_fills_both_slots_witness :
  occurs "$" (WebsiteData.url (site 7)) = false
  /\ includes (WebsiteData.url (site 7)) "{category}" = false
  /\ occurs "$" (categoryOrUnknown (site 7)) = false
  /\ prompt (site 7)
     = untilUrl ++ "https://site7.example" ++ betweenSlots
         ++ "Gaming" ++ fromCategory.
Proof.
  split; [reflexivity|]. split; [reflexivity|]. split; [reflexivity|].
  exact (prompt_fills_both_slots (site 7) eq_refl eq_refl eq_refl).
Defined.

End PromptWorked.

(* ===================================================================== *)
(** ** The audit page: results *)
(* ===================================================================== *)

Module UploadFacts.

Import Text Upload.

Lemma trimEnd_idem s : trimEnd (trimEnd s) = trimEnd s.
Proof.
  induction s as [|c s IH]; [reflexivity|].
  cbn [trimEnd]. destruct (trimEnd s) as [|a t] eqn:E.
  - destruct (space c) eqn:Ec; [reflexivity|].
    cbn [trimEnd]. rewrite Ec. reflexivity.
  - cbn [trimEnd]. cbn [trimEnd] in IH. rewrite IH. reflexivity.
Qed.

Lemma trimEnd_head c s :
  space c = false -> exists t, trimEnd (String c s) = String c t.
Proof.
  intros Hc. cbn [trimEnd]. destruct (trimEnd s).
  - rewrite Hc. eexists. reflexivity.
  - eexists. reflexivity.
Qed.

Lemma trimStart_shape s :
  trimStart s = EmptyString
  \/ exists c t, trimStart s = String c t /\ space c = false.
Proof.
  induction s as [|c s IH]; [left; reflexivity|].
  cbn [trimStart]. destruct (space c) eqn:Ec; [exact IH|].
  right. exists c, s. split; [reflexivity|exact Ec].
Qed.

Lemma trim_idem s : trim (trim s) = trim s.
Proof.
  unfold trim. destruct (trimStart_shape s) as [->|(c & t & -> & Hc)].
  - reflexivity.
  - destruct (trimEnd_head c t Hc) as [t' Ht]. rewrite Ht.
    cbn [trimStart]. rewrite Hc, <- Ht. apply trimEnd_idem.
Qed.

(** trimming adds no character *)
Lemma trimEnd_occurs c s : occurs c (trimEnd s) = true -> occurs c s = true.
Proof.
  induction s as [|x s IH]; [discriminate|].
  cbn [trimEnd]. destruct (trimEnd s) as [|a t].
  - destruct (space x); [discriminate|].
    cbn [occurs]. intros H. apply orb_prop in H as [H|H]; [|discriminate].
    rewrite H. reflexivity.
  - cbn [occurs] in *. intros H. apply orb_prop in H as [H|H].
    + rewrite H. reflexivity.
    + rewrite (IH H). apply orb_true_r.
Qed.

Lemma trimStart_occurs c s : occurs c (trimStart s) = true -> occurs c s = true.
Proof.
  induction s as [|x s IH]; [discriminate|].
  cbn [trimStart]. destruct (space x); [|auto].
  intros H. cbn [occurs]. rewrite (IH H). apply orb_true_r.
Qed.

Lemma trim_occurs c s : occurs c (trim s) = true -> occurs c s = true.
Proof. intros H. apply trimStart_occurs, trimEnd_occurs, H. Qed.

Lemma trim_absent c s : occurs c s = false -> occurs c (trim s) = false.
Proof.
  intros H. destruct (occurs c (trim s)) eqn:E; [|reflexivity].
  rewrite (trim_occurs c s E) in H. discriminate.
Qed.

(** a character that is not white space survives the trimming *)
Lemma trimEnd_keeps c s :
  space c = false -> occurs c s = true -> occurs c (trimEnd s) = true.
Proof.
  intros Hc. induction s as [|x s IH]; [discriminate|].
  cbn [occurs trimEnd]. intros H.
  destruct (Ascii.eqb_spec x c) as [->|Hx].
  - destruct (trimEnd s).
    + rewrite Hc. cbn [occurs]. rewrite Ascii.eqb_refl. reflexivity.
    + cbn [occurs]. rewrite Ascii.eqb_refl. reflexivity.
  - cbn [orb] in H. specialize (IH H).
    destruct (trimEnd s); [discriminate|].
    cbn [occurs] in *. rewrite IH. apply orb_true_r.
Qed.

Lemma trimStart_keeps c s :
  space c = false -> occurs c s = true -> occurs c (trimStart s) = true.
Proof.
  intros Hc. induction s as [|x s IH]; [discriminate|].
  cbn [occurs trimStart]. intros H.
  destruct (space x) eqn:Ex.
  - destruct (Ascii.eqb_spec x c) as [->|Hx]; [congruence|].
    apply IH. exact H.
  - cbn [occurs]. exact H.
Qed.

Lemma nonBlank_occurs c s :
  space c = false -> occurs c s = true -> nonBlank s = true.
Proof.
  intros Hc H. unfold nonBlank, trim.
  pose proof (trimEnd_keeps c _ Hc (trimStart_keeps c s Hc H)) as Hk.
  destruct (trimEnd (trimStart s)); [discriminate|reflexivity].
Qed.

(** *** [split] and [join] *)

Lemma split_nonempty sep s : split sep s <> [].
Proof.
  destruct s as [|c s]; cbn [split]; [discriminate|].
  destruct (Ascii.eqb c sep); [discriminate|].
  destruct (split sep s); discriminate.
Qed.

Lemma split_pieces sep s :
  Forall (fun piece => occurs sep piece = false) (split sep s).
Proof.
  induction s as [|c s IH]; cbn [split].
  - repeat constructor.
  - destruct (Ascii.eqb c sep) eqn:E.
    + constructor; [reflexivity|exact IH].
    + destruct (split sep s) as [|piece pieces].
      * repeat constructor. cbn [occurs]. rewrite E. reflexivity.
      * inversion IH; subst. constructor; [|assumption].
        cbn [occurs]. rewrite E. assumption.
Qed.

Lemma split_absent sep s : occurs sep s = false -> split sep s = [s].
Proof.
  induction s as [|c s IH]; [reflexivity|].
  cbn [occurs split]. intros H. apply orb_false_elim in H as [Hc Hs].
  rewrite Hc, (IH Hs). reflexivity.
Qed.

Lemma split_app sep a b :
  occurs sep a = false ->
  split sep (a ++ String sep b) = a :: split sep b.
Proof.
  induction a as [|c a IH]; cbn [append occurs split]; intros H.
  - rewrite Ascii.eqb_refl. reflexivity.
  - apply orb_false_elim in H as [Hc Ha].
    rewrite Hc, (IH Ha). reflexivity.
Qed.

Lemma split_join sep l :
  l <> [] ->
  Forall (fun piece => occurs sep piece = false) l ->
  split sep (join (String sep EmptyString) l) = l.
Proof.
  intros Hne Hl. induction Hl as [|piece l Hp Hl IH]; [congruence|].
  destruct l as [|next l].
  - cbn [join]. apply split_absent, Hp.
  - change (join (String sep EmptyString) (piece :: next :: l))
      with (piece ++ String sep (join (String sep EmptyString) (next :: l))).
    rewrite split_app by assumption. rewrite IH by discriminate.
    reflexivity.
Qed.

Lemma occurs_app c a b : occurs c (a ++ b) = occurs c a || occurs c b.
Proof.
  induction a as [|x a IH]; [reflexivity|].
  cbn [append occurs]. rewrite IH, orb_assoc. reflexivity.
Qed.

Lemma nonBlank_trim line :
  nonBlank line = true -> trim line <> EmptyString.
Proof. unfold nonBlank. destruct (trim line); [discriminate|discriminate]. Qed.

Lemma lines_nonBlank content :
  Forall (fun line => nonBlank line = true) (lines content).
Proof.
  unfold lines. apply Forall_forall. intros line Hin.
  apply filter_In in Hin. apply Hin.
Qed.

Lemma dataLine_url headers line :
  occurs "," (WebsiteData.url (dataLine headers line)) = false
  /\ trim (WebsiteData.url (dataLine headers line))
     = WebsiteData.url (dataLine headers line).
Proof.
  unfold dataLine. cbn [WebsiteData.url].
  pose proof (split_pieces "," line) as Hp.
  pose proof (split_nonempty "," line) as Hne.
  destruct (split "," line) as [|piece pieces]; [congruence|].
  inversion Hp; subst. cbn [map hd].
  split; [apply trim_absent; assumption|apply trim_idem].
Qed.

Lemma reportLine_head row :
  exists rest, reportLine row = url row ++ String "," rest.
Proof. unfold reportLine. cbn [join]. eexists. reflexivity. Qed.

Lemma reportLine_nonBlank row : nonBlank (reportLine row) = true.
Proof.
  destruct (reportLine_head row) as [rest ->].
  apply (nonBlank_occurs ","); [reflexivity|].
  rewrite occurs_app. cbn [occurs]. rewrite Ascii.eqb_refl.
  apply orb_true_r.
Qed.

Lemma filter_all {A} (f : A -> bool) l :
  Forall (fun x => f x = true) l -> filter f l = l.
Proof.
  induction 1 as [|x l Hx Hl IH]; [reflexivity|].
  cbn [filter]. rewrite Hx, IH. reflexivity.
Qed.

Lemma isOneOf_app category a b :
  isOneOf category (a ++ b)%list = isOneOf category a || isOneOf category b.
Proof.
  destruct category as [c|]; [|reflexivity].
  cbn [isOneOf]. apply existsb_app.
Qed.

(** X18. A file that is not taken for CSV gives one target per line
    that is not blank, in the order of the lines: its url is the
    line without the white space around it, which is never empty, and
    it has neither name nor category. Nothing is thrown. *)
Theorem text_upload_keeps_every_line content filename :
  endsWith filename ".csv" = false ->
  exists sites,
    parseFileContent content filename = Some sites
    /\ map WebsiteData.url sites = map trim (lines content)
    /\ Forall (fun site =>
                 WebsiteData.url site <> EmptyString
                 /\ trim (WebsiteData.url site) = WebsiteData.url site
                 /\ WebsiteData.name site = None
                 /\ WebsiteData.category site = None) sites.
Proof.
  intros Hf. unfold parseFileContent. rewrite Hf.
  eexists. split; [reflexivity|]. split.
  - rewrite map_map. reflexivity.
  - apply Forall_map.
    eapply Forall_impl; [|apply lines_nonBlank].
    intros line Hl. cbn [WebsiteData.url WebsiteData.name WebsiteData.category].
    repeat split; [apply nonBlank_trim, Hl|apply trim_idem].
Qed.

(** X19. In a file taken for CSV the first line that is not blank is
    never a target, whatever it holds, and with no such line line 62
    throws. Every other such line gives one target, whose url is the
    trimmed text before the first comma. *)
Theorem csv_upload_spends_a_line_on_the_header content filename :
  endsWith filename ".csv" = true ->
  match parseFileContent content filename with
  | None => lines content = []
  | Some sites =>
      exists header dataLines,
        lines content = header :: dataLines
        /\ List.length sites = List.length dataLines
        /\ Forall (fun site =>
                     occurs "," (WebsiteData.url site) = false
                     /\ trim (WebsiteData.url site) = WebsiteData.url site)
                  sites
  end.
Proof.
  intros Hf. unfold parseFileContent. rewrite Hf.
  destruct (lines content) as [|header dataLines]; [reflexivity|].
  exists header, dataLines. split; [reflexivity|].
  split; [apply length_map|].
  apply Forall_map, Forall_forall. intros line _. apply dataLine_url.
Qed.

(** X20. The report that [exportReport] writes, read back by
    [parseFileContent], gives the urls of the rows and nothing else:
    the header line has [Name] and [Category] where line 69 and 70 look
    for [name] and [category]. This holds when no url has a comma and
    no row a line break. *)
Theorem exported_report_reimports_urls_only auditReport filename :
  endsWith filename ".csv" = true ->
  Forall (fun row =>
            occurs "," (url row) = false
            /\ occurs newline (reportLine row) = false)
         (results auditReport) ->
  parseFileContent (csvContent auditReport) filename
  = Some (map (fun row => WebsiteData.Make (trim (url row)) None None)
              (results auditReport)).
Proof.
  intros Hf Hrows. unfold parseFileContent. rewrite Hf.
  unfold lines, csvContent.
  rewrite split_join;
    [ | discriminate
      | constructor;
        [ reflexivity
        | apply Forall_map; eapply Forall_impl; [|exact Hrows];
          intros row [_ Hn]; exact Hn ] ].
  cbn [filter].
  replace (nonBlank (join "," reportHeaders)) with true by reflexivity.
  rewrite filter_all
    by (apply Forall_map, Forall_forall; intros row _;
        apply reportLine_nonBlank).
  f_equal. rewrite map_map. apply map_ext_in. intros row Hin.
  rewrite Forall_forall in Hrows. destruct (Hrows row Hin) as [Hc _].
  unfold dataLine.
  replace (includes (map trim (split "," (join "," reportHeaders))) "name")
    with false by reflexivity.
  replace (includes (map trim (split "," (join "," reportHeaders))) "category")
    with false by reflexivity.
  destruct (reportLine_head row) as [rest ->].
  rewrite split_app by assumption. reflexivity.
Qed.

(** X21. In demo mode a row says that there is no verification exactly
    when its method is [None]; the notes are never left out; the
    categories of [restricted] are verified whatever [Math.random]
    returns; and url, name and category are those of the site. *)
Theorem demo_rows_are_consistent random site :
  let row := demoResult random site in
  (ageVerification row = Some false <-> method row = Some "None")
  /\ (exists n, notes row = Some n /\ n <> EmptyString)
  /\ (restricted (WebsiteData.category site) = true ->
      ageVerification row = Some true)
  /\ url row = WebsiteData.url site
  /\ name row = WebsiteData.name site
  /\ category row = WebsiteData.category site.
Proof.
  cbn zeta. unfold demoResult, verdict, restricted.
  rewrite !isOneOf_app.
  destruct (isOneOf (WebsiteData.category site) adultCategories);
    [|destruct (isOneOf (WebsiteData.category site) alcoholCategories);
      [|destruct (isOneOf (WebsiteData.category site) gamblingCategories);
        [|destruct (isOneOf (WebsiteData.category site) weaponCategories);
          [|replace (isOneOf (WebsiteData.category site) ["Vaping"; "Fireworks"])
              with (isOneOf (WebsiteData.category site) ["Vaping"]
                    || isOneOf (WebsiteData.category site) ["Fireworks"])
              by (destruct (WebsiteData.category site); cbn [isOneOf existsb];
                  [rewrite !orb_false_r|]; reflexivity);
            destruct (isOneOf (WebsiteData.category site) ["Vaping"]);
            [|destruct (isOneOf (WebsiteData.category site) ["Fireworks"]);
              [|destruct (isOneOf (WebsiteData.category site) ["Gaming"]);
                [|destruct (isOneOf (WebsiteData.category site)
                                    socialCategories)]]]]]]];
    cbn [orb]; cbn zeta;
    try match goal with
        | |- context [above ?t random] => destruct (above t random)
        end;
    cbn [ageVerification method notes url name category];
    (split; [split; intros H; (discriminate H || reflexivity)|]);
    (split; [eexists; split; [reflexivity|discriminate]|]);
    (split; [intros H; (discriminate H || reflexivity)|]);
    repeat split.
Qed.

Lemma split_glue sep a b :
  split sep (a ++ String sep b) = (split sep a ++ split sep b)%list.
Proof.
  induction a as [|c a IH]; cbn [append split].
  - rewrite Ascii.eqb_refl. reflexivity.
  - destruct (Ascii.eqb c sep); rewrite IH; [reflexivity|].
    pose proof (split_nonempty sep a) as Hne.
    destruct (split sep a) as [|piece pieces]; [congruence|reflexivity].
Qed.

(** the targets of two texts joined by a line break are those of the
    first followed by those of the second *)
Lemma parseFileContent_glue a b filename :
  endsWith filename ".csv" = false ->
  exists sitesA sitesB,
    parseFileContent a filename = Some sitesA
    /\ parseFileContent b filename = Some sitesB
    /\ parseFileContent (a ++ String newline b) filename
       = Some (sitesA ++ sitesB)%list
    /\ parseFileContent (a ++ String newline EmptyString) filename
       = Some sitesA.
Proof.
  intros Hf. unfold parseFileContent. rewrite Hf.
  eexists. eexists. split; [reflexivity|]. split; [reflexivity|].
  unfold lines. rewrite !split_glue, !filter_app, !map_app.
  split; [reflexivity|].
  cbn [split filter]. replace (nonBlank EmptyString) with false by reflexivity.
  cbn [map]. rewrite app_nil_r. reflexivity.
Qed.

(** X22. When the texts of two files not taken for CSV have been
    read, one after the other, [websites] holds what it would hold had
    one file been read with the first text, a line break and the
    second text: each reading appends the targets of its text. A line
    break at the end of a text changes nothing. The order is that in
    which the readings complete, which the code leaves open. *)
Theorem text_uploads_concatenate prev a b nameA nameB :
  endsWith nameA ".csv" = false ->
  endsWith nameB ".csv" = false ->
  onload (onload prev a nameA) b nameB
  = onload prev (a ++ String newline b) nameA
  /\ onload prev (a ++ String newline EmptyString) nameA
     = onload prev a nameA.
Proof.
  intros HA HB. unfold onload.
  destruct (parseFileContent_glue a b nameA HA)
    as (sitesA & sitesB & Ha & Hb & Hab & Hnl).
  rewrite Ha, Hab, Hnl.
  assert (Hb' : parseFileContent b nameB = Some sitesB).
  { unfold parseFileContent in *. rewrite HA in Hb. rewrite HB. exact Hb. }
  rewrite Hb', app_assoc. split; reflexivity.
Qed.

End UploadFacts.

Module UploadWorked.

Import Text Upload UploadSamples UploadFacts.

Lemma text_upload_keeps_every_line_witness :
  endsWith "sites.txt" ".csv" = false
  /\ parseFileContent listing "sites.txt"
     = Some [ WebsiteData.Make "https://a.example" None None;
              WebsiteData.Make "https://b.example" None None ].
Proof.
  split; [reflexivity|].
  destruct (text_upload_keeps_every_line listing "sites.txt" eq_refl)
    as (sites & Hp & _).
  rewrite Hp. vm_compute in Hp. rewrite Hp. reflexivity.
Defined.

Lemma csv_upload_spends_a_line_on_the_header_witness :
  endsWith "sites.csv" ".csv" = true
  /\ parseFileContent headless "sites.csv"
     = Some [ WebsiteData.Make "https://b.example" None None ]
  /\ exists header dataLines,
       lines headless = header :: dataLines
       /\ List.length [ WebsiteData.Make "https://b.example" None None ]
          = List.length dataLines.
Proof.
  split; [reflexivity|].
  assert (Hp : parseFileContent headless "sites.csv"
               = Some [ WebsiteData.Make "https://b.example" None None ])
    by (vm_compute; reflexivity).
  split; [exact Hp|].
  pose proof (csv_upload_spends_a_line_on_the_header headless "sites.csv"
                eq_refl) as H.
  rewrite Hp in H. destruct H as (header & dataLines & Hl & Hn & _).
  exists header, dataLines. split; [exact Hl|exact Hn].
Defined.

Lemma storedReport_plain :
  Forall (fun row =>
            occurs "," (url row) = false
            /\ occurs newline (reportLine row) = false)
         (results storedReport).
Proof. repeat constructor. Qed.

Lemma exported_report_reimports_urls_only_witness :
  endsWith "audit-report-2025-01-01.csv" ".csv" = true
  /\ Forall (fun row =>
               occurs "," (url row) = false
               /\ occurs newline (reportLine row) = false)
            (results storedReport)
  /\ parseFileContent (csvContent storedReport) "audit-report-2025-01-01.csv"
     = Some [ WebsiteData.Make "https://a.example" None None;
              WebsiteData.Make "https://b.example" None None ].
Proof.
  split; [reflexivity|]. split; [exact storedReport_plain|].
  exact (exported_report_reimports_urls_only
           storedReport "audit-report-2025-01-01.csv" eq_refl
           storedReport_plain).
Defined.

Lemma demo_rows_are_consistent_witness :
  restricted (Some "Fireworks") = true
  /\ ageVerification
       (demoResult 0 (WebsiteData.Make "https://www.galacticfireworks.co.uk"
                                       (Some "Galactic Fireworks")
                                       (Some "Fireworks")))
     = Some true.
Proof.
  split; [reflexivity|].
  exact (proj1 (proj2 (proj2 (demo_rows_are_consistent 0
           (WebsiteData.Make "https://www.galacticfireworks.co.uk"
                             (Some "Galactic Fireworks")
                             (Some "Fireworks"))))) eq_refl).
Defined.

Lemma text_uploads_concatenate_witness :
  endsWith "first.txt" ".csv" = false
  /\ endsWith "second.txt" ".csv" = false
  /\ onload (onload [] listing "first.txt") "https://c.example" "second.txt"
     = [ WebsiteData.Make "https://a.example" None None;
         WebsiteData.Make "https://b.example" None None;
         WebsiteData.Make "https://c.example" None None ]
  /\ onload [] (listing ++ String newline "https://c.example") "first.txt"
     = [ WebsiteData.Make "https://a.example" None None;
         WebsiteData.Make "https://b.example" None None;
         WebsiteData.Make "https://c.example" None None ].
Proof.
  split; [reflexivity|]. split; [reflexivity|].
  assert (Hjoined :
    onload [] (listing ++ String newline "https://c.example") "first.txt"
    = [ WebsiteData.Make "https://a.example" None None;
        WebsiteData.Make "https://b.example" None None;
        WebsiteData.Make "https://c.example" None None ])
    by (vm_compute; reflexivity).
  split; [|exact Hjoined].
  rewrite (proj1 (text_uploads_concatenate
                    [] listing "https://c.example" "first.txt" "second.txt"
                    eq_refl eq_refl)).
  exact Hjoined.
Defined.

End UploadWorked.
